(** * TinyUSB custom class drivers: X360 gamepad, MS OS 1.0 responder, custom HID

    A shallow embedding of
    - [examples/device/x360_gamepad/src/class/x360/x360_device.c] (with
      [x360.h], [x360_device.h] and the example's [tusb_config.h]),
    - [examples/device/x360_gamepad/src/custom_driver.c],
    - the custom HID class driver [custom_hid_device.c],
    and the properties of these drivers.

    Conventions.  C integers are [Z] with the conversions of the source written
    out ([Z.land _ 0xFF] for a cast to [uint8_t], [_ mod 65536] for a
    [uint32_t] passed as [uint16_t]).  The instance arrays are lists, a
    [p_itf] pointer is the pair of an index and the instance found there, and
    a store through [p_itf] is a list insert at that index.  The device stack
    is threaded through every function as an explicit state; what the drivers
    hand to it, and the weak application callbacks they invoke, are appended
    to a trace.  The application is not part of the drivers: which weak
    callbacks it defines and what they return are parameters, and what it
    does in reaction to a callback is a later call of its own.  [TU_VERIFY]
    and [TU_ASSERT] both leave the function with [false] (0 for [uint16_t]);
    the breakpoint of [TU_ASSERT] is not modelled. *)

From Stdlib Require Import ZArith Lia Bool.
From Stdlib Require String Ascii.
Import String.StringSyntax.
Delimit Scope string_scope with string.
From stdpp Require Import base numbers list.

Open Scope Z_scope.

(** ** The device stack, as far as the drivers see it *)

Module Usbd.

(** The stack's own headers ([tusb_types.h], [tusb_common.h], [usbd_pvt.h])
    are not among the sources.  What the drivers use of them is given here
    with the values of the USB 2.0 standard, which the spec's request bytes
    (0xC0 vendor device, 0x21 and 0xA1 class interface) agree with. *)

(** Modelled from the spec: [tusb_request_type_t], standard requests. *)
Definition TUSB_REQ_TYPE_STANDARD : Z := 0.
(** Modelled from the spec: [tusb_request_type_t], class requests. *)
Definition TUSB_REQ_TYPE_CLASS : Z := 1.
(** Modelled from the spec: [tusb_request_type_t], vendor requests. *)
Definition TUSB_REQ_TYPE_VENDOR : Z := 2.

(** Modelled from the spec: [tusb_request_recipient_t], the device. *)
Definition TUSB_REQ_RCPT_DEVICE : Z := 0.
(** Modelled from the spec: [tusb_request_recipient_t], an interface. *)
Definition TUSB_REQ_RCPT_INTERFACE : Z := 1.

(** Modelled from the spec: [control_stage_t], the SETUP stage. *)
Definition CONTROL_STAGE_SETUP : Z := 1.
(** Modelled from the spec: [control_stage_t], the DATA stage. *)
Definition CONTROL_STAGE_DATA : Z := 2.
(** Modelled from the spec: [control_stage_t], the ACK stage. *)
Definition CONTROL_STAGE_ACK : Z := 3.

(** Modelled from the spec: [xfer_result_t], success. *)
Definition XFER_RESULT_SUCCESS : Z := 0.
(** Modelled from the spec: [xfer_result_t], the first of the failures. *)
Definition XFER_RESULT_FAILED : Z := 1.

(** Modelled from the spec: descriptor type of an endpoint descriptor. *)
Definition TUSB_DESC_ENDPOINT : Z := 0x05.
(** Modelled from the spec: transfer type of an interrupt endpoint. *)
Definition TUSB_XFER_INTERRUPT : Z := 3.
(** Modelled from the spec: the standard request GET_DESCRIPTOR. *)
Definition TUSB_REQ_GET_DESCRIPTOR : Z := 6.
(** Modelled from the spec: [bInterfaceClass] of HID, 0x03. *)
Definition TUSB_CLASS_HID : Z := 3.

(** Modelled from the spec: size of the packed interface descriptor. *)
Definition sizeof_tusb_desc_interface_t : Z := 9.
(** Modelled from the spec: size of the packed endpoint descriptor. *)
Definition sizeof_tusb_desc_endpoint_t : Z := 7.

(** Modelled from the spec: [tusb_control_request_t], the 8-byte SETUP
    packet.  [bmRequestType] is a union of the byte and the bitfields
    recipient (bits 0-4), type (bits 5-6), direction (bit 7). *)
Record tusb_control_request_t := {
  bmRequestType : Z;
  bRequest : Z;
  wValue : Z;
  wIndex : Z;
  wLength : Z
}.

(** Modelled from the spec: the bitfield [bmRequestType_bit.recipient]. *)
Definition bmRequestType_bit_recipient (r : tusb_control_request_t) : Z :=
  Z.land (bmRequestType r) 0x1F.
(** Modelled from the spec: the bitfield [bmRequestType_bit.type]. *)
Definition bmRequestType_bit_type (r : tusb_control_request_t) : Z :=
  Z.land (Z.shiftr (bmRequestType r) 5) 0x03.
(** Modelled from the spec: the bitfield [bmRequestType_bit.direction]. *)
Definition bmRequestType_bit_direction (r : tusb_control_request_t) : Z :=
  Z.land (Z.shiftr (bmRequestType r) 7) 0x01.

(** Modelled from the spec: [tu_u16_high], the high byte of a 16-bit value. *)
Definition tu_u16_high (ui16 : Z) : Z := Z.land (Z.shiftr ui16 8) 0xFF.
(** Modelled from the spec: [tu_u16_low], the low byte of a 16-bit value. *)
Definition tu_u16_low (ui16 : Z) : Z := Z.land ui16 0xFF.

(** Modelled from the spec: [tu_desc_len], the [bLength] byte of the
    descriptor that starts the given bytes; a read past the end of the
    modelled bytes yields the default of [!!!] on [Z], which is 1. *)
Definition tu_desc_len (p_desc : list Z) : Z := p_desc !!! 0%nat.
(** Modelled from the spec: [tu_desc_type], the [bDescriptorType] byte. *)
Definition tu_desc_type (p_desc : list Z) : Z := p_desc !!! 1%nat.
(** Modelled from the spec: [tu_desc_next], the bytes after this descriptor. *)
Definition tu_desc_next (p_desc : list Z) : list Z :=
  drop (Z.to_nat (tu_desc_len p_desc)) p_desc.

(** [memcpy (dst + off, src, n)] on a buffer held as a list. *)
Definition memcpy_at (dst : list Z) (off : nat) (src : list Z) (n : nat) : list Z :=
  take off dst ++ take n src ++ drop (off + n) dst.

(** Modelled from the spec: [tu_memcpy_s] of [tusb_common.h] is not among the
    sources; it copies [count] bytes when they fit into [destsz] and reports
    an error otherwise. *)
Definition tu_memcpy_s (dest : list Z) (destsz : Z) (src : list Z) (count : Z)
  : Z * list Z :=
  if destsz <? count then (-1, dest)
  else (0, memcpy_at dest 0 src (Z.to_nat count)).

(** Modelled from the spec: [tu_edpt_state_t], the per-endpoint flags of the
    stack: a transfer is outstanding, the endpoint is claimed. *)
Record tu_edpt_state_t := { busy : bool; claimed : bool }.

(** An endpoint with nothing outstanding and no claim on it. *)
Definition edpt_idle : tu_edpt_state_t := {| busy := false; claimed := false |}.

(** A buffer handed to the stack: application memory (an address, 0 is
    [NULL]) or a buffer that lives inside the driver. *)
Inductive buffer_t (D : Type) :=
| AppBuffer (ptr : Z)
| DriverBuffer (d : D).
Arguments AppBuffer {D} ptr.
Arguments DriverBuffer {D} d.

Section Stack.
Context {D A : Type}.

(** What the stack and the application observe, in order of occurrence. *)
Inductive usbd_event :=
| EvEdptXfer (rhport ep_addr : Z) (buffer : buffer_t D) (total_bytes : Z)
| EvControlXfer (rhport : Z) (request : tusb_control_request_t)
                (buffer : buffer_t D) (len : Z)
| EvControlStatus (rhport : Z) (request : tusb_control_request_t)
| EvApp (a : A).

Record usbd_t := {
  ep_status : Z -> tu_edpt_state_t;
  trace : list usbd_event
}.

(** Modelled from the spec: the parts of the stack below the drivers'
    horizon are not among the sources and are taken as parameters: whether
    the controller takes a transfer, whether it opens an endpoint, and
    whether a control data stage can be started.  Each may depend on the
    whole history. *)
Record usbd_port_t := {
  dcd_edpt_xfer : usbd_t -> Z -> Z -> buffer_t D -> Z -> bool;
  usbd_edpt_open : usbd_t -> Z -> list Z -> bool;
  control_xfer_start : usbd_t -> Z -> tusb_control_request_t -> buffer_t D -> Z -> bool
}.

Definition set_ep_status (ep_addr : Z) (s : tu_edpt_state_t) (u : usbd_t) : usbd_t :=
  {| ep_status := fun e => if e =? ep_addr then s else ep_status u e;
     trace := trace u |}.

Definition log (e : usbd_event) (u : usbd_t) : usbd_t :=
  {| ep_status := ep_status u; trace := trace u ++ [e] |}.

(** Modelled from the spec: [usbd_edpt_claim] is not among the sources; the
    claim is granted when the endpoint is neither busy nor already
    claimed, and fails fast otherwise. *)
Definition usbd_edpt_claim (rhport ep_addr : Z) (u : usbd_t) : bool * usbd_t :=
  let s := ep_status u ep_addr in
  if negb (busy s) && negb (claimed s)
  then (true, set_ep_status ep_addr {| busy := busy s; claimed := true |} u)
  else (false, u).

(** Modelled from the spec: [usbd_edpt_busy] is not among the sources. *)
Definition usbd_edpt_busy (rhport ep_addr : Z) (u : usbd_t) : bool :=
  busy (ep_status u ep_addr).

(** Modelled from the spec: [usbd_edpt_xfer] is not among the sources; it
    enqueues a transfer on an endpoint that has none outstanding (at most one
    is outstanding per endpoint) and marks the endpoint busy.  When the
    controller refuses, the endpoint is handed back idle. *)
Definition usbd_edpt_xfer (P : usbd_port_t) (rhport ep_addr : Z)
    (buffer : buffer_t D) (total_bytes : Z) (u : usbd_t) : bool * usbd_t :=
  let s := ep_status u ep_addr in
  if busy s then (false, u)
  else if dcd_edpt_xfer P u rhport ep_addr buffer total_bytes
  then (true, log (EvEdptXfer rhport ep_addr buffer total_bytes)
                  (set_ep_status ep_addr {| busy := true; claimed := claimed s |} u))
  else (false, set_ep_status ep_addr edpt_idle u).

(** Modelled from the spec: [tud_control_xfer] is not among the sources; it
    starts the data stage of the control transfer with the given buffer
    and length. *)
Definition tud_control_xfer (P : usbd_port_t) (rhport : Z)
    (request : tusb_control_request_t) (buffer : buffer_t D) (len : Z)
    (u : usbd_t) : bool * usbd_t :=
  (control_xfer_start P u rhport request buffer len,
   log (EvControlXfer rhport request buffer len) u).

(** Modelled from the spec: [tud_control_status] is not among the sources;
    it sends the zero-length status packet. *)
Definition tud_control_status (rhport : Z) (request : tusb_control_request_t)
    (u : usbd_t) : usbd_t :=
  log (EvControlStatus rhport request) u.

(** Modelled from the spec: [usbd_open_edpt_pair] is not among the sources;
    it walks [ep_count] endpoint descriptors of the given transfer type,
    opens each, and stores its address in the IN or the OUT slot by the
    direction bit.  Slots written before a failure stay written. *)
Fixpoint usbd_open_edpt_pair (P : usbd_port_t) (u : usbd_t) (rhport : Z)
    (p_desc : list Z) (ep_count : nat) (xfer_type : Z) (ep_out ep_in : Z)
  : bool * (Z * Z) :=
  match ep_count with
  | O => (true, (ep_out, ep_in))
  | S n =>
    if negb ((TUSB_DESC_ENDPOINT =? tu_desc_type p_desc) &&
             (xfer_type =? Z.land (p_desc !!! 3%nat) 0x03))
    then (false, (ep_out, ep_in))
    else if negb (usbd_edpt_open P u rhport p_desc)
    then (false, (ep_out, ep_in))
    else
      let addr := p_desc !!! 2%nat in
      if Z.testbit addr 7
      then usbd_open_edpt_pair P u rhport (tu_desc_next p_desc) n xfer_type ep_out addr
      else usbd_open_edpt_pair P u rhport (tu_desc_next p_desc) n xfer_type addr ep_in
  end.

(** The controller takes every transfer it is offered. *)
Definition port_accepts (P : usbd_port_t) : Prop :=
  forall u rhport ep_addr buffer total_bytes,
    dcd_edpt_xfer P u rhport ep_addr buffer total_bytes = true.

(** The stack starts every control data stage it is asked for. *)
Definition control_starts (P : usbd_port_t) : Prop :=
  forall u rhport request buffer len,
    control_xfer_start P u rhport request buffer len = true.

(** The endpoint has a transfer outstanding or is claimed for one. *)
Definition edpt_taken (u : usbd_t) (ep_addr : Z) : Prop :=
  busy (ep_status u ep_addr) = true \/ claimed (ep_status u ep_addr) = true.

(** Modelled from the spec: the stack's handling of a completed transfer is
    not among the sources; the endpoint is marked idle again before the
    class driver's [xfer_cb] runs. *)
Definition usbd_edpt_release_on_complete (ep_addr : Z) (u : usbd_t) : usbd_t :=
  set_ep_status ep_addr edpt_idle u.

End Stack.

Arguments usbd_event : clear implicits.
Arguments usbd_t : clear implicits.
Arguments usbd_port_t : clear implicits.

End Usbd.

(** ** The X360 class driver: [x360.h], [x360_device.h], [x360_device.c] *)

Module X360.
Import Usbd.

(** [x360.h]: the enumerators the driver refers to.  An LED animation is
    stored as the byte that was received, whether or not it is one of the
    sixteen named animations. *)
Definition X360_MESSAGE_TYPE_OUT_RUMBLE : Z := 0x00.
Definition X360_MESSAGE_TYPE_OUT_LED : Z := 0x01.
Definition X360_MESSAGE_TYPE_IN_INPUT : Z := 0x00.

Definition X360_LED_ALL_OFF : Z := 0x00.
Definition X360_LED_SLOT_1_ON : Z := 0x06.

Record x360_message_header_t := { msg_type : Z; msg_length : Z }.

(** [x360_controls_t] is a packed union whose widest member is [bytes[18]];
    the value is its 18 bytes. *)
Record x360_controls_t := { bytes : list Z }.

Definition sizeof_x360_controls_t : Z := 18.
Definition sizeof_x360_message_controls_t : Z := 20.
Definition sizeof_x360_message_rumble_t : Z := 8.
Definition sizeof_x360_message_led_t : Z := 3.

Definition x360_controls_wf (c : x360_controls_t) : Prop :=
  length (bytes c) = 18%nat /\ Forall (fun b => 0 <= b < 256) (bytes c).

(** [x360_message_controls_t] overlays [bytes[20]] with the header followed
    by the controls; reading the struct back from 20 bytes is that overlay. *)
Definition x360_message_controls_of_bytes (b : list Z)
  : option (x360_message_header_t * x360_controls_t) :=
  if decide (length b = 20%nat)
  then Some ({| msg_type := b !!! 0%nat; msg_length := b !!! 1%nat |},
             {| bytes := drop 2 b |})
  else None.

(** [x360_device.h] *)
Definition X360_TRANSFER_IN_BUFFER_SIZE : Z := 0x14.
Definition X360_TRANSFER_OUT_BUFFER_SIZE : Z := 0x8.
Definition X360_CLASS_CONTROL : Z := 0xff.
Definition X360_SUBCLASS_CONTROL : Z := 0x5d.
Definition X360_PROTOCOL_CONTROL : Z := 0x01.
Definition X360_CLASS_SPECIFIC_TYPE : Z := 0x21.
Definition X360_HANDLE_RUMBLE : Z := 0x0000.
Definition X360_HANDLE_CONTROL : Z := 0x0100.
Definition X360_HANDLE_SERIAL : Z := 0x0000.
Definition sizeof_x360_desc_specific_class_t : Z := 17.

(** The settings of [tusb_config.h] the driver is compiled against; an
    undefined macro is [None] and removes the code under its [#ifdef]. *)
Record x360_config_t := {
  X360_SERIAL_NUMBER : option String.string;
  X360_RUMBLE_SUPPORT : option (Z * Z);
  X360_INPUT_SUPPORT : option (list Z);
  MS_OS_DESCRIPTOR_VENDORCODE : Z
}.

Fixpoint string_bytes (s : String.string) : list Z :=
  match s with
  | String.EmptyString => []
  | String.String c s' => Z.of_N (Ascii.N_of_ascii c) :: string_bytes s'
  end.

(** The example's [tusb_config.h]. *)
Definition tusb_config : x360_config_t := {|
  X360_SERIAL_NUMBER := Some "ABC"%string;
  X360_RUMBLE_SUPPORT := Some (0x0, 0x0);
  X360_INPUT_SUPPORT :=
    Some [0xFF; 0xF7; 0xFF; 0xFF; 0x00; 0xFF; 0x00; 0xFF; 0x00; 0xFF; 0x00;
          0xFF; 0x00; 0x00; 0x00; 0x00; 0x00; 0x00];
  MS_OS_DESCRIPTOR_VENDORCODE := 0x42
|}.

(** [x360d_instance_t] *)
Record x360d_instance_t := {
  rhport : Z;
  itf_num : Z;
  ep_in : Z;
  ep_out : Z;
  transfer_in_buf : list Z;
  transfer_out_buf : list Z;
  led : Z
}.

Definition set_transfer_in_buf (b : list Z) (p : x360d_instance_t) : x360d_instance_t :=
  {| rhport := rhport p; itf_num := itf_num p; ep_in := ep_in p; ep_out := ep_out p;
     transfer_in_buf := b; transfer_out_buf := transfer_out_buf p; led := led p |}.

Definition set_transfer_out_buf (b : list Z) (p : x360d_instance_t) : x360d_instance_t :=
  {| rhport := rhport p; itf_num := itf_num p; ep_in := ep_in p; ep_out := ep_out p;
     transfer_in_buf := transfer_in_buf p; transfer_out_buf := b; led := led p |}.

Definition set_led (l : Z) (p : x360d_instance_t) : x360d_instance_t :=
  {| rhport := rhport p; itf_num := itf_num p; ep_in := ep_in p; ep_out := ep_out p;
     transfer_in_buf := transfer_in_buf p; transfer_out_buf := transfer_out_buf p;
     led := l |}.

Definition set_endpoints (o i : Z) (p : x360d_instance_t) : x360d_instance_t :=
  {| rhport := rhport p; itf_num := itf_num p; ep_in := i; ep_out := o;
     transfer_in_buf := transfer_in_buf p; transfer_out_buf := transfer_out_buf p;
     led := led p |}.

Definition set_binding (rh itf : Z) (p : x360d_instance_t) : x360d_instance_t :=
  {| rhport := rh; itf_num := itf; ep_in := ep_in p; ep_out := ep_out p;
     transfer_in_buf := transfer_in_buf p; transfer_out_buf := transfer_out_buf p;
     led := led p |}.

(** An instance after [tu_memclr]. *)
Definition x360d_instance_zero : x360d_instance_t := {|
  rhport := 0; itf_num := 0; ep_in := 0; ep_out := 0;
  transfer_in_buf := replicate 20 0;
  transfer_out_buf := replicate 8 0;
  led := 0
|}.

(** The two buffers embedded in instance [i]. *)
Inductive x360_buf :=
| TransferInBuf (i : nat)
| TransferOutBuf (i : nat).

(** Invocations of the weak application callbacks. *)
Inductive x360_app_event :=
| x360d_report_issue_cb (itf ep_addr result xferred_bytes : Z)
| x360d_report_complete_cb (itf : Z) (report : x360_buf) (len : Z)
| x360d_received_led_cb (itf led : Z)
| x360d_received_rumble_cb (itf motor_left motor_right : Z).

(** Which of the weak callbacks the application defines. *)
Record x360_app_t := {
  has_report_issue_cb : bool;
  has_report_complete_cb : bool;
  has_received_led_cb : bool;
  has_received_rumble_cb : bool;
  tud_descriptor_ms_compatid_cb : option (Z * Z);
  tud_descriptor_ms_property_cb : option (Z * Z)
}.

Abbreviation stack_t := (usbd_t x360_buf x360_app_event).
Abbreviation port_t := (usbd_port_t x360_buf x360_app_event).

(** [_x360_instances] together with the stack below the driver. *)
Record x360_state := {
  _x360_instances : list x360d_instance_t;
  usbd : stack_t
}.

Definition with_usbd (u : stack_t) (st : x360_state) : x360_state :=
  {| _x360_instances := _x360_instances st; usbd := u |}.

Definition with_instance (i : nat) (p : x360d_instance_t) (st : x360_state) : x360_state :=
  {| _x360_instances := <[i := p]> (_x360_instances st); usbd := usbd st |}.

Definition app_call (e : x360_app_event) (st : x360_state) : x360_state :=
  with_usbd (log (EvApp e) (usbd st)) st.

(** Every embedded buffer has its declared size. *)
Definition x360_state_wf (st : x360_state) : Prop :=
  Forall (fun p => length (transfer_in_buf p) = 20%nat /\
                   length (transfer_out_buf p) = 8%nat) (_x360_instances st).

(** The bytes a buffer reference denotes in a given state. *)
Definition x360_buf_bytes (st : x360_state) (b : x360_buf) : list Z :=
  match b with
  | TransferInBuf i =>
      match _x360_instances st !! i with Some p => transfer_in_buf p | None => [] end
  | TransferOutBuf i =>
      match _x360_instances st !! i with Some p => transfer_out_buf p | None => [] end
  end.

(** The three lookups walk the array from index 0 and stop at the first hit. *)
Definition get_free_instance (l : list x360d_instance_t) : option (nat * x360d_instance_t) :=
  list_find (fun p => 0 = ep_in p /\ 0 = ep_out p) l.

Definition get_instance_by_ep (ep_addr : Z) (l : list x360d_instance_t)
  : option (nat * x360d_instance_t) :=
  list_find (fun p => ep_addr = ep_in p \/ ep_addr = ep_out p) l.

Definition get_instance_by_itf (itf : Z) (l : list x360d_instance_t)
  : option (nat * x360d_instance_t) :=
  list_find (fun p => itf = itf_num p /\ (0 <> ep_in p \/ 0 <> ep_out p)) l.

Section Driver.
Variable cfg : x360_config_t.
Variable app : x360_app_t.
Variable P : port_t.

Definition x360d_n_ready (tud_ready : bool) (itf : Z) (st : x360_state) : bool :=
  match get_instance_by_itf itf (_x360_instances st) with
  | None => false
  | Some (_, p_itf) =>
      tud_ready && negb (ep_in p_itf =? 0) &&
      negb (usbd_edpt_busy (rhport p_itf) (ep_in p_itf) (usbd st))
  end.

Definition x360d_n_report (itf : Z) (report : x360_controls_t) (st : x360_state)
  : bool * x360_state :=
  match get_instance_by_itf itf (_x360_instances st) with
  | None => (false, st)
  | Some (i, p_itf) =>
    let '(claim, u) := usbd_edpt_claim (rhport p_itf) (ep_in p_itf) (usbd st) in
    if negb claim then (false, st)
    else
      let len := sizeof_x360_message_controls_t in
      if negb (len <=? X360_TRANSFER_IN_BUFFER_SIZE) then (false, with_usbd u st)
      else
        let buffer :=
          memcpy_at
            (<[1%nat := sizeof_x360_message_controls_t]>
               (<[0%nat := X360_MESSAGE_TYPE_IN_INPUT]> (transfer_in_buf p_itf)))
            2 (bytes report) (Z.to_nat sizeof_x360_controls_t) in
        let st1 := with_instance i (set_transfer_in_buf buffer p_itf) (with_usbd u st) in
        let '(r, u') := usbd_edpt_xfer P (rhport p_itf) (ep_in p_itf)
                          (DriverBuffer (TransferInBuf i)) len (usbd st1) in
        (r, with_usbd u' st1)
  end.

Definition x360d_reset (rh : Z) (st : x360_state) : x360_state :=
  {| _x360_instances := (fun _ => x360d_instance_zero) <$> _x360_instances st;
     usbd := usbd st |}.

Definition x360d_init (st : x360_state) : x360_state := x360d_reset 0 st.

(** [desc_itf] is the configuration descriptor from the interface
    descriptor on. *)
Definition x360d_open (rh : Z) (desc_itf : list Z) (max_len : Z) (st : x360_state)
  : Z * x360_state :=
  if negb ((X360_CLASS_CONTROL =? desc_itf !!! 5%nat) &&
           (X360_SUBCLASS_CONTROL =? desc_itf !!! 6%nat) &&
           (X360_PROTOCOL_CONTROL =? desc_itf !!! 7%nat))
  then (0, st)
  else
    let bNumEndpoints := desc_itf !!! 4%nat in
    let drv_len :=
      (sizeof_tusb_desc_interface_t + sizeof_x360_desc_specific_class_t +
       bNumEndpoints * sizeof_tusb_desc_endpoint_t) mod 65536 in
    if negb (drv_len <=? max_len) then (0, st)
    else
      match get_free_instance (_x360_instances st) with
      | None => (0, st)
      | Some (i, p_itf) =>
        let p_desc := tu_desc_next desc_itf in
        if negb (X360_CLASS_SPECIFIC_TYPE =? tu_desc_type p_desc) then (0, st)
        else
          let p_desc := tu_desc_next p_desc in
          let '(ok, (o, n)) :=
            usbd_open_edpt_pair P (usbd st) rh p_desc (Z.to_nat bNumEndpoints)
              TUSB_XFER_INTERRUPT (ep_out p_itf) (ep_in p_itf) in
          let p1 := set_endpoints o n p_itf in
          if negb ok then (0, with_instance i p1 st)
          else
            let p2 := set_binding rh (desc_itf !!! 2%nat) p1 in
            let st2 := with_instance i p2 st in
            if ep_out p2 =? 0 then (drv_len, st2)
            else
              let '(_, u) := usbd_edpt_xfer P rh (ep_out p2)
                               (DriverBuffer (TransferOutBuf i))
                               X360_TRANSFER_OUT_BUFFER_SIZE (usbd st2) in
              (drv_len, with_usbd u st2)
      end.

(** [xferred_bytes] arrives already converted to [uint16_t]. *)
Definition x360d_report_out_received (ip : nat * x360d_instance_t)
    (xferred_bytes : Z) (st : x360_state) : x360_state :=
  let '(i, p_itf) := ip in
  let x360_message := transfer_out_buf p_itf in
  if (sizeof_x360_message_rumble_t =? xferred_bytes) &&
     (X360_MESSAGE_TYPE_OUT_RUMBLE =? x360_message !!! 0%nat)
  then
    if has_received_rumble_cb app
    then app_call (x360d_received_rumble_cb (itf_num p_itf)
                     (x360_message !!! 3%nat) (x360_message !!! 4%nat)) st
    else st
  else if (sizeof_x360_message_led_t =? xferred_bytes) &&
          (X360_MESSAGE_TYPE_OUT_LED =? x360_message !!! 0%nat)
  then
    let led' := x360_message !!! 2%nat in
    if led p_itf =? led' then st
    else
      let st1 := with_instance i (set_led led' p_itf) st in
      if has_received_led_cb app
      then app_call (x360d_received_led_cb (itf_num p_itf) led') st1
      else st1
  else st.

Definition x360d_xfer_cb (rh ep_addr result xferred_bytes : Z) (st : x360_state)
  : bool * x360_state :=
  match get_instance_by_ep ep_addr (_x360_instances st) with
  | None => (false, st)
  | Some (i, p_itf) =>
    if negb (rh =? rhport p_itf) then (false, st)
    else if negb (XFER_RESULT_SUCCESS =? result)
    then
      if has_report_issue_cb app
      then (true, app_call (x360d_report_issue_cb (itf_num p_itf) ep_addr result
                              xferred_bytes) st)
      else if ep_addr =? ep_out p_itf
      then
        let '(ok, u) := usbd_edpt_xfer P (rhport p_itf) (ep_out p_itf)
                          (DriverBuffer (TransferOutBuf i))
                          X360_TRANSFER_OUT_BUFFER_SIZE (usbd st) in
        (ok, with_usbd u st)
      else (true, st)
    else if ep_addr =? ep_in p_itf
    then
      (true,
       if has_report_complete_cb app
       then app_call (x360d_report_complete_cb (itf_num p_itf) (TransferInBuf i)
                        (xferred_bytes mod 65536)) st
       else st)
    else if ep_addr =? ep_out p_itf
    then
      let st1 := x360d_report_out_received (i, p_itf) (xferred_bytes mod 65536) st in
      let '(ok, u) := usbd_edpt_xfer P (rhport p_itf) (ep_out p_itf)
                        (DriverBuffer (TransferOutBuf i))
                        X360_TRANSFER_OUT_BUFFER_SIZE (usbd st1) in
      (ok, with_usbd u st1)
    else (true, st)
  end.

(** The message the interface handler synthesises for the rumble query. *)
Definition rumble_message (r : Z * Z) : list Z :=
  [X360_MESSAGE_TYPE_OUT_RUMBLE; sizeof_x360_message_rumble_t; 0;
   fst r; snd r; 0; 0; 0].

(** The message for the input-capability query; a short initialiser of
    [bytes[18]] is zero filled. *)
Definition controls_message (support : list Z) : list Z :=
  [X360_MESSAGE_TYPE_IN_INPUT; sizeof_x360_message_controls_t] ++
  take 18 (support ++ replicate 18 0).

Definition x360d_interface_request_handler (ip : nat * x360d_instance_t)
    (stage : Z) (request : tusb_control_request_t) (st : x360_state)
  : bool * x360_state :=
  let '(i, p_itf) := ip in
  let reply (msg : list Z) (len : Z) :=
    if negb (CONTROL_STAGE_SETUP =? stage) then (true, st)
    else if negb (len <=? X360_TRANSFER_IN_BUFFER_SIZE) then (false, st)
    else
      let st1 := with_instance i
                   (set_transfer_in_buf
                      (memcpy_at (transfer_in_buf p_itf) 0 msg (Z.to_nat len)) p_itf)
                   st in
      let '(r, u) := tud_control_xfer P (rhport p_itf) request
                       (DriverBuffer (TransferInBuf i)) len (usbd st1) in
      (r, with_usbd u st1) in
  match X360_RUMBLE_SUPPORT cfg, X360_INPUT_SUPPORT cfg with
  | Some r, _ =>
      if wValue request =? X360_HANDLE_RUMBLE
      then reply (rumble_message r) sizeof_x360_message_rumble_t
      else match X360_INPUT_SUPPORT cfg with
           | Some c =>
               if wValue request =? X360_HANDLE_CONTROL
               then reply (controls_message c) sizeof_x360_message_controls_t
               else (false, st)
           | None => (false, st)
           end
  | None, Some c =>
      if wValue request =? X360_HANDLE_CONTROL
      then reply (controls_message c) sizeof_x360_message_controls_t
      else (false, st)
  | None, None => (false, st)
  end.

Definition x360d_device_request_handler (ip : nat * x360d_instance_t)
    (stage : Z) (request : tusb_control_request_t) (st : x360_state)
  : bool * x360_state :=
  let '(i, p_itf) := ip in
  match X360_SERIAL_NUMBER cfg with
  | Some serial =>
      if wValue request =? X360_HANDLE_SERIAL
      then
        if negb (CONTROL_STAGE_SETUP =? stage) then (true, st)
        else
          let count := Z.of_nat (String.length serial) in
          let '(rc, buf) := tu_memcpy_s (transfer_in_buf p_itf)
                              X360_TRANSFER_IN_BUFFER_SIZE (string_bytes serial) count in
          if negb (0 =? rc) then (false, st)
          else
            let st1 := with_instance i (set_transfer_in_buf buf p_itf) st in
            let '(r, u) := tud_control_xfer P (rhport p_itf) request
                             (DriverBuffer (TransferInBuf i)) count (usbd st1) in
            (r, with_usbd u st1)
      else (false, st)
  | None => (false, st)
  end.

Definition x360d_control_xfer_cb (rh stage : Z) (request : tusb_control_request_t)
    (st : x360_state) : bool * x360_state :=
  if negb (TUSB_REQ_TYPE_VENDOR =? bmRequestType_bit_type request) then (false, st)
  else if negb (1 =? bRequest request) then (false, st)
  else
    match get_instance_by_itf (Z.land (wIndex request) 0xFF) (_x360_instances st) with
    | None => (false, st)
    | Some (i, p_itf) =>
      if negb (rh =? rhport p_itf) then (false, st)
      else if negb (itf_num p_itf =? wIndex request) then (false, st)
      else if bmRequestType_bit_recipient request =? TUSB_REQ_RCPT_INTERFACE
      then x360d_interface_request_handler (i, p_itf) stage request st
      else if bmRequestType_bit_recipient request =? TUSB_REQ_RCPT_DEVICE
      then x360d_device_request_handler (i, p_itf) stage request st
      else (false, st)
    end.

(** [custom_driver.c]: the MS OS 1.0 feature-descriptor responder.  A
    provider callback yields the address and the length of its blob. *)
Definition MS_EXTENDED_COMPATID_DESCRIPTOR : Z := 0x04.
Definition MS_EXTENDED_PROPERTIES_DESCRIPTOR : Z := 0x05.

Definition ms_os_control_xfer_cb (rh stage : Z) (request : tusb_control_request_t)
    (u : stack_t) : bool * stack_t :=
  if negb (TUSB_REQ_TYPE_VENDOR =? bmRequestType_bit_type request) then (false, u)
  else if negb (MS_OS_DESCRIPTOR_VENDORCODE cfg =? bRequest request) then (false, u)
  else if wIndex request =? MS_EXTENDED_COMPATID_DESCRIPTOR
  then match tud_descriptor_ms_compatid_cb app with
       | Some (buffer, len) =>
           if negb (CONTROL_STAGE_SETUP =? stage) then (true, u)
           else tud_control_xfer P rh request (AppBuffer buffer) len u
       | None => (false, u)
       end
  else if wIndex request =? MS_EXTENDED_PROPERTIES_DESCRIPTOR
  then match tud_descriptor_ms_property_cb app with
       | Some (buffer, len) =>
           if negb (CONTROL_STAGE_SETUP =? stage) then (true, u)
           else tud_control_xfer P rh request (AppBuffer buffer) len u
       | None => (false, u)
       end
  else (false, u).

Definition tud_vendor_control_xfer_cb (rh stage : Z) (request : tusb_control_request_t)
    (st : x360_state) : bool * x360_state :=
  let '(r, st1) := x360d_control_xfer_cb rh stage request st in
  if r then (true, st1)
  else
    let '(r2, u) := ms_os_control_xfer_cb rh stage request (usbd st1) in
    if r2 then (true, with_usbd u st1) else (false, with_usbd u st1).

(** Modelled from the spec: the stack's delivery of a finished OUT transfer
    is not among the sources; the received bytes are in the armed buffer of
    instance [i], the endpoint is idle again, and the class driver's
    transfer-complete callback runs with the number of bytes. *)
Definition usbd_out_complete (i : nat) (msg : list Z) (st : x360_state)
  : bool * x360_state :=
  match _x360_instances st !! i with
  | None => (false, st)
  | Some p =>
    let n := Z.to_nat (Z.min (Z.of_nat (length msg)) X360_TRANSFER_OUT_BUFFER_SIZE) in
    let st1 := with_instance i
                 (set_transfer_out_buf (memcpy_at (transfer_out_buf p) 0 msg n) p) st in
    let st2 := with_usbd (usbd_edpt_release_on_complete (ep_out p) (usbd st1)) st1 in
    x360d_xfer_cb (rhport p) (ep_out p) XFER_RESULT_SUCCESS (Z.of_nat n) st2
  end.

End Driver.

(** The [received_led] and [received_rumble] invocations found in a trace,
    oldest first, each with its arguments. *)
Definition received_led_calls (t : list (usbd_event x360_buf x360_app_event))
  : list (Z * Z) :=
  omap (fun e => match e with
                 | EvApp (x360d_received_led_cb itf l) => Some (itf, l)
                 | _ => None
                 end) t.

Definition received_rumble_calls (t : list (usbd_event x360_buf x360_app_event))
  : list (Z * Z * Z) :=
  omap (fun e => match e with
                 | EvApp (x360d_received_rumble_cb itf l r) => Some (itf, l, r)
                 | _ => None
                 end) t.

(** The driver answered a control request on top of [st]: one data stage
    was started with the IN buffer of instance [i] and length [len], and the
    buffer begins with [reply]. *)
Definition control_reply (st st' : x360_state) (rh : Z)
    (request : tusb_control_request_t) (i : nat) (len : Z) (reply : list Z) : Prop :=
  trace (usbd st') =
    trace (usbd st) ++ [EvControlXfer rh request (DriverBuffer (TransferInBuf i)) len] /\
  take (Z.to_nat len) (x360_buf_bytes st' (TransferInBuf i)) = reply.

(** The instance stored at index [i], seen through one of its fields. *)
Definition instance_field {T : Type} (f : x360d_instance_t -> T) (i : nat)
    (st : x360_state) : option T :=
  f <$> _x360_instances st !! i.

(** Two values of an instance slot that agree on what identifies the
    instance: port, interface number and the two endpoints. *)
Definition x360_same_binding (p q : x360d_instance_t) : Prop :=
  rhport p = rhport q /\ itf_num p = itf_num q /\
  ep_in p = ep_in q /\ ep_out p = ep_out q.

(** The calls that reach the driver, for stating what holds over a whole
    run: the application's report, a vendor control request, a transfer
    completion, an OUT message arriving, and the stack's open and reset. *)
Inductive x360_call :=
| DoReport (itf : Z) (report : x360_controls_t)
| DoControl (rh stage : Z) (request : tusb_control_request_t)
| DoXferCb (rh ep_addr result xferred_bytes : Z)
| DoOutMessage (i : nat) (msg : list Z)
| DoOpen (rh : Z) (desc_itf : list Z) (max_len : Z)
| DoReset (rh : Z).

(** A call that may rebind: open or reset. *)
Definition is_bind_call (c : x360_call) : bool :=
  match c with
  | DoOpen _ _ _ | DoReset _ => true
  | _ => false
  end.

(** The argument of a report call is a full 18-byte controls value. *)
Definition x360_call_wf (c : x360_call) : Prop :=
  match c with
  | DoReport _ report => x360_controls_wf report
  | _ => True
  end.

Section Runs.
Variable cfg : x360_config_t.
Variable app : x360_app_t.
Variable P : port_t.

(** Modelled from the spec: a transfer completion is delivered by the stack,
    which is not among the sources; it marks the endpoint idle and then runs
    [x360d_xfer_cb]. *)
Definition x360_step (c : x360_call) (st : x360_state) : x360_state :=
  match c with
  | DoReport itf report => snd (x360d_n_report P itf report st)
  | DoControl rh stage request => snd (x360d_control_xfer_cb cfg P rh stage request st)
  | DoXferCb rh ep_addr result n =>
      snd (x360d_xfer_cb app P rh ep_addr result n
             (with_usbd (usbd_edpt_release_on_complete ep_addr (usbd st)) st))
  | DoOutMessage i msg => snd (usbd_out_complete app P i msg st)
  | DoOpen rh desc_itf max_len => snd (x360d_open P rh desc_itf max_len st)
  | DoReset rh => x360d_reset rh st
  end.

Fixpoint x360_run (cs : list x360_call) (st : x360_state) : x360_state :=
  match cs with
  | [] => st
  | c :: cs' => x360_run cs' (x360_step c st)
  end.
End Runs.

(** What a control request may change in an instance: nothing but the IN
    buffer. *)
Definition x360_kept_by_control (p q : x360d_instance_t) : Prop :=
  x360_same_binding p q /\ led p = led q /\ transfer_out_buf p = transfer_out_buf q.

End X360.

(** ** The custom HID class driver: [custom_hid_device.h], [custom_hid_device.c] *)

Module CHID.
Import Usbd.

(** [hid.h] is not among the sources; the values are those of the spec's
    request table and of HID 1.11. *)

(** Modelled from the spec: descriptor type HID, 0x21. *)
Definition HID_DESC_TYPE_HID : Z := 0x21.
(** Modelled from the spec: descriptor type REPORT, 0x22. *)
Definition HID_DESC_TYPE_REPORT : Z := 0x22.
(** Modelled from the spec: descriptor type PHYSICAL, 0x23. *)
Definition HID_DESC_TYPE_PHYSICAL : Z := 0x23.

(** Modelled from the spec: class request GET_REPORT, 0x01. *)
Definition HID_REQ_CONTROL_GET_REPORT : Z := 0x01.
(** Modelled from the spec: class request GET_IDLE, 0x02. *)
Definition HID_REQ_CONTROL_GET_IDLE : Z := 0x02.
(** Modelled from the spec: class request GET_PROTOCOL, 0x03. *)
Definition HID_REQ_CONTROL_GET_PROTOCOL : Z := 0x03.
(** Modelled from the spec: class request SET_REPORT, 0x09. *)
Definition HID_REQ_CONTROL_SET_REPORT : Z := 0x09.
(** Modelled from the spec: class request SET_IDLE, 0x0A. *)
Definition HID_REQ_CONTROL_SET_IDLE : Z := 0x0a.
(** Modelled from the spec: class request SET_PROTOCOL, 0x0B. *)
Definition HID_REQ_CONTROL_SET_PROTOCOL : Z := 0x0b.

(** Modelled from the spec: protocol mode Boot, 0. *)
Definition HID_PROTOCOL_BOOT : Z := 0.
(** Modelled from the spec: protocol mode Report, 1. *)
Definition HID_PROTOCOL_REPORT : Z := 1.
(** Modelled from the spec: report type OUTPUT. *)
Definition HID_REPORT_TYPE_OUTPUT : Z := 2.

(** Modelled from the spec: size of the packed HID descriptor with one
    subordinate descriptor. *)
Definition sizeof_tusb_hid_descriptor_hid_t : Z := 9.

(** [chidd_instance_t].  The transfer buffers belong to the application and
    are held as addresses (0 is [NULL]); [hid_descriptor] points into the
    configuration descriptor and is held as the bytes found there. *)
Record chidd_instance_t := {
  rhport : Z;
  itf_num : Z;
  ep_in : Z;
  ep_out : Z;
  transfer_in_buf : Z;
  transfer_out_buf : Z;
  transfer_out_size : Z;
  protocol_mode : Z;
  idle_rate : Z;
  hid_descriptor : option (list Z)
}.

Definition set_transfer_in_buf (b : Z) (p : chidd_instance_t) : chidd_instance_t :=
  {| rhport := rhport p; itf_num := itf_num p; ep_in := ep_in p; ep_out := ep_out p;
     transfer_in_buf := b; transfer_out_buf := transfer_out_buf p;
     transfer_out_size := transfer_out_size p; protocol_mode := protocol_mode p;
     idle_rate := idle_rate p; hid_descriptor := hid_descriptor p |}.

Definition set_transfer_out (b size : Z) (p : chidd_instance_t) : chidd_instance_t :=
  {| rhport := rhport p; itf_num := itf_num p; ep_in := ep_in p; ep_out := ep_out p;
     transfer_in_buf := transfer_in_buf p; transfer_out_buf := b;
     transfer_out_size := size; protocol_mode := protocol_mode p;
     idle_rate := idle_rate p; hid_descriptor := hid_descriptor p |}.

Definition set_protocol_mode (m : Z) (p : chidd_instance_t) : chidd_instance_t :=
  {| rhport := rhport p; itf_num := itf_num p; ep_in := ep_in p; ep_out := ep_out p;
     transfer_in_buf := transfer_in_buf p; transfer_out_buf := transfer_out_buf p;
     transfer_out_size := transfer_out_size p; protocol_mode := m;
     idle_rate := idle_rate p; hid_descriptor := hid_descriptor p |}.

Definition set_idle_rate (r : Z) (p : chidd_instance_t) : chidd_instance_t :=
  {| rhport := rhport p; itf_num := itf_num p; ep_in := ep_in p; ep_out := ep_out p;
     transfer_in_buf := transfer_in_buf p; transfer_out_buf := transfer_out_buf p;
     transfer_out_size := transfer_out_size p; protocol_mode := protocol_mode p;
     idle_rate := r; hid_descriptor := hid_descriptor p |}.

Definition set_hid_descriptor (d : option (list Z)) (p : chidd_instance_t)
  : chidd_instance_t :=
  {| rhport := rhport p; itf_num := itf_num p; ep_in := ep_in p; ep_out := ep_out p;
     transfer_in_buf := transfer_in_buf p; transfer_out_buf := transfer_out_buf p;
     transfer_out_size := transfer_out_size p; protocol_mode := protocol_mode p;
     idle_rate := idle_rate p; hid_descriptor := d |}.

Definition set_endpoints (o i : Z) (p : chidd_instance_t) : chidd_instance_t :=
  {| rhport := rhport p; itf_num := itf_num p; ep_in := i; ep_out := o;
     transfer_in_buf := transfer_in_buf p; transfer_out_buf := transfer_out_buf p;
     transfer_out_size := transfer_out_size p; protocol_mode := protocol_mode p;
     idle_rate := idle_rate p; hid_descriptor := hid_descriptor p |}.

Definition set_binding (rh itf : Z) (p : chidd_instance_t) : chidd_instance_t :=
  {| rhport := rh; itf_num := itf; ep_in := ep_in p; ep_out := ep_out p;
     transfer_in_buf := transfer_in_buf p; transfer_out_buf := transfer_out_buf p;
     transfer_out_size := transfer_out_size p; protocol_mode := protocol_mode p;
     idle_rate := idle_rate p; hid_descriptor := hid_descriptor p |}.

(** An instance after [tu_memclr]. *)
Definition chidd_instance_zero : chidd_instance_t := {|
  rhport := 0; itf_num := 0; ep_in := 0; ep_out := 0;
  transfer_in_buf := 0; transfer_out_buf := 0; transfer_out_size := 0;
  protocol_mode := 0; idle_rate := 0; hid_descriptor := None
|}.

(** Driver-side memory handed to the stack: the stashed HID descriptor, the
    [idle_rate] and [protocol_mode] fields of instance [i], and the local
    [len] of the class request handler with the byte it holds. *)
Inductive chidd_buf :=
| HidDescriptor (i : nat)
| IdleRate (i : nat)
| ProtocolMode (i : nat)
| LocalLen (v : Z).

(** Invocations of the application callbacks, with their arguments. *)
Inductive chidd_app_event :=
| chidd_out_endpoint_opened_cb (itf : Z)
| chidd_descriptor_report_cb (itf : Z)
| chidd_descriptor_physical_cb (itf desc_index : Z)
| chidd_get_report_cb (itf report_id report_type : Z)
| chidd_set_report_cb (itf report_id report_type : Z)
| chidd_get_idle_cb (itf report_id : Z)
| chidd_set_idle_cb (itf report_id duration : Z)
| chidd_set_protocol_cb (itf mode : Z)
| chidd_report_sent_complete_cb (itf report len : Z)
| chidd_report_received_complete_cb (itf report_id report_type report len : Z)
| chidd_report_issue_cb (itf ep_addr result len : Z).

Abbreviation stack_t := (usbd_t chidd_buf chidd_app_event).
Abbreviation port_t := (usbd_port_t chidd_buf chidd_app_event).

(** [_chidd_instances] together with the stack below the driver. *)
Record chidd_state := {
  _chidd_instances : list chidd_instance_t;
  usbd : stack_t
}.

(** The application: an absent weak callback is [None] (or [false] for one
    that returns nothing); a callback that returns a buffer yields its
    address and the size it stores through [bufsize] (for [set_report], whose
    [bufsize] is the instance's own field, [None] when it stores nothing).
    Its answer may depend on everything that happened so far; what the
    application does in reaction to a callback is a later call of its own. *)
Record chidd_app_t := {
  has_out_endpoint_opened_cb : bool;
  descriptor_report_impl : chidd_state -> Z -> Z * Z;
  descriptor_physical_impl : option (chidd_state -> Z -> Z -> Z * Z);
  get_report_impl : chidd_state -> Z -> Z -> Z -> Z * Z;
  set_report_impl : option (chidd_state -> Z -> Z -> Z -> Z * option Z);
  get_idle_impl : option (chidd_state -> Z -> Z -> bool * Z);
  set_idle_impl : option (chidd_state -> Z -> Z -> Z -> bool);
  set_protocol_impl : option (chidd_state -> Z -> Z -> bool);
  has_report_sent_complete_cb : bool;
  has_report_received_complete_cb : bool;
  has_report_issue_cb : bool
}.

Definition with_usbd (u : stack_t) (st : chidd_state) : chidd_state :=
  {| _chidd_instances := _chidd_instances st; usbd := u |}.

Definition with_instance (i : nat) (p : chidd_instance_t) (st : chidd_state) : chidd_state :=
  {| _chidd_instances := <[i := p]> (_chidd_instances st); usbd := usbd st |}.

Definition app_call (e : chidd_app_event) (st : chidd_state) : chidd_state :=
  with_usbd (log (EvApp e) (usbd st)) st.

(** The bytes a driver-side buffer denotes in a given state. *)
Definition chidd_buf_bytes (st : chidd_state) (b : chidd_buf) : list Z :=
  match b with
  | HidDescriptor i =>
      match _chidd_instances st !! i with
      | Some p => default [] (hid_descriptor p)
      | None => []
      end
  | IdleRate i =>
      match _chidd_instances st !! i with Some p => [idle_rate p] | None => [] end
  | ProtocolMode i =>
      match _chidd_instances st !! i with Some p => [protocol_mode p] | None => [] end
  | LocalLen v => [v]
  end.

Definition get_free_instance (l : list chidd_instance_t) : option (nat * chidd_instance_t) :=
  list_find (fun p => 0 = ep_in p /\ 0 = ep_out p) l.

Definition get_instance_by_ep (ep_addr : Z) (l : list chidd_instance_t)
  : option (nat * chidd_instance_t) :=
  list_find (fun p => ep_addr = ep_in p \/ ep_addr = ep_out p) l.

Definition get_instance_by_itf (itf : Z) (l : list chidd_instance_t)
  : option (nat * chidd_instance_t) :=
  list_find (fun p => itf = itf_num p /\ (0 <> ep_in p \/ 0 <> ep_out p)) l.

Section Driver.
Variable app : chidd_app_t.
Variable P : port_t.

Definition chidd_ready (tud_ready : bool) (itf : Z) (st : chidd_state) : bool :=
  match get_instance_by_itf itf (_chidd_instances st) with
  | None => false
  | Some (_, p_itf) =>
      tud_ready && negb (ep_in p_itf =? 0) &&
      negb (usbd_edpt_busy (rhport p_itf) (ep_in p_itf) (usbd st))
  end.

Definition chidd_send_report (itf report len : Z) (st : chidd_state)
  : bool * chidd_state :=
  match get_instance_by_itf itf (_chidd_instances st) with
  | None => (false, st)
  | Some (i, p_itf) =>
    let '(claim, u) := usbd_edpt_claim (rhport p_itf) (ep_in p_itf) (usbd st) in
    if negb claim then (false, st)
    else
      let st1 := with_instance i (set_transfer_in_buf report p_itf) (with_usbd u st) in
      if negb (negb (report =? 0) && negb (len =? 0)) then (false, st1)
      else
        let '(r, u') := usbd_edpt_xfer P (rhport p_itf) (ep_in p_itf)
                          (AppBuffer report) len (usbd st1) in
        (r, with_usbd u' st1)
  end.

Definition chidd_receive_report (itf report len : Z) (st : chidd_state)
  : bool * chidd_state :=
  match get_instance_by_itf itf (_chidd_instances st) with
  | None => (false, st)
  | Some (i, p_itf) =>
    if negb (negb (report =? 0) && (0 <? len)) then (false, st)
    else
      let st1 := with_instance i (set_transfer_out report len p_itf) st in
      let '(r, u) := usbd_edpt_xfer P (rhport p_itf) (ep_out p_itf)
                       (AppBuffer report) len (usbd st1) in
      (r, with_usbd u st1)
  end.

Definition chidd_reset (rh : Z) (st : chidd_state) : chidd_state :=
  {| _chidd_instances := (fun _ => chidd_instance_zero) <$> _chidd_instances st;
     usbd := usbd st |}.

Definition chidd_init (st : chidd_state) : chidd_state := chidd_reset 0 st.

Definition chidd_open (rh : Z) (desc_itf : list Z) (max_len : Z) (st : chidd_state)
  : Z * chidd_state :=
  if negb (TUSB_CLASS_HID =? desc_itf !!! 5%nat) then (0, st)
  else
    let bNumEndpoints := desc_itf !!! 4%nat in
    let drv_len :=
      (sizeof_tusb_desc_interface_t + sizeof_tusb_hid_descriptor_hid_t +
       bNumEndpoints * sizeof_tusb_desc_endpoint_t) mod 65536 in
    if negb (drv_len <=? max_len) then (0, st)
    else
      match get_free_instance (_chidd_instances st) with
      | None => (0, st)
      | Some (i, p_itf) =>
        let p_desc := tu_desc_next desc_itf in
        if negb (HID_DESC_TYPE_HID =? tu_desc_type p_desc) then (0, st)
        else
          let p0 := set_hid_descriptor (Some p_desc) p_itf in
          let p_desc := tu_desc_next p_desc in
          let '(ok, (o, n)) :=
            usbd_open_edpt_pair P (usbd st) rh p_desc (Z.to_nat bNumEndpoints)
              TUSB_XFER_INTERRUPT (ep_out p0) (ep_in p0) in
          let p1 := set_endpoints o n p0 in
          if negb ok then (0, with_instance i p1 st)
          else
            let p2 := set_protocol_mode HID_PROTOCOL_REPORT
                        (set_binding rh (desc_itf !!! 2%nat) p1) in
            let st2 := with_instance i p2 st in
            if negb (ep_out p2 =? 0) && has_out_endpoint_opened_cb app
            then (drv_len, app_call (chidd_out_endpoint_opened_cb (itf_num p2)) st2)
            else (drv_len, st2)
      end.

Definition chidd_standard_request_handler (ip : nat * chidd_instance_t)
    (stage : Z) (request : tusb_control_request_t) (st : chidd_state)
  : bool * chidd_state :=
  let '(i, p_itf) := ip in
  if negb (TUSB_REQ_GET_DESCRIPTOR =? bRequest request) then (false, st)
  else if tu_u16_high (wValue request) =? HID_DESC_TYPE_HID
  then
    if negb (CONTROL_STAGE_SETUP =? stage) then (true, st)
    else match hid_descriptor p_itf with
         | None => (false, st)
         | Some d =>
           let '(r, u) := tud_control_xfer P (rhport p_itf) request
                            (DriverBuffer (HidDescriptor i)) (d !!! 0%nat) (usbd st) in
           (r, with_usbd u st)
         end
  else if tu_u16_high (wValue request) =? HID_DESC_TYPE_REPORT
  then
    if negb (CONTROL_STAGE_SETUP =? stage) then (true, st)
    else
      let '(buffer, len) := descriptor_report_impl app st (itf_num p_itf) in
      let st1 := app_call (chidd_descriptor_report_cb (itf_num p_itf)) st in
      if negb (negb (buffer =? 0) && (0 <? len)) then (false, st1)
      else
        let '(_, u) := tud_control_xfer P (rhport p_itf) request
                         (AppBuffer buffer) len (usbd st1) in
        (true, with_usbd u st1)
  else if tu_u16_high (wValue request) =? HID_DESC_TYPE_PHYSICAL
  then
    if negb (CONTROL_STAGE_SETUP =? stage) then (true, st)
    else match descriptor_physical_impl app with
         | None => (false, st)
         | Some cb =>
           let '(buffer, len) := cb st (itf_num p_itf) (tu_u16_low (wValue request)) in
           let st1 := app_call (chidd_descriptor_physical_cb (itf_num p_itf)
                                  (tu_u16_low (wValue request))) st in
           if negb (negb (buffer =? 0) && (0 <? len)) then (false, st1)
           else
             let '(_, u) := tud_control_xfer P (rhport p_itf) request
                              (AppBuffer buffer) len (usbd st1) in
             (true, with_usbd u st1)
         end
  else (false, st).
Definition chidd_class_specific_request_handler (ip : nat * chidd_instance_t)
    (stage : Z) (request : tusb_control_request_t) (st : chidd_state)
  : bool * chidd_state :=
  let '(i, p_itf) := ip in
  let id := tu_u16_low (wValue request) in
  let hi := tu_u16_high (wValue request) in
  if bRequest request =? HID_REQ_CONTROL_GET_REPORT
  then
    if negb (1 =? bmRequestType_bit_direction request) then (false, st)
    else if negb (CONTROL_STAGE_SETUP =? stage) then (true, st)
    else
      let '(buffer, len) := get_report_impl app st (itf_num p_itf) id hi in
      let st1 := with_instance i (set_transfer_in_buf buffer p_itf)
                   (app_call (chidd_get_report_cb (itf_num p_itf) id hi) st) in
      if negb (negb (buffer =? 0) && (0 <? len)) then (false, st1)
      else
        let '(_, u) := tud_control_xfer P (rhport p_itf) request
                         (AppBuffer buffer) len (usbd st1) in
        (true, with_usbd u st1)
  else if bRequest request =? HID_REQ_CONTROL_SET_REPORT
  then
    if negb (0 =? bmRequestType_bit_direction request) then (false, st)
    else if CONTROL_STAGE_SETUP =? stage
    then match set_report_impl app with
         | None => (false, st)
         | Some cb =>
           let '(buffer, bufsize) := cb st (itf_num p_itf) id hi in
           let size := default (transfer_out_size p_itf) bufsize in
           let st1 := with_instance i (set_transfer_out buffer size p_itf)
                        (app_call (chidd_set_report_cb (itf_num p_itf) id hi) st) in
           if negb (negb (buffer =? 0) && (0 <? size)) then (false, st1)
           else
             let '(_, u) := tud_control_xfer P (rhport p_itf) request
                              (AppBuffer buffer) size (usbd st1) in
             (true, with_usbd u st1)
         end
    else if CONTROL_STAGE_ACK =? stage
    then
      if negb (has_report_received_complete_cb app) then (true, st)
      else (true, app_call (chidd_report_received_complete_cb (itf_num p_itf) id hi
                              (transfer_out_buf p_itf) (wLength request)) st)
    else (true, st)
  else if bRequest request =? HID_REQ_CONTROL_GET_IDLE
  then
    if negb (1 =? bmRequestType_bit_direction request) then (false, st)
    else if negb (CONTROL_STAGE_SETUP =? stage) then (true, st)
    else if 0 =? id
    then
      let '(_, u) := tud_control_xfer P (rhport p_itf) request
                       (DriverBuffer (IdleRate i)) 1 (usbd st) in
      (true, with_usbd u st)
    else match get_idle_impl app with
         | None => (false, st)
         | Some cb =>
           let '(ok, duration) := cb st (itf_num p_itf) id in
           let st1 := app_call (chidd_get_idle_cb (itf_num p_itf) id) st in
           if negb ok then (false, st1)
           else
             let '(_, u) := tud_control_xfer P (rhport p_itf) request
                              (DriverBuffer (LocalLen duration)) 1 (usbd st1) in
             (true, with_usbd u st1)
         end
  else if bRequest request =? HID_REQ_CONTROL_SET_IDLE
  then
    if negb (0 =? bmRequestType_bit_direction request) then (false, st)
    else if negb (CONTROL_STAGE_SETUP =? stage) then (true, st)
    else
      let st1 := with_usbd (tud_control_status (rhport p_itf) request (usbd st)) st in
      let st2 := if 0 =? id
                 then with_instance i (set_idle_rate hi p_itf) st1
                 else st1 in
      match set_idle_impl app with
      | None => (false, st2)
      | Some cb =>
          (cb st2 (itf_num p_itf) id hi,
           app_call (chidd_set_idle_cb (itf_num p_itf) id hi) st2)
      end
  else if bRequest request =? HID_REQ_CONTROL_GET_PROTOCOL
  then
    if negb (1 =? bmRequestType_bit_direction request) then (false, st)
    else if negb (CONTROL_STAGE_SETUP =? stage) then (true, st)
    else
      let '(_, u) := tud_control_xfer P (rhport p_itf) request
                       (DriverBuffer (ProtocolMode i)) 1 (usbd st) in
      (true, with_usbd u st)
  else if bRequest request =? HID_REQ_CONTROL_SET_PROTOCOL
  then
    if negb (0 =? bmRequestType_bit_direction request) then (false, st)
    else if negb (CONTROL_STAGE_SETUP =? stage) then (true, st)
    else
      let st1 := with_usbd (tud_control_status (rhport p_itf) request (usbd st)) st in
      let st2 := with_instance i (set_protocol_mode id p_itf) st1 in
      match set_protocol_impl app with
      | None => (false, st2)
      | Some cb =>
          (cb st2 (itf_num p_itf) (Z.land (wValue request) 0xFF),
           app_call (chidd_set_protocol_cb (itf_num p_itf)
                       (Z.land (wValue request) 0xFF)) st2)
      end
  else (false, st).

Definition chidd_control_xfer_cb (rh stage : Z) (request : tusb_control_request_t)
    (st : chidd_state) : bool * chidd_state :=
  if negb (TUSB_REQ_RCPT_INTERFACE =? bmRequestType_bit_recipient request)
  then (false, st)
  else
    match get_instance_by_itf (Z.land (wIndex request) 0xFF) (_chidd_instances st) with
    | None => (false, st)
    | Some (i, p_itf) =>
      if negb (rh =? rhport p_itf) then (false, st)
      else if negb (itf_num p_itf =? wIndex request) then (false, st)
      else if bmRequestType_bit_type request =? TUSB_REQ_TYPE_STANDARD
      then chidd_standard_request_handler (i, p_itf) stage request st
      else if bmRequestType_bit_type request =? TUSB_REQ_TYPE_CLASS
      then chidd_class_specific_request_handler (i, p_itf) stage request st
      else (false, st)
    end.

Definition chidd_xfer_cb (rh ep_addr result xferred_bytes : Z) (st : chidd_state)
  : bool * chidd_state :=
  match get_instance_by_ep ep_addr (_chidd_instances st) with
  | None => (false, st)
  | Some (i, p_itf) =>
    if negb (rh =? rhport p_itf) then (false, st)
    else if negb (XFER_RESULT_SUCCESS =? result)
    then
      if has_report_issue_cb app
      then (true, app_call (chidd_report_issue_cb (itf_num p_itf) ep_addr result
                              xferred_bytes) st)
      else if ep_addr =? ep_out p_itf
      then
        let '(ok, u) := usbd_edpt_xfer P (rhport p_itf) (ep_out p_itf)
                          (AppBuffer (transfer_out_buf p_itf))
                          (transfer_out_size p_itf) (usbd st) in
        (ok, with_usbd u st)
      else (true, st)
    else if ep_addr =? ep_in p_itf
    then
      (true,
       if has_report_sent_complete_cb app
       then app_call (chidd_report_sent_complete_cb (itf_num p_itf)
                        (transfer_in_buf p_itf) xferred_bytes) st
       else st)
    else if ep_addr =? ep_out p_itf
    then
      let buffer := transfer_out_buf p_itf in
      let st1 := with_instance i (set_transfer_out 0 0 p_itf) st in
      (true,
       if has_report_received_complete_cb app
       then app_call (chidd_report_received_complete_cb (itf_num p_itf) 0xFF
                        HID_REPORT_TYPE_OUTPUT buffer xferred_bytes) st1
       else st1)
    else (true, st)
  end.

(** [mode] is passed as the flag whether the pointer is non-[NULL]; the
    value stored through it is the second component. *)
Definition chidd_get_protocol (itf : Z) (mode : bool) (st : chidd_state)
  : bool * option Z :=
  match get_instance_by_itf itf (_chidd_instances st) with
  | Some (_, p_itf) => if mode then (true, Some (protocol_mode p_itf)) else (false, None)
  | None => (false, None)
  end.

(** The requests and calls that reach the driver while it is bound, for
    stating what holds over a whole run.  Modelled from the spec: a transfer
    completion is delivered by the stack, which is not among the sources; it
    marks the endpoint idle and then runs [chidd_xfer_cb]. *)
Inductive chidd_call :=
| CallControl (rh stage : Z) (request : tusb_control_request_t)
| CallSendReport (itf report len : Z)
| CallReceiveReport (itf report len : Z)
| CallXferCb (rh ep_addr result xferred_bytes : Z).

Definition chidd_step (c : chidd_call) (st : chidd_state) : bool * chidd_state :=
  match c with
  | CallControl rh stage request => chidd_control_xfer_cb rh stage request st
  | CallSendReport itf report len => chidd_send_report itf report len st
  | CallReceiveReport itf report len => chidd_receive_report itf report len st
  | CallXferCb rh ep_addr result n =>
      chidd_xfer_cb rh ep_addr result n
        (with_usbd (usbd_edpt_release_on_complete ep_addr (usbd st)) st)
  end.

Fixpoint chidd_run (cs : list chidd_call) (st : chidd_state) : chidd_state :=
  match cs with
  | [] => st
  | c :: cs' => chidd_run cs' (snd (chidd_step c st))
  end.
End Driver.

(** The instance stored at index [i], seen through one of its fields. *)
Definition instance_field {T : Type} (f : chidd_instance_t -> T) (i : nat)
    (st : chidd_state) : option T :=
  f <$> _chidd_instances st !! i.

(** Two values of an instance slot that agree on what identifies the
    instance: port, interface number and the two endpoints. *)
Definition same_binding (p q : chidd_instance_t) : Prop :=
  rhport p = rhport q /\ itf_num p = itf_num q /\
  ep_in p = ep_in q /\ ep_out p = ep_out q.

(** The same, and the protocol mode agrees as well. *)
Definition same_mode (p q : chidd_instance_t) : Prop :=
  same_binding p q /\ protocol_mode p = protocol_mode q.

(** The IN endpoint [e] is held by a claim and no instance uses [e] as its
    OUT endpoint. *)
Definition claim_held (e : Z) (st : chidd_state) : Prop :=
  claimed (ep_status (usbd st) e) = true /\
  Forall (fun q => ep_out q <> e) (_chidd_instances st).

(** What one call may do to the instance array: nothing, or replace one
    slot by a value with the same binding; the protocol mode of that slot
    moves only under [flag]. *)
Definition slot_update (flag : bool) (l l' : list chidd_instance_t) : Prop :=
  l' = l \/
  exists i p p', l !! i = Some p /\ l' = <[i := p']> l /\ same_binding p p' /\
                 (flag = false -> protocol_mode p' = protocol_mode p).

(** A control request that is the class request SET_PROTOCOL, at whatever
    stage and for whatever interface. *)
Definition is_set_protocol (c : chidd_call) : bool :=
  match c with
  | CallControl _ _ request =>
      (bmRequestType_bit_type request =? TUSB_REQ_TYPE_CLASS)%Z &&
      (bRequest request =? HID_REQ_CONTROL_SET_PROTOCOL)%Z
  | _ => false
  end.

(** A call that stores a protocol mode in the instance bound to interface
    [itf] on port [rh]: the class request SET_PROTOCOL, host to device, for
    that interface on that port, at the SETUP stage.  The DATA and ACK stages
    of the same request, and the request for another interface, are not. *)
Definition stores_protocol_mode (rh itf : Z) (c : chidd_call) : bool :=
  match c with
  | CallControl rh' stage request =>
      (stage =? CONTROL_STAGE_SETUP)%Z &&
      (rh' =? rh)%Z &&
      (bmRequestType_bit_recipient request =? TUSB_REQ_RCPT_INTERFACE)%Z &&
      (bmRequestType_bit_type request =? TUSB_REQ_TYPE_CLASS)%Z &&
      (bmRequestType_bit_direction request =? 0)%Z &&
      (bRequest request =? HID_REQ_CONTROL_SET_PROTOCOL)%Z &&
      (wIndex request =? itf)%Z
  | _ => false
  end.

(** A transfer-complete event for endpoint [ep]. *)
Definition is_xfer_complete_on (ep : Z) (c : chidd_call) : bool :=
  match c with
  | CallXferCb _ ep_addr _ _ => (ep_addr =? ep)%Z
  | _ => false
  end.

(** An event by which a transfer is enqueued on an endpoint. *)
Definition is_edpt_xfer (e : usbd_event chidd_buf chidd_app_event) : bool :=
  match e with
  | EvEdptXfer _ _ _ _ => true
  | _ => false
  end.

End CHID.

(** ** Concrete configurations, used to exercise the statements below *)

Module Examples.
Import Usbd.

(** A controller that takes every transfer, and one that refuses all. *)
Definition port_accept {D A : Type} : usbd_port_t D A := {|
  dcd_edpt_xfer := fun _ _ _ _ _ => true;
  usbd_edpt_open := fun _ _ _ => true;
  control_xfer_start := fun _ _ _ _ _ => true
|}.

Definition port_refuse {D A : Type} : usbd_port_t D A := {|
  dcd_edpt_xfer := fun _ _ _ _ _ => false;
  usbd_edpt_open := fun _ _ _ => false;
  control_xfer_start := fun _ _ _ _ _ => false
|}.

Definition usbd_idle {D A : Type} : usbd_t D A :=
  {| ep_status := fun _ => edpt_idle; trace := [] |}.

(** The interface block of the gamepad example's configuration descriptor:
    interface, class-specific descriptor, IN and OUT interrupt endpoints. *)
Definition x360_desc_itf : list Z :=
  [9; 4; 0; 0; 2; 0xff; 0x5d; 0x01; 0] ++
  [17; 0x21; 0x00; 0x01; 0x01; 0x25; 0x81; 0x14; 0; 0; 0; 0; 0x13; 0x01; 0x08; 0; 0] ++
  [7; 5; 0x81; 3; 32; 0; 4] ++
  [7; 5; 0x01; 3; 32; 0; 8].

(** The keyboard interface block of the HID example. *)
Definition hid_desc_itf : list Z :=
  [9; 4; 0; 0; 2; 3; 1; 1; 0] ++
  [9; 0x21; 0x11; 0x01; 0; 1; 0x22; 0x45; 0] ++
  [7; 5; 0x81; 3; 8; 0; 4] ++
  [7; 5; 0x01; 3; 1; 0; 4].

(** An application that defines every X360 callback, and one with none. *)
Definition x360_app_full : X360.x360_app_t := {|
  X360.has_report_issue_cb := true;
  X360.has_report_complete_cb := true;
  X360.has_received_led_cb := true;
  X360.has_received_rumble_cb := true;
  X360.tud_descriptor_ms_compatid_cb := Some (0x1000, 40);
  X360.tud_descriptor_ms_property_cb := Some (0x2000, 142)
|}.

Definition x360_app_none : X360.x360_app_t := {|
  X360.has_report_issue_cb := false;
  X360.has_report_complete_cb := false;
  X360.has_received_led_cb := false;
  X360.has_received_rumble_cb := false;
  X360.tud_descriptor_ms_compatid_cb := None;
  X360.tud_descriptor_ms_property_cb := None
|}.

(** [CFG_APP_X360 = 1], nothing bound yet. *)
Definition x360_fresh : X360.x360_state := {|
  X360._x360_instances := [X360.x360d_instance_zero];
  X360.usbd := usbd_idle
|}.

(** The gamepad bound to interface 0 with endpoints 0x81 and 0x01. *)
Definition x360_bound : X360.x360_state :=
  snd (X360.x360d_open port_accept 0 x360_desc_itf 47 x360_fresh).

(** Home and Y pressed, everything else released. *)
Definition controls_home_y : X360.x360_controls_t :=
  {| X360.bytes := [0x00; 0x84; 0; 0; 0; 0; 0; 0; 0; 0; 0; 0; 0; 0; 0; 0; 0; 0] |}.

Definition vendor_request (recipient value index : Z) : tusb_control_request_t :=
  {| bmRequestType := Z.lor 0xC0 recipient; bRequest := 1;
     wValue := value; wIndex := index; wLength := 20 |}.

Definition ms_os_request (index : Z) : tusb_control_request_t :=
  {| bmRequestType := 0xC0; bRequest := 0x42; wValue := 0; wIndex := index;
     wLength := 40 |}.

(** A HID application with every optional callback, and a minimal one. *)
Definition chidd_app_full : CHID.chidd_app_t := {|
  CHID.has_out_endpoint_opened_cb := true;
  CHID.descriptor_report_impl := fun _ _ => (0x3000, 69);
  CHID.descriptor_physical_impl := Some (fun _ _ _ => (0, 0));
  CHID.get_report_impl := fun _ _ _ _ => (0x4000, 8);
  CHID.set_report_impl := Some (fun _ _ _ _ => (0x5000, Some 1));
  CHID.get_idle_impl := Some (fun _ _ _ => (true, 0));
  CHID.set_idle_impl := Some (fun _ _ _ _ => true);
  CHID.set_protocol_impl := Some (fun _ _ _ => true);
  CHID.has_report_sent_complete_cb := true;
  CHID.has_report_received_complete_cb := true;
  CHID.has_report_issue_cb := true
|}.

Definition chidd_app_min : CHID.chidd_app_t := {|
  CHID.has_out_endpoint_opened_cb := false;
  CHID.descriptor_report_impl := fun _ _ => (0x3000, 69);
  CHID.descriptor_physical_impl := None;
  CHID.get_report_impl := fun _ _ _ _ => (0x4000, 8);
  CHID.set_report_impl := None;
  CHID.get_idle_impl := None;
  CHID.set_idle_impl := None;
  CHID.set_protocol_impl := None;
  CHID.has_report_sent_complete_cb := false;
  CHID.has_report_received_complete_cb := false;
  CHID.has_report_issue_cb := false
|}.

(** [CFG_CUSTOM_HID = 2], nothing bound yet. *)
Definition chidd_fresh : CHID.chidd_state := {|
  CHID._chidd_instances := [CHID.chidd_instance_zero; CHID.chidd_instance_zero];
  CHID.usbd := usbd_idle
|}.

(** The keyboard bound to interface 0 with endpoints 0x81 and 0x01. *)
Definition chidd_bound : CHID.chidd_state :=
  snd (CHID.chidd_open chidd_app_min port_accept 0 hid_desc_itf 32 chidd_fresh).

Definition hid_class_request (direction request value : Z) : tusb_control_request_t :=
  {| bmRequestType := Z.lor (Z.shiftl direction 7) 0x21; bRequest := request;
     wValue := value; wIndex := 0; wLength := 1 |}.

(** An XInput interface block that declares no endpoints. *)
Definition x360_desc_no_endpoints : list Z :=
  [9; 4; 3; 0; 0; 0xff; 0x5d; 0x01; 0] ++
  [17; 0x21; 0x00; 0x01; 0x01; 0x25; 0x81; 0x14; 0; 0; 0; 0; 0x13; 0x01; 0x08; 0; 0].

End Examples.

(** * Properties *)

Module Usbd_Properties.
Import Usbd.

Lemma usbd_edpt_claim_true {D A} rh ep (u u' : usbd_t D A) :
  usbd_edpt_claim rh ep u = (true, u') ->
  busy (ep_status u ep) = false /\ claimed (ep_status u ep) = false /\
  u' = set_ep_status ep {| busy := false; claimed := true |} u.
Proof.
  unfold usbd_edpt_claim.
  destruct (ep_status u ep) as [b c] eqn:E; cbn.
  destruct b, c; cbn; intros H; inversion H; auto.
Qed.

Lemma usbd_edpt_xfer_true {D A} (P : usbd_port_t D A) rh ep buf n u u' :
  usbd_edpt_xfer P rh ep buf n u = (true, u') ->
  busy (ep_status u ep) = false /\
  dcd_edpt_xfer P u rh ep buf n = true /\
  trace u' = trace u ++ [EvEdptXfer rh ep buf n] /\
  busy (ep_status u' ep) = true.
Proof.
  unfold usbd_edpt_xfer.
  destruct (busy (ep_status u ep)) eqn:Eb; [discriminate|].
  destruct (dcd_edpt_xfer P u rh ep buf n) eqn:Ed; [|discriminate].
  intros H; inversion H; subst; cbn.
  rewrite Z.eqb_refl. auto.
Qed.

Lemma usbd_edpt_xfer_other {D A} (P : usbd_port_t D A) rh ep buf n u e :
  ep <> e -> ep_status (snd (usbd_edpt_xfer P rh ep buf n u)) e = ep_status u e.
Proof.
  intros Hne. unfold usbd_edpt_xfer.
  destruct (busy (ep_status u ep)); [reflexivity|].
  destruct (dcd_edpt_xfer P u rh ep buf n); cbn;
    (destruct (Z.eqb_spec e ep) as [->|_]; [contradiction | reflexivity]).
Qed.

Lemma usbd_edpt_release_other {D A} (u : usbd_t D A) ep e :
  ep <> e -> ep_status (usbd_edpt_release_on_complete ep u) e = ep_status u e.
Proof.
  intros Hne. cbn. destruct (Z.eqb_spec e ep) as [->|_]; [contradiction | reflexivity].
Qed.

Lemma list_find_insert_same {A} (Q : A -> Prop) `{!forall x, Decision (Q x)}
    (l : list A) (i : nat) (p p' : A) :
  list_find Q l = Some (i, p) -> Q p' ->
  list_find Q (<[i := p']> l) = Some (i, p').
Proof.
  intros Hf Hq. apply list_find_Some in Hf. destruct Hf as (Hl & _ & Hlt).
  apply list_find_Some. split; [|split].
  - apply list_lookup_insert_eq. eapply lookup_lt_Some; eauto.
  - exact Hq.
  - intros j y Hj Hji. rewrite list_lookup_insert_ne in Hj by lia. eauto.
Qed.

End Usbd_Properties.

Module X360_Properties.
Import Usbd X360 Usbd_Properties.

Lemma x360_get_instance_by_itf_Some itf l i p :
  get_instance_by_itf itf l = Some (i, p) ->
  l !! i = Some p /\ itf = itf_num p /\ (0 <> ep_in p \/ 0 <> ep_out p).
Proof.
  unfold get_instance_by_itf. intros H.
  apply list_find_Some in H. destruct H as (Hl & (Hi & He) & _). auto.
Qed.

Lemma x360_get_instance_by_ep_Some ep l i p :
  get_instance_by_ep ep l = Some (i, p) ->
  l !! i = Some p /\ (ep = ep_in p \/ ep = ep_out p).
Proof.
  unfold get_instance_by_ep. intros H.
  apply list_find_Some in H. destruct H as (Hl & He & _). auto.
Qed.

Lemma state_wf_lookup st i p :
  x360_state_wf st -> _x360_instances st !! i = Some p ->
  length (transfer_in_buf p) = 20%nat /\ length (transfer_out_buf p) = 8%nat.
Proof.
  unfold x360_state_wf. rewrite Forall_lookup. intros H Hl. exact (H i p Hl).
Qed.

Lemma report_buffer (buf : list Z) (report : x360_controls_t) :
  length buf = 20%nat -> length (bytes report) = 18%nat ->
  memcpy_at (<[1%nat := sizeof_x360_message_controls_t]>
               (<[0%nat := X360_MESSAGE_TYPE_IN_INPUT]> buf))
            2 (bytes report) (Z.to_nat sizeof_x360_controls_t)
  = [0x00; 20] ++ bytes report.
Proof.
  intros Hb Hr.
  destruct buf as [|a [|b rest]]; try discriminate.
  unfold memcpy_at.
  change (Z.to_nat sizeof_x360_controls_t) with 18%nat.
  cbn in Hb |- *.
  rewrite (take_ge (bytes report)) by lia.
  rewrite (drop_ge rest) by lia.
  rewrite app_nil_r. reflexivity.
Qed.

(** C1. A successful [x360d_n_report] leaves the header [{0x00, 20}] followed
    by the 18 control bytes in the IN buffer of the instance bound to the
    interface, enqueues one 20-byte transfer of that buffer on its IN
    endpoint, and the 20 bytes read back as a message give the controls that
    were passed in. *)
Theorem x360d_n_report_roundtrip (P : port_t) (itf : Z) (report : x360_controls_t)
    (st st' : x360_state) :
  x360_state_wf st ->
  x360_controls_wf report ->
  x360d_n_report P itf report st = (true, st') ->
  exists i p,
    get_instance_by_itf itf (_x360_instances st) = Some (i, p) /\
    x360_buf_bytes st' (TransferInBuf i) = [0x00; 20] ++ bytes report /\
    trace (usbd st') =
      trace (usbd st) ++
      [EvEdptXfer (rhport p) (ep_in p) (DriverBuffer (TransferInBuf i)) 20] /\
    x360_message_controls_of_bytes (x360_buf_bytes st' (TransferInBuf i)) =
      Some ({| msg_type := X360_MESSAGE_TYPE_IN_INPUT; msg_length := 20 |}, report).
Proof.
  intros Hwf [Hlen _] H. unfold x360d_n_report in H.
  destruct (get_instance_by_itf itf (_x360_instances st)) as [[i p]|] eqn:Hg;
    [|discriminate].
  destruct (x360_get_instance_by_itf_Some _ _ _ _ Hg) as (Hl & _ & _).
  destruct (state_wf_lookup _ _ _ Hwf Hl) as [Hin _].
  destruct (usbd_edpt_claim (rhport p) (ep_in p) (usbd st)) as [c u] eqn:Hc.
  destruct c; cbn in H; [|discriminate].
  apply usbd_edpt_claim_true in Hc. destruct Hc as (_ & _ & ->).
  rewrite (report_buffer _ _ Hin Hlen) in H.
  match type of H with
  | (let '(r, u') := ?X in _) = _ => destruct X as [r u'] eqn:Hx
  end.
  inversion H; subst r st'; clear H.
  apply usbd_edpt_xfer_true in Hx. destruct Hx as (_ & _ & Ht & _).
  exists i, p. split; [reflexivity|].
  assert (Hi : (i < length (_x360_instances st))%nat) by (eapply lookup_lt_Some; eauto).
  cbn. rewrite list_lookup_insert_eq by exact Hi. cbn.
  split; [reflexivity|]. split.
  - rewrite Ht. reflexivity.
  - unfold x360_message_controls_of_bytes.
    destruct (decide _) as [_|Hn].
    + destruct report as [bs]. reflexivity.
    + exfalso. apply Hn. cbn. cbn in Hlen. lia.
Qed.

Lemma x360d_n_report_roundtrip_witness :
  exists i p,
    get_instance_by_itf 0 (_x360_instances Examples.x360_bound) = Some (i, p) /\
    x360_buf_bytes (snd (x360d_n_report Examples.port_accept 0 Examples.controls_home_y
                           Examples.x360_bound)) (TransferInBuf i) =
      [0x00; 20] ++ bytes Examples.controls_home_y /\
    trace (usbd (snd (x360d_n_report Examples.port_accept 0 Examples.controls_home_y
                           Examples.x360_bound))) =
      trace (usbd Examples.x360_bound) ++
      [EvEdptXfer (rhport p) (ep_in p) (DriverBuffer (TransferInBuf i)) 20] /\
    x360_message_controls_of_bytes
      (x360_buf_bytes (snd (x360d_n_report Examples.port_accept 0 Examples.controls_home_y
                           Examples.x360_bound)) (TransferInBuf i)) =
      Some ({| msg_type := X360_MESSAGE_TYPE_IN_INPUT; msg_length := 20 |},
            Examples.controls_home_y).
Proof.
  apply (x360d_n_report_roundtrip Examples.port_accept 0 Examples.controls_home_y
           Examples.x360_bound).
  - repeat constructor.
  - split; [reflexivity|]. repeat constructor; vm_compute; congruence.
  - vm_compute. reflexivity.
Defined.

Lemma string_bytes_length (s : String.string) :
  length (string_bytes s) = String.length s.
Proof. induction s as [|c s IH]; cbn; [reflexivity | now rewrite IH]. Qed.

Lemma memcpy_at_0 (dst src : list Z) (n : nat) :
  length src = n -> memcpy_at dst 0 src n = src ++ drop n dst.
Proof.
  intros <-. unfold memcpy_at. cbn. rewrite firstn_all. reflexivity.
Qed.

Lemma take_memcpy_at_0 (dst src : list Z) (n : nat) :
  length src = n -> take n (memcpy_at dst 0 src n) = src.
Proof.
  intros H. rewrite memcpy_at_0 by exact H. subst n.
  rewrite take_app_length. reflexivity.
Qed.

(** C2. A vendor request with [bRequest = 1] and [wValue = 0x0000] for a bound
    interface is dispatched on the recipient: for the interface recipient the
    SETUP stage answers with the 8-byte rumble message built from
    [X360_RUMBLE_SUPPORT], for the device recipient it answers with the bytes
    of [X360_SERIAL_NUMBER], as many as the string has characters. *)
Theorem x360d_control_xfer_cb_recipient (cfg : x360_config_t) (P : port_t)
    (rh : Z) (request : tusb_control_request_t) (st : x360_state)
    (i : nat) (p : x360d_instance_t) (r : Z * Z) (serial : String.string) :
  bmRequestType_bit_type request = TUSB_REQ_TYPE_VENDOR ->
  bRequest request = 1 ->
  wValue request = 0x0000 ->
  0 <= wIndex request < 256 ->
  get_instance_by_itf (wIndex request) (_x360_instances st) = Some (i, p) ->
  rh = rhport p ->
  X360_RUMBLE_SUPPORT cfg = Some r ->
  X360_SERIAL_NUMBER cfg = Some serial ->
  (String.length serial <= 20)%nat ->
  bmRequestType_bit_recipient request = TUSB_REQ_RCPT_INTERFACE \/
  bmRequestType_bit_recipient request = TUSB_REQ_RCPT_DEVICE ->
  let st' := snd (x360d_control_xfer_cb cfg P rh CONTROL_STAGE_SETUP request st) in
  if bmRequestType_bit_recipient request =? TUSB_REQ_RCPT_INTERFACE
  then control_reply st st' rh request i 8 [0x00; 0x08; 0x00; fst r; snd r; 0; 0; 0]
  else control_reply st st' rh request i (Z.of_nat (String.length serial))
         (string_bytes serial).
Proof.
  intros Ht Hb Hv Hw Hg Hrh Hr Hs Hlen Hrec st'. subst st'.
  destruct (x360_get_instance_by_itf_Some _ _ _ _ Hg) as (Hl & Hi & _).
  assert (Hlt : (i < length (_x360_instances st))%nat) by (eapply lookup_lt_Some; eauto).
  unfold x360d_control_xfer_cb.
  rewrite Ht, Hb. cbn [Z.eqb negb TUSB_REQ_TYPE_VENDOR Pos.eqb].
  replace (Z.land (wIndex request) 255) with (wIndex request)
    by (symmetry; change 255 with (Z.ones 8); rewrite Z.land_ones by lia;
        apply Z.mod_small; lia).
  rewrite Hg, Hrh, Z.eqb_refl, <- Hi, Z.eqb_refl. cbn [negb].
  destruct Hrec as [Hrec|Hrec]; rewrite Hrec.
  - cbn [Z.eqb TUSB_REQ_RCPT_INTERFACE Pos.eqb].
    unfold x360d_interface_request_handler. rewrite Hr, Hv.
    cbn -[memcpy_at]. unfold control_reply. cbn -[memcpy_at take].
    rewrite list_lookup_insert_eq by exact Hlt. cbn -[memcpy_at take].
    split; [reflexivity|].
    apply (take_memcpy_at_0 _ (rumble_message r) 8). reflexivity.
  - cbn [Z.eqb TUSB_REQ_RCPT_INTERFACE TUSB_REQ_RCPT_DEVICE Pos.eqb].
    unfold x360d_device_request_handler. rewrite Hs, Hv.
    cbn [Z.eqb X360_HANDLE_SERIAL CONTROL_STAGE_SETUP Pos.eqb negb].
    unfold tu_memcpy_s.
    replace (X360_TRANSFER_IN_BUFFER_SIZE <? Z.of_nat (String.length serial))
      with false by (symmetry; apply Z.ltb_ge; unfold X360_TRANSFER_IN_BUFFER_SIZE; lia).
    cbn -[memcpy_at]. unfold control_reply. cbn -[memcpy_at take].
    rewrite list_lookup_insert_eq by exact Hlt. cbn -[memcpy_at take].
    split; [reflexivity|].
    rewrite Nat2Z.id.
    apply take_memcpy_at_0. apply string_bytes_length.
Qed.

Lemma x360d_control_xfer_cb_recipient_witness :
  control_reply Examples.x360_bound
    (snd (x360d_control_xfer_cb tusb_config Examples.port_accept 0 CONTROL_STAGE_SETUP
            (Examples.vendor_request 1 0 0) Examples.x360_bound))
    0 (Examples.vendor_request 1 0 0) 0 8 [0x00; 0x08; 0x00; 0; 0; 0; 0; 0] /\
  control_reply Examples.x360_bound
    (snd (x360d_control_xfer_cb tusb_config Examples.port_accept 0 CONTROL_STAGE_SETUP
            (Examples.vendor_request 0 0 0) Examples.x360_bound))
    0 (Examples.vendor_request 0 0 0) 0 3 [65; 66; 67].
Proof.
  split.
  - apply (x360d_control_xfer_cb_recipient tusb_config Examples.port_accept 0
             (Examples.vendor_request 1 0 0) Examples.x360_bound 0%nat
             {| rhport := 0; itf_num := 0; ep_in := 0x81; ep_out := 0x01;
                transfer_in_buf := replicate 20 0; transfer_out_buf := replicate 8 0;
                led := 0 |} (0, 0) "ABC"%string);
      try reflexivity; try (cbn; lia); left; reflexivity.
  - apply (x360d_control_xfer_cb_recipient tusb_config Examples.port_accept 0
             (Examples.vendor_request 0 0 0) Examples.x360_bound 0%nat
             {| rhport := 0; itf_num := 0; ep_in := 0x81; ep_out := 0x01;
                transfer_in_buf := replicate 20 0; transfer_out_buf := replicate 8 0;
                led := 0 |} (0, 0) "ABC"%string);
      try reflexivity; try (cbn; lia); right; reflexivity.
Defined.

Lemma received_led_calls_xfer (P : port_t) rh ep buf n (u : stack_t) :
  received_led_calls (trace (snd (usbd_edpt_xfer P rh ep buf n u))) =
  received_led_calls (trace u).
Proof.
  unfold usbd_edpt_xfer.
  destruct (busy (ep_status u ep)); [reflexivity|].
  destruct (dcd_edpt_xfer P u rh ep buf n); [|reflexivity].
  cbn. unfold received_led_calls. rewrite omap_app. cbn. apply app_nil_r.
Qed.

Lemma received_rumble_calls_xfer (P : port_t) rh ep buf n (u : stack_t) :
  received_rumble_calls (trace (snd (usbd_edpt_xfer P rh ep buf n u))) =
  received_rumble_calls (trace u).
Proof.
  unfold usbd_edpt_xfer.
  destruct (busy (ep_status u ep)); [reflexivity|].
  destruct (dcd_edpt_xfer P u rh ep buf n); [|reflexivity].
  cbn. unfold received_rumble_calls. rewrite omap_app. cbn. apply app_nil_r.
Qed.

(** Dispatch of a completed OUT transfer once the instance is resolved. *)
Lemma x360d_xfer_cb_out_eq (app : x360_app_t) (P : port_t) (n : Z)
    (st : x360_state) (i : nat) (p : x360d_instance_t) :
  get_instance_by_ep (ep_out p) (_x360_instances st) = Some (i, p) ->
  ep_out p <> ep_in p ->
  x360d_xfer_cb app P (rhport p) (ep_out p) XFER_RESULT_SUCCESS n st =
  (let st1 := x360d_report_out_received app (i, p) (n mod 65536) st in
   let '(ok, u) := usbd_edpt_xfer P (rhport p) (ep_out p)
                     (DriverBuffer (TransferOutBuf i))
                     X360_TRANSFER_OUT_BUFFER_SIZE (usbd st1) in
   (ok, with_usbd u st1)).
Proof.
  intros Hg Hne. unfold x360d_xfer_cb. rewrite Hg.
  rewrite !Z.eqb_refl. cbn [negb].
  destruct (Z.eqb_spec (ep_out p) (ep_in p)) as [E|_]; [contradiction|].
  reflexivity.
Qed.

(** One LED message delivered to a bound instance. *)
Lemma led_message_delivered (app : x360_app_t) (P : port_t) (code : Z)
    (st : x360_state) (i : nat) (p : x360d_instance_t) :
  get_instance_by_ep (ep_out p) (_x360_instances st) = Some (i, p) ->
  ep_out p <> ep_in p ->
  let st1 := snd (usbd_out_complete app P i
                    [X360_MESSAGE_TYPE_OUT_LED; sizeof_x360_message_led_t; code] st) in
  received_led_calls (trace (usbd st1)) =
    received_led_calls (trace (usbd st)) ++
    (if has_received_led_cb app && negb (led p =? code)
     then [(itf_num p, code)] else []) /\
  exists p1,
    get_instance_by_ep (ep_out p1) (_x360_instances st1) = Some (i, p1) /\
    ep_out p1 <> ep_in p1 /\ itf_num p1 = itf_num p /\ led p1 = code.
Proof.
  intros Hg Hne.
  destruct (x360_get_instance_by_ep_Some _ _ _ _ Hg) as (Hl & _).
  assert (Hlt : (i < length (_x360_instances st))%nat) by (eapply lookup_lt_Some; eauto).
  unfold usbd_out_complete. rewrite Hl.
  change (Z.to_nat (Z.min _ X360_TRANSFER_OUT_BUFFER_SIZE)) with 3%nat.
  change (Z.of_nat 3) with 3.
  set (msg := [X360_MESSAGE_TYPE_OUT_LED; sizeof_x360_message_led_t; code]).
  rewrite (memcpy_at_0 _ msg 3) by reflexivity.
  set (p' := set_transfer_out_buf (msg ++ drop 3 (transfer_out_buf p)) p).
  set (st0 := with_usbd _ (with_instance i p' st)).
  assert (Hg' : get_instance_by_ep (ep_out p') (_x360_instances st0) = Some (i, p')).
  { unfold st0. cbn [_x360_instances with_usbd with_instance].
    unfold get_instance_by_ep in *.
    apply (list_find_insert_same _ _ _ p p'); [exact Hg|]. right. reflexivity. }
  change (rhport p) with (rhport p'). change (ep_out p) with (ep_out p').
  rewrite (x360d_xfer_cb_out_eq app P 3 st0 i p' Hg' Hne).
  cbv zeta.
  match goal with
  | |- context [usbd_edpt_xfer ?a ?b ?c ?d ?e ?f] =>
      pose proof (received_led_calls_xfer a b c d e f) as Hx;
      destruct (usbd_edpt_xfer a b c d e f) as [ok u] eqn:Exfer
  end.
  cbn [snd] in Hx |- *. cbn [usbd with_usbd _x360_instances]. rewrite Hx. clear Hx Exfer.
  unfold x360d_report_out_received.
  change (3 mod 65536) with 3.
  change (transfer_out_buf p') with (msg ++ drop 3 (transfer_out_buf p)).
  change ((msg ++ drop 3 (transfer_out_buf p)) !!! 0%nat) with X360_MESSAGE_TYPE_OUT_LED.
  change ((msg ++ drop 3 (transfer_out_buf p)) !!! 2%nat) with code.
  cbn [sizeof_x360_message_rumble_t sizeof_x360_message_led_t Z.eqb Pos.eqb andb
       X360_MESSAGE_TYPE_OUT_LED].
  change (led p') with (led p).
  destruct (Z.eqb_spec (led p) code) as [E|E].
  - rewrite andb_false_r, app_nil_r. split; [reflexivity|].
    exists p'. repeat split; try assumption. 
  - rewrite andb_true_r.
    set (p1 := set_led code p').
    assert (Hg1 : get_instance_by_ep (ep_out p1)
                    (_x360_instances (with_instance i p1 st0)) = Some (i, p1)).
    { cbn [_x360_instances with_instance]. unfold get_instance_by_ep in *.
      apply (list_find_insert_same _ _ _ p' p1); [exact Hg'|]. right. reflexivity. }
    destruct (has_received_led_cb app).
    + split.
      * cbn. unfold received_led_calls. rewrite omap_app. reflexivity.
      * exists p1. repeat split; try assumption. 
    + split.
      * cbn. rewrite app_nil_r. reflexivity.
      * exists p1. repeat split; try assumption.
Qed.

Lemma x360_instance_field_of_find (e : Z) (st : x360_state) (i : nat) (p : x360d_instance_t)
    {T} (f : x360d_instance_t -> T) :
  get_instance_by_ep e (_x360_instances st) = Some (i, p) ->
  instance_field f i st = Some (f p).
Proof.
  intros Hg. destruct (x360_get_instance_by_ep_Some _ _ _ _ Hg) as (Hl & _).
  unfold instance_field. rewrite Hl. reflexivity.
Qed.

(** C3 (as amended). A 3-byte LED message whose animation code equals the
    stored one is dropped: no callback, no change of the driver state.
    Otherwise the code is stored and, when the application defines
    [received_led], the callback is invoked once.  Of two identical LED
    messages in a row the second never invokes the callback, so the pair
    yields one invocation when the code differs from the value stored before
    the first message and the callback is defined, and none otherwise. *)
Theorem led_debounce (app : x360_app_t) (P : port_t) (code : Z)
    (st : x360_state) (i : nat) (p : x360d_instance_t) :
  get_instance_by_ep (ep_out p) (_x360_instances st) = Some (i, p) ->
  ep_out p <> ep_in p ->
  let msg := [X360_MESSAGE_TYPE_OUT_LED; sizeof_x360_message_led_t; code] in
  let st1 := snd (usbd_out_complete app P i msg st) in
  let st2 := snd (usbd_out_complete app P i msg st1) in
  (forall st0 p0,
      transfer_out_buf p0 !!! 0%nat = X360_MESSAGE_TYPE_OUT_LED ->
      transfer_out_buf p0 !!! 2%nat = led p0 ->
      x360d_report_out_received app (i, p0) sizeof_x360_message_led_t st0 = st0) /\
  received_led_calls (trace (usbd st1)) =
    received_led_calls (trace (usbd st)) ++
    (if has_received_led_cb app && negb (led p =? code)
     then [(itf_num p, code)] else []) /\
  instance_field led i st1 = Some code /\
  received_led_calls (trace (usbd st2)) = received_led_calls (trace (usbd st1)) /\
  instance_field led i st2 = Some code.
Proof.
  intros Hg Hne msg st1 st2.
  split.
  { intros st0 p0 Hb Hl. unfold x360d_report_out_received.
    rewrite Hb, Hl. cbn. now rewrite Z.eqb_refl. }
  destruct (led_message_delivered app P code st i p Hg Hne)
    as (Hc1 & p1 & Hg1 & Hne1 & Hitf1 & Hled1).
  fold msg in Hc1, Hg1. fold st1 in Hc1, Hg1.
  destruct (led_message_delivered app P code st1 i p1 Hg1 Hne1)
    as (Hc2 & p2 & Hg2 & _ & _ & Hled2).
  fold msg in Hc2, Hg2. fold st2 in Hc2, Hg2.
  split; [exact Hc1|]. split.
  { rewrite (x360_instance_field_of_find _ _ _ _ led Hg1). now rewrite Hled1. }
  split.
  { rewrite Hc2, Hled1, Z.eqb_refl, andb_false_r. apply app_nil_r. }
  rewrite (x360_instance_field_of_find _ _ _ _ led Hg2). now rewrite Hled2.
Qed.

Lemma led_debounce_witness :
  let msg := [X360_MESSAGE_TYPE_OUT_LED; sizeof_x360_message_led_t; X360_LED_SLOT_1_ON] in
  let st1 := snd (usbd_out_complete Examples.x360_app_full Examples.port_accept 0 msg
                    Examples.x360_bound) in
  let st2 := snd (usbd_out_complete Examples.x360_app_full Examples.port_accept 0 msg st1) in
  received_led_calls (trace (usbd st1)) = [(0, X360_LED_SLOT_1_ON)] /\
  received_led_calls (trace (usbd st2)) = received_led_calls (trace (usbd st1)).
Proof.
  pose proof (led_debounce Examples.x360_app_full Examples.port_accept X360_LED_SLOT_1_ON
                Examples.x360_bound 0%nat
                {| rhport := 0; itf_num := 0; ep_in := 0x81; ep_out := 0x01;
                   transfer_in_buf := replicate 20 0; transfer_out_buf := replicate 8 0;
                   led := 0 |}) as H.
  destruct H as (_ & H1 & _ & H2 & _); [reflexivity | discriminate |].
  split; [exact H1 | exact H2].
Defined.

(** C3, the claim as worded fails: right after reset and open the stored
    animation is 0, and two identical LED messages carrying 0 invoke
    [received_led] not once but never. *)
Lemma led_debounce_counterexample :
  let msg := [X360_MESSAGE_TYPE_OUT_LED; sizeof_x360_message_led_t; X360_LED_ALL_OFF] in
  let st1 := snd (usbd_out_complete Examples.x360_app_full Examples.port_accept 0 msg
                    Examples.x360_bound) in
  let st2 := snd (usbd_out_complete Examples.x360_app_full Examples.port_accept 0 msg st1) in
  received_led_calls (trace (usbd Examples.x360_bound)) = [] /\
  length (received_led_calls (trace (usbd st2))) <> 1%nat.
Proof. vm_compute. split; [reflexivity | discriminate]. Qed.

Lemma report_out_received_ep_status (app : x360_app_t) ip n (st : x360_state) :
  ep_status (usbd (x360d_report_out_received app ip n st)) = ep_status (usbd st).
Proof.
  unfold x360d_report_out_received. destruct ip as [i p].
  repeat match goal with
         | |- context [if ?b then _ else _] => destruct b
         end; reflexivity.
Qed.

(** C4 (as amended). When an OUT transfer completes successfully, the driver
    invokes [received_rumble] (if the application defines it) with the bytes
    at offsets 3 and 4 exactly when the transferred count, as [uint16_t], is
    8 and the type byte of the message is 0x00; the length byte of the header
    is not looked at.  Whatever the message was, the driver then hands the
    OUT buffer of the instance back to the stack with
    [usbd_edpt_xfer (rhport, ep_out, transfer_out_buf, 8)]; on an idle
    endpoint whose controller accepts, that is a new enqueued transfer. *)
Theorem x360d_xfer_cb_rumble (app : x360_app_t) (P : port_t) (n : Z)
    (st : x360_state) (i : nat) (p : x360d_instance_t) :
  get_instance_by_ep (ep_out p) (_x360_instances st) = Some (i, p) ->
  ep_out p <> ep_in p ->
  let buf := transfer_out_buf p in
  let rearm := EvEdptXfer (rhport p) (ep_out p) (DriverBuffer (TransferOutBuf i))
                 X360_TRANSFER_OUT_BUFFER_SIZE in
  let st1 := x360d_report_out_received app (i, p) (n mod 65536) st in
  let st' := snd (x360d_xfer_cb app P (rhport p) (ep_out p) XFER_RESULT_SUCCESS n st) in
  received_rumble_calls (trace (usbd st')) =
    received_rumble_calls (trace (usbd st)) ++
    (if has_received_rumble_cb app && (n mod 65536 =? 8) && (buf !!! 0%nat =? 0x00)
     then [(itf_num p, buf !!! 3%nat, buf !!! 4%nat)] else []) /\
  usbd st' = snd (usbd_edpt_xfer P (rhport p) (ep_out p)
                    (DriverBuffer (TransferOutBuf i)) X360_TRANSFER_OUT_BUFFER_SIZE
                    (usbd st1)) /\
  (busy (ep_status (usbd st) (ep_out p)) = false ->
   dcd_edpt_xfer P (usbd st1) (rhport p) (ep_out p) (DriverBuffer (TransferOutBuf i))
     X360_TRANSFER_OUT_BUFFER_SIZE = true ->
   trace (usbd st') = trace (usbd st1) ++ [rearm] /\
   busy (ep_status (usbd st') (ep_out p)) = true).
Proof.
  intros Hg Hne buf rearm st1 st'. subst st'.
  rewrite (x360d_xfer_cb_out_eq app P n st i p Hg Hne). cbv zeta. fold st1.
  match goal with
  | |- context [usbd_edpt_xfer ?a ?b ?c ?d ?e ?f] =>
      pose proof (received_rumble_calls_xfer a b c d e f) as Hx;
      set (X := usbd_edpt_xfer a b c d e f) in *
  end.
  assert (Hs : usbd (snd (let '(ok, u) := X in (ok, with_usbd u st1))) = snd X)
    by (destruct X; reflexivity).
  rewrite Hs. split; [|split].
  - rewrite Hx. subst st1. unfold x360d_report_out_received. fold buf.
    change sizeof_x360_message_rumble_t with 8.
    change X360_MESSAGE_TYPE_OUT_RUMBLE with 0.
    rewrite (Z.eqb_sym 8), (Z.eqb_sym 0).
    destruct (n mod 65536 =? 8), (buf !!! 0%nat =? 0); cbn [andb];
      rewrite ?andb_false_r, ?andb_true_r, ?app_nil_r;
      repeat match goal with
             | |- context [if ?b then _ else _] => destruct b
             end; cbn; try reflexivity;
      unfold received_rumble_calls; rewrite ?omap_app; cbn;
      rewrite ?app_nil_r; reflexivity.
  - reflexivity.
  - intros Hb Hd. subst X. unfold usbd_edpt_xfer.
    subst st1. rewrite report_out_received_ep_status, Hb, Hd. cbn.
    rewrite Z.eqb_refl. split; reflexivity.
Qed.

Lemma x360d_xfer_cb_rumble_witness :
  let st0 := with_instance 0
               {| rhport := 0; itf_num := 0; ep_in := 0x81; ep_out := 0x01;
                  transfer_in_buf := replicate 20 0;
                  transfer_out_buf := [0x00; 0x08; 0x00; 0x80; 0x40; 0; 0; 0];
                  led := 0 |} Examples.x360_fresh in
  received_rumble_calls
    (trace (usbd (snd (x360d_xfer_cb Examples.x360_app_full Examples.port_accept 0 0x01
                         XFER_RESULT_SUCCESS 8 st0)))) = [(0, 0x80, 0x40)].
Proof.
  intros st0.
  pose proof (x360d_xfer_cb_rumble Examples.x360_app_full Examples.port_accept 8 st0 0%nat
                {| rhport := 0; itf_num := 0; ep_in := 0x81; ep_out := 0x01;
                   transfer_in_buf := replicate 20 0;
                   transfer_out_buf := [0x00; 0x08; 0x00; 0x80; 0x40; 0; 0; 0];
                   led := 0 |}) as H.
  destruct H as (H & _); [reflexivity | discriminate |].
  exact H.
Defined.

(** C4, the claim as worded fails: a message of type 0x00 whose header
    carries length 5, received with 8 transferred bytes, still invokes
    [received_rumble]. *)
Lemma x360d_xfer_cb_rumble_counterexample :
  let msg := [0x00; 0x05; 0x00; 0x80; 0x40; 0; 0; 0] in
  msg !! 1%nat = Some 0x05 /\
  received_rumble_calls (trace (usbd Examples.x360_bound)) = [] /\
  received_rumble_calls
    (trace (usbd (snd (usbd_out_complete Examples.x360_app_full Examples.port_accept 0 msg
                         Examples.x360_bound)))) = [(0, 0x80, 0x40)].
Proof. vm_compute. repeat split; reflexivity. Qed.








(** [x360d_n_report] on a bound interface, with a controller that accepts:
    the call fails exactly when the IN endpoint is taken, and then nothing
    changes. *)
Lemma x360d_n_report_bound (P : port_t) (itf : Z) (report : x360_controls_t)
    (st : x360_state) (i : nat) (p : x360d_instance_t) :
  port_accepts P ->
  get_instance_by_itf itf (_x360_instances st) = Some (i, p) ->
  (fst (x360d_n_report P itf report st) = false <-> edpt_taken (usbd st) (ep_in p)) /\
  (edpt_taken (usbd st) (ep_in p) -> x360d_n_report P itf report st = (false, st)).
Proof.
  intros Hp Hg. unfold x360d_n_report, edpt_taken. rewrite Hg.
  unfold usbd_edpt_claim.
  destruct (ep_status (usbd st) (ep_in p)) as [b c] eqn:E. cbn [busy claimed].
  destruct b, c; cbn [negb andb fst];
    try (split; [split; auto | reflexivity]).
  change (negb (sizeof_x360_message_controls_t <=? X360_TRANSFER_IN_BUFFER_SIZE))
    with false. cbv iota.
  unfold usbd_edpt_xfer. cbn [usbd with_usbd with_instance ep_status set_ep_status].
  rewrite Z.eqb_refl. cbn [busy]. rewrite Hp. cbn [fst].
  split; [split|]; intros H; try discriminate; destruct H; discriminate.
Qed.

Lemma x360d_n_report_unbound (P : port_t) (itf : Z) (report : x360_controls_t)
    (st : x360_state) :
  get_instance_by_itf itf (_x360_instances st) = None ->
  x360d_n_report P itf report st = (false, st).
Proof. intros Hg. unfold x360d_n_report. now rewrite Hg. Qed.

(** C8 (as amended). The MS OS 1.0 responder leaves a request unhandled
    unless it is vendor typed, [bRequest] is the configured vendor code,
    [wIndex] is 0x04 or 0x05 and the provider callback for that index is
    defined.  For such a request it hands the provider's blob to the stack
    at the SETUP stage only, and what it returns at the SETUP stage is what
    [tud_control_xfer] returns: handled when the stack starts the data
    stage, unhandled when it refuses.  At the other stages it returns
    handled and does nothing.  With a stack that starts every data stage it
    is asked for, it therefore handles a request exactly when the four
    conditions hold.  A request it does not address leaves no trace, and no
    request changes the state of an endpoint. *)
Theorem ms_os_control_xfer_cb_handled (cfg : x360_config_t) (app : x360_app_t)
    (P : port_t) (rh stage : Z) (request : tusb_control_request_t) (u : stack_t) :
  let provider :=
    if wIndex request =? 0x04 then tud_descriptor_ms_compatid_cb app
    else if wIndex request =? 0x05 then tud_descriptor_ms_property_cb app
    else None in
  let addressed :=
    (bmRequestType_bit_type request =? TUSB_REQ_TYPE_VENDOR) &&
    (bRequest request =? MS_OS_DESCRIPTOR_VENDORCODE cfg) in
  let r := fst (ms_os_control_xfer_cb cfg app P rh stage request u) in
  let u' := snd (ms_os_control_xfer_cb cfg app P rh stage request u) in
  (r = true <->
   addressed = true /\
   match provider with
   | Some (buffer, len) =>
       stage = CONTROL_STAGE_SETUP ->
       control_xfer_start P u rh request (AppBuffer buffer) len = true
   | None => False
   end) /\
  (r = true -> addressed = true /\ is_Some provider) /\
  (control_starts P -> (r = true <-> addressed = true /\ is_Some provider)) /\
  ep_status u' = ep_status u /\
  trace u' =
    trace u ++
    match provider with
    | Some (buffer, len) =>
        if addressed && (stage =? CONTROL_STAGE_SETUP)
        then [EvControlXfer rh request (AppBuffer buffer) len] else []
    | None => []
    end.
Proof.
  intros provider addressed r u'. subst r u' provider addressed.
  unfold ms_os_control_xfer_cb, MS_EXTENDED_COMPATID_DESCRIPTOR,
    MS_EXTENDED_PROPERTIES_DESCRIPTOR, tud_control_xfer.
  rewrite (Z.eqb_sym TUSB_REQ_TYPE_VENDOR), (Z.eqb_sym (MS_OS_DESCRIPTOR_VENDORCODE cfg)),
    (Z.eqb_sym CONTROL_STAGE_SETUP).
  assert (Hoff : forall provider : option (Z * Z),
    (false = true <->
     false = true /\
     match provider with
     | Some (buffer, len) =>
         stage = CONTROL_STAGE_SETUP ->
         control_xfer_start P u rh request (AppBuffer buffer) len = true
     | None => False
     end) /\
    (false = true -> false = true /\ is_Some provider) /\
    (control_starts P -> (false = true <-> false = true /\ is_Some provider)) /\
    ep_status u = ep_status u /\
    trace u = trace u ++ match provider with
                         | Some (buffer, len) => []
                         | None => []
                         end).
  { intros provider.
    split; [split; [discriminate | intros [H _]; discriminate]|].
    split; [discriminate|].
    split; [intros _; split; [discriminate | intros [H _]; discriminate]|].
    split; [reflexivity|].
    destruct provider as [[? ?]|]; now rewrite app_nil_r. }
  assert (Hon : forall buffer len,
    let res := if negb (stage =? CONTROL_STAGE_SETUP) then (true, u)
               else (control_xfer_start P u rh request (AppBuffer buffer) len,
                     log (EvControlXfer rh request (AppBuffer buffer) len) u) in
    (fst res = true <->
     true = true /\
     (stage = CONTROL_STAGE_SETUP ->
      control_xfer_start P u rh request (AppBuffer buffer) len = true)) /\
    (fst res = true -> true = true /\ is_Some (Some (buffer, len))) /\
    (control_starts P ->
     (fst res = true <-> true = true /\ is_Some (Some (buffer, len)))) /\
    ep_status (snd res) = ep_status u /\
    trace (snd res) =
      trace u ++
      (if true && (stage =? CONTROL_STAGE_SETUP)
       then [EvControlXfer rh request (AppBuffer buffer) len] else [])).
  { intros buffer len res. subst res.
    destruct (stage =? CONTROL_STAGE_SETUP) eqn:Hst;
      [apply Z.eqb_eq in Hst | apply Z.eqb_neq in Hst];
      cbn [negb andb fst snd log ep_status trace].
    - split; [split; [intros H; split; [reflexivity | intros _; exact H]
                     | intros [_ H]; exact (H Hst)]|].
      split; [intros _; split; [reflexivity | eexists; reflexivity]|].
      split; [|split; reflexivity].
      intros Hs. rewrite Hs.
      split; intros _; [split; [reflexivity | eexists; reflexivity] | reflexivity].
    - rewrite app_nil_r.
      split; [split; [intros _; split; [reflexivity | intros H; contradiction]
                     | reflexivity]|].
      split; [intros _; split; [reflexivity | eexists; reflexivity]|].
      split; [|split; reflexivity].
      intros _.
      split; intros _; [split; [reflexivity | eexists; reflexivity] | reflexivity]. }
  assert (Hnone :
    (false = true <-> true = true /\ False) /\
    (false = true -> true = true /\ is_Some (@None (Z * Z))) /\
    (control_starts P -> (false = true <-> true = true /\ is_Some (@None (Z * Z)))) /\
    ep_status u = ep_status u /\
    trace u = trace u ++ []).
  { split; [split; [discriminate | intros [_ []]]|].
    split; [discriminate|].
    split; [|split; [reflexivity | now rewrite app_nil_r]].
    intros _. split; [discriminate | intros [_ [x Hx]]; discriminate]. }
  destruct (bmRequestType_bit_type request =? TUSB_REQ_TYPE_VENDOR);
    cbn [negb andb fst snd]; [|apply Hoff].
  destruct (bRequest request =? MS_OS_DESCRIPTOR_VENDORCODE cfg);
    cbn [negb andb fst snd]; [|apply Hoff].
  destruct (wIndex request =? 4).
  - destruct (tud_descriptor_ms_compatid_cb app) as [[buffer len]|];
      [apply Hon | exact Hnone].
  - destruct (wIndex request =? 5); [|exact Hnone].
    destruct (tud_descriptor_ms_property_cb app) as [[buffer len]|];
      [apply Hon | exact Hnone].
Qed.

Lemma ms_os_control_xfer_cb_handled_witness :
  fst (ms_os_control_xfer_cb tusb_config Examples.x360_app_full Examples.port_accept 0
         CONTROL_STAGE_SETUP (Examples.ms_os_request 0x04) Examples.usbd_idle) = true /\
  trace (snd (ms_os_control_xfer_cb tusb_config Examples.x360_app_full
                Examples.port_accept 0 CONTROL_STAGE_SETUP (Examples.ms_os_request 0x04)
                Examples.usbd_idle)) =
    [EvControlXfer 0 (Examples.ms_os_request 0x04) (AppBuffer 0x1000) 40] /\
  fst (ms_os_control_xfer_cb tusb_config Examples.x360_app_none Examples.port_accept 0
         CONTROL_STAGE_SETUP (Examples.ms_os_request 0x04) Examples.usbd_idle) <> true /\
  fst (ms_os_control_xfer_cb tusb_config Examples.x360_app_full Examples.port_refuse 0
         CONTROL_STAGE_SETUP (Examples.ms_os_request 0x04) Examples.usbd_idle) <> true.
Proof.
  assert (Hs : control_starts (Examples.port_accept (D := x360_buf) (A := x360_app_event)))
    by (intros ? ? ? ? ?; reflexivity).
  pose proof (ms_os_control_xfer_cb_handled tusb_config Examples.x360_app_full
                Examples.port_accept 0 CONTROL_STAGE_SETUP (Examples.ms_os_request 0x04)
                Examples.usbd_idle) as (_ & _ & Hiff & _ & Ht).
  pose proof (ms_os_control_xfer_cb_handled tusb_config Examples.x360_app_none
                Examples.port_accept 0 CONTROL_STAGE_SETUP (Examples.ms_os_request 0x04)
                Examples.usbd_idle) as (_ & Hnone & _).
  pose proof (ms_os_control_xfer_cb_handled tusb_config Examples.x360_app_full
                Examples.port_refuse 0 CONTROL_STAGE_SETUP (Examples.ms_os_request 0x04)
                Examples.usbd_idle) as (Hexact & _).
  split; [|split; [|split]].
  - apply (Hiff Hs). split; [reflexivity | eexists; reflexivity].
  - exact Ht.
  - intros H. apply Hnone in H. destruct H as [_ [x Hx]]. discriminate.
  - intros H. apply Hexact in H. destruct H as [_ H].
    specialize (H eq_refl). discriminate.
Defined.

(** C8, the claim as worded fails: a vendor request with the configured
    vendor code and [wIndex = 0x04], with the compat-ID provider defined, is
    answered unhandled at the SETUP stage when the stack does not start the
    data stage. *)
Lemma ms_os_control_xfer_cb_handled_counterexample :
  let request := Examples.ms_os_request 0x04 in
  bmRequestType_bit_type request = TUSB_REQ_TYPE_VENDOR /\
  bRequest request = MS_OS_DESCRIPTOR_VENDORCODE tusb_config /\
  wIndex request = 0x04 /\
  is_Some (tud_descriptor_ms_compatid_cb Examples.x360_app_full) /\
  fst (ms_os_control_xfer_cb tusb_config Examples.x360_app_full Examples.port_refuse 0
         CONTROL_STAGE_SETUP request Examples.usbd_idle) = false.
Proof.
  cbv zeta. split; [reflexivity|]. split; [reflexivity|]. split; [reflexivity|].
  split; [eexists; reflexivity | reflexivity].
Qed.

End X360_Properties.

Module CHID_Properties.
Import Usbd CHID Usbd_Properties.

Lemma chidd_get_instance_by_itf_Some itf l i p :
  get_instance_by_itf itf l = Some (i, p) ->
  l !! i = Some p /\ itf = itf_num p /\ (0 <> ep_in p \/ 0 <> ep_out p).
Proof.
  unfold get_instance_by_itf. intros H.
  apply list_find_Some in H. destruct H as (Hl & (Hi & He) & _). auto.
Qed.

Lemma land_byte (x : Z) : 0 <= x < 256 -> Z.land x 0xFF = x.
Proof.
  intros H. change 0xFF with (Z.ones 8). rewrite Z.land_ones by lia.
  apply Z.mod_small. lia.
Qed.

Lemma chidd_instance_field_insert {T} (f : chidd_instance_t -> T) (i : nat)
    (p : chidd_instance_t) (l : list chidd_instance_t) (u : stack_t) :
  (i < length l)%nat ->
  instance_field f i {| _chidd_instances := <[i := p]> l; usbd := u |} = Some (f p).
Proof.
  intros H. unfold instance_field. cbn [_chidd_instances].
  rewrite list_lookup_insert_eq by exact H. reflexivity.
Qed.

(** A class request with [bmRequestType = 0x21] (host to device, class,
    interface) for a bound interface reaches the class handler. *)
Lemma chidd_control_xfer_cb_class (app : chidd_app_t) (P : port_t) (rh stage : Z)
    (request : tusb_control_request_t) (st : chidd_state)
    (i : nat) (p : chidd_instance_t) :
  bmRequestType_bit_recipient request = TUSB_REQ_RCPT_INTERFACE ->
  bmRequestType_bit_type request = TUSB_REQ_TYPE_CLASS ->
  0 <= wIndex request < 256 ->
  get_instance_by_itf (wIndex request) (_chidd_instances st) = Some (i, p) ->
  rh = rhport p ->
  chidd_control_xfer_cb app P rh stage request st =
  chidd_class_specific_request_handler app P (i, p) stage request st.
Proof.
  intros Hr Ht Hw Hg Hrh. unfold chidd_control_xfer_cb.
  destruct (chidd_get_instance_by_itf_Some _ _ _ _ Hg) as (_ & Hi & _).
  rewrite Hr, Ht, (land_byte _ Hw), Hg, Hrh, <- Hi, !Z.eqb_refl.
  reflexivity.
Qed.

(** C6. A SET_IDLE request ([bmRequestType = 0x21], [bRequest = 0x0A]) for a
    bound HID interface, at the SETUP stage: the driver sends the zero-length
    status and, when the low byte of [wValue] is 0, stores the high byte as
    [idle_rate] (it leaves [idle_rate] alone otherwise).  [wValue = 0x0000]
    stores 0 and [wValue = 0xFF00] stores 0xFF.  The application's [set_idle]
    callback, if there is one, is called afterwards and has no influence on
    what was stored. *)
Theorem chidd_set_idle_stores (app : chidd_app_t) (P : port_t) (rh : Z)
    (request : tusb_control_request_t) (st : chidd_state)
    (i : nat) (p : chidd_instance_t) :
  bmRequestType request = 0x21 ->
  bRequest request = HID_REQ_CONTROL_SET_IDLE ->
  0 <= wIndex request < 256 ->
  get_instance_by_itf (wIndex request) (_chidd_instances st) = Some (i, p) ->
  rh = rhport p ->
  let id := tu_u16_low (wValue request) in
  let duration := tu_u16_high (wValue request) in
  let st' := snd (chidd_control_xfer_cb app P rh CONTROL_STAGE_SETUP request st) in
  trace (usbd st') =
    trace (usbd st) ++
    EvControlStatus rh request ::
    match set_idle_impl app with
    | Some _ => [EvApp (chidd_set_idle_cb (itf_num p) id duration)]
    | None => []
    end /\
  instance_field idle_rate i st' = Some (if id =? 0 then duration else idle_rate p) /\
  (wValue request = 0x0000 -> instance_field idle_rate i st' = Some 0) /\
  (wValue request = 0xFF00 -> instance_field idle_rate i st' = Some 0xFF).
Proof.
  intros Hbm Hb Hw Hg Hrh id duration st'.
  destruct (chidd_get_instance_by_itf_Some _ _ _ _ Hg) as (Hl & _ & _).
  assert (Hlt : (i < length (_chidd_instances st))%nat) by (eapply lookup_lt_Some; eauto).
  assert (Hmain :
    trace (usbd st') =
      trace (usbd st) ++
      EvControlStatus rh request ::
      match set_idle_impl app with
      | Some _ => [EvApp (chidd_set_idle_cb (itf_num p) id duration)]
      | None => []
      end /\
    instance_field idle_rate i st' = Some (if id =? 0 then duration else idle_rate p)).
  { subst st'.
    rewrite (chidd_control_xfer_cb_class app P rh _ request st i p);
      try assumption;
      try (unfold bmRequestType_bit_recipient, bmRequestType_bit_type;
           rewrite Hbm; reflexivity).
    unfold chidd_class_specific_request_handler.
    unfold bmRequestType_bit_direction. rewrite Hbm, Hb.
    change (HID_REQ_CONTROL_SET_IDLE =? HID_REQ_CONTROL_GET_REPORT) with false.
    change (HID_REQ_CONTROL_SET_IDLE =? HID_REQ_CONTROL_SET_REPORT) with false.
    change (HID_REQ_CONTROL_SET_IDLE =? HID_REQ_CONTROL_GET_IDLE) with false.
    change (HID_REQ_CONTROL_SET_IDLE =? HID_REQ_CONTROL_SET_IDLE) with true.
    change (negb (0 =? Z.land (Z.shiftr 33 7) 1)) with false.
    change (negb (CONTROL_STAGE_SETUP =? CONTROL_STAGE_SETUP)) with false.
    cbv iota. fold id duration. rewrite (Z.eqb_sym 0 id), <- Hrh.
    unfold tud_control_status.
    destruct (id =? 0); destruct (set_idle_impl app) as [cb|];
      cbn [snd app_call with_usbd with_instance usbd _chidd_instances];
      (split; [cbn; rewrite <- ?app_assoc; reflexivity|]).
    - apply chidd_instance_field_insert. exact Hlt.
    - apply chidd_instance_field_insert. exact Hlt.
    - unfold instance_field. cbn. now rewrite Hl.
    - unfold instance_field. cbn. now rewrite Hl. }
  destruct Hmain as [Ht Hi]. split; [exact Ht|]. split; [exact Hi|].
  split; intros Hv; rewrite Hi; subst id duration; rewrite Hv; reflexivity.
Qed.

Lemma chidd_set_idle_stores_witness :
  instance_field idle_rate 0
    (snd (chidd_control_xfer_cb Examples.chidd_app_min Examples.port_accept 0
            CONTROL_STAGE_SETUP (Examples.hid_class_request 0 HID_REQ_CONTROL_SET_IDLE 0xFF00)
            Examples.chidd_bound)) = Some 0xFF /\
  instance_field idle_rate 0
    (snd (chidd_control_xfer_cb Examples.chidd_app_full Examples.port_accept 0
            CONTROL_STAGE_SETUP (Examples.hid_class_request 0 HID_REQ_CONTROL_SET_IDLE 0x7D00)
            Examples.chidd_bound)) = Some 0x7D.
Proof.
  split.
  - apply (chidd_set_idle_stores Examples.chidd_app_min Examples.port_accept 0
             (Examples.hid_class_request 0 HID_REQ_CONTROL_SET_IDLE 0xFF00)
             Examples.chidd_bound 0%nat
             {| rhport := 0; itf_num := 0; ep_in := 0x81; ep_out := 0x01;
                transfer_in_buf := 0; transfer_out_buf := 0; transfer_out_size := 0;
                protocol_mode := 1; idle_rate := 0;
                hid_descriptor := Some (drop 9 Examples.hid_desc_itf) |});
      try reflexivity; cbn; lia.
  - apply (chidd_set_idle_stores Examples.chidd_app_full Examples.port_accept 0
             (Examples.hid_class_request 0 HID_REQ_CONTROL_SET_IDLE 0x7D00)
             Examples.chidd_bound 0%nat
             {| rhport := 0; itf_num := 0; ep_in := 0x81; ep_out := 0x01;
                transfer_in_buf := 0; transfer_out_buf := 0; transfer_out_size := 0;
                protocol_mode := 1; idle_rate := 0;
                hid_descriptor := Some (drop 9 Examples.hid_desc_itf) |});
      try reflexivity; cbn; lia.
Defined.

Lemma same_binding_refl p : same_binding p p.
Proof. repeat split. Qed.

Lemma same_binding_trans p q r : same_binding p q -> same_binding q r -> same_binding p r.
Proof. unfold same_binding. intuition congruence. Qed.

Lemma same_mode_refl p : same_mode p p.
Proof. split; [apply same_binding_refl | reflexivity]. Qed.

Lemma same_mode_trans p q r : same_mode p q -> same_mode q r -> same_mode p r.
Proof.
  intros [H1 H2] [H3 H4]. split; [eapply same_binding_trans; eauto | congruence].
Qed.

Lemma slot_update_Forall2 (R : chidd_instance_t -> chidd_instance_t -> Prop)
    (flag : bool) (l l' : list chidd_instance_t) :
  (forall p, R p p) ->
  (forall p p', same_binding p p' ->
                (flag = false -> protocol_mode p' = protocol_mode p) -> R p p') ->
  slot_update flag l l' -> Forall2 R l l'.
Proof.
  intros Hrefl Hr [->|(i & p & p' & Hl & -> & Hb & Hm)].
  - apply Forall2_same_length_lookup. split; [reflexivity|].
    intros j x y Hx Hy. rewrite Hx in Hy. inversion Hy; subst. apply Hrefl.
  - apply Forall2_same_length_lookup. split; [now rewrite length_insert|].
    intros j x y Hx Hy. destruct (decide (i = j)) as [->|Hne].
    + rewrite list_lookup_insert_eq in Hy by (eapply lookup_lt_Some; eauto).
      rewrite Hl in Hx. inversion Hx; inversion Hy; subst. now apply Hr.
    + rewrite list_lookup_insert_ne in Hy by exact Hne.
      rewrite Hx in Hy. inversion Hy; subst. apply Hrefl.
Qed.

Ltac break_if :=
  match goal with
  | |- context [match ?x with _ => _ end] =>
      first [is_var x; destruct x | destruct x eqn:?]
  end.

Ltac leaf_same := left; reflexivity.

Ltac leaf_insert :=
  right; eexists _, _, _;
  split; [eassumption|];
  split; [reflexivity|];
  split; [repeat split|];
  first [ reflexivity | intros; discriminate ].

Lemma chidd_control_effect (app : chidd_app_t) (P : port_t) (rh stage : Z)
    (request : tusb_control_request_t) (st : chidd_state) :
  let st' := snd (chidd_control_xfer_cb app P rh stage request st) in
  ep_status (usbd st') = ep_status (usbd st) /\
  slot_update (is_set_protocol (CallControl rh stage request))
    (_chidd_instances st) (_chidd_instances st').
Proof.
  cbv zeta. unfold chidd_control_xfer_cb.
  destruct (negb _); [split; [reflexivity | leaf_same]|].
  destruct (get_instance_by_itf _ _) as [[i p]|] eqn:Hg;
    [|split; [reflexivity | leaf_same]].
  destruct (chidd_get_instance_by_itf_Some _ _ _ _ Hg) as (Hl & _ & _).
  destruct (negb _); [split; [reflexivity | leaf_same]|].
  destruct (negb _); [split; [reflexivity | leaf_same]|].
  destruct (bmRequestType_bit_type request =? TUSB_REQ_TYPE_STANDARD).
  { unfold chidd_standard_request_handler, tud_control_xfer.
    repeat break_if; cbn; (split; [reflexivity | leaf_same]). }
  unfold is_set_protocol.
  destruct (bmRequestType_bit_type request =? TUSB_REQ_TYPE_CLASS);
    [|split; [reflexivity | leaf_same]].
  unfold chidd_class_specific_request_handler, tud_control_xfer, tud_control_status.
  cbn [andb].
  destruct (bRequest request =? HID_REQ_CONTROL_GET_REPORT).
  { repeat break_if; cbn;
      (split; [reflexivity | first [leaf_same | leaf_insert]]). }
  destruct (bRequest request =? HID_REQ_CONTROL_SET_REPORT).
  { repeat break_if; cbn;
      (split; [reflexivity | first [leaf_same | leaf_insert]]). }
  destruct (bRequest request =? HID_REQ_CONTROL_GET_IDLE).
  { repeat break_if; cbn;
      (split; [reflexivity | first [leaf_same | leaf_insert]]). }
  destruct (bRequest request =? HID_REQ_CONTROL_SET_IDLE).
  { repeat break_if; cbn;
      (split; [reflexivity | first [leaf_same | leaf_insert]]). }
  destruct (bRequest request =? HID_REQ_CONTROL_GET_PROTOCOL).
  { repeat break_if; cbn;
      (split; [reflexivity | first [leaf_same | leaf_insert]]). }
  destruct (bRequest request =? HID_REQ_CONTROL_SET_PROTOCOL).
  { repeat break_if; cbn;
      (split; [reflexivity | first [leaf_same | leaf_insert]]). }
  split; [reflexivity | leaf_same].
Qed.

Lemma chidd_get_instance_by_ep_Some ep l i p :
  get_instance_by_ep ep l = Some (i, p) ->
  l !! i = Some p /\ (ep = ep_in p \/ ep = ep_out p).
Proof.
  unfold get_instance_by_ep. intros H.
  apply list_find_Some in H. destruct H as (Hl & He & _). auto.
Qed.

Lemma chidd_send_report_slots (P : port_t) (itf report len : Z) (st : chidd_state) :
  slot_update false (_chidd_instances st)
    (_chidd_instances (snd (chidd_send_report P itf report len st))).
Proof.
  unfold chidd_send_report.
  destruct (get_instance_by_itf _ _) as [[i p]|] eqn:Hg; [|leaf_same].
  destruct (chidd_get_instance_by_itf_Some _ _ _ _ Hg) as (Hl & _ & _).
  destruct (usbd_edpt_claim _ _ _) as [c u].
  destruct c; cbn [negb]; [|leaf_same].
  destruct (negb _); [cbn; leaf_insert|].
  destruct (usbd_edpt_xfer _ _ _ _ _ _) as [r u']. cbn. leaf_insert.
Qed.

Lemma chidd_receive_report_slots (P : port_t) (itf report len : Z) (st : chidd_state) :
  slot_update false (_chidd_instances st)
    (_chidd_instances (snd (chidd_receive_report P itf report len st))).
Proof.
  unfold chidd_receive_report.
  destruct (get_instance_by_itf _ _) as [[i p]|] eqn:Hg; [|leaf_same].
  destruct (chidd_get_instance_by_itf_Some _ _ _ _ Hg) as (Hl & _ & _).
  destruct (negb _); [leaf_same|].
  destruct (usbd_edpt_xfer _ _ _ _ _ _) as [r u']. cbn. leaf_insert.
Qed.

Lemma chidd_xfer_cb_slots (app : chidd_app_t) (P : port_t) (rh ep result n : Z)
    (st : chidd_state) :
  slot_update false (_chidd_instances st)
    (_chidd_instances (snd (chidd_xfer_cb app P rh ep result n st))).
Proof.
  unfold chidd_xfer_cb.
  destruct (get_instance_by_ep _ _) as [[i p]|] eqn:Hg; [|leaf_same].
  destruct (chidd_get_instance_by_ep_Some _ _ _ _ Hg) as (Hl & _).
  destruct (negb _); [leaf_same|].
  destruct (negb _).
  { destruct (has_report_issue_cb app); [leaf_same|].
    destruct (ep =? ep_out p); [|leaf_same].
    destruct (usbd_edpt_xfer _ _ _ _ _ _) as [r u']. leaf_same. }
  destruct (ep =? ep_in p).
  { destruct (has_report_sent_complete_cb app); leaf_same. }
  destruct (ep =? ep_out p); [|leaf_same].
  destruct (has_report_received_complete_cb app); cbn; leaf_insert.
Qed.

(** Every call keeps the bindings, and keeps the protocol modes unless it
    is a SET_PROTOCOL request. *)
Lemma chidd_step_slots (app : chidd_app_t) (P : port_t) (c : chidd_call)
    (st : chidd_state) :
  slot_update (is_set_protocol c) (_chidd_instances st)
    (_chidd_instances (snd (chidd_step app P c st))).
Proof.
  destruct c as [rh stage request|itf report len|itf report len|rh ep result n];
    cbn [chidd_step].
  - apply chidd_control_effect.
  - apply chidd_send_report_slots.
  - apply chidd_receive_report_slots.
  - apply (chidd_xfer_cb_slots app P rh ep result n
             (with_usbd (usbd_edpt_release_on_complete ep (usbd st)) st)).
Qed.

Lemma chidd_step_claim_held (app : chidd_app_t) (P : port_t) (e : Z) (c : chidd_call)
    (st : chidd_state) :
  claim_held e st ->
  is_xfer_complete_on e c = false ->
  claim_held e (snd (chidd_step app P c st)).
Proof.
  intros [Hc Hout] Hx. split.
  - assert (Hfind_itf : forall itf i p,
               get_instance_by_itf itf (_chidd_instances st) = Some (i, p) ->
               ep_out p <> e).
    { intros itf i p Hg. destruct (chidd_get_instance_by_itf_Some _ _ _ _ Hg) as (Hl & _).
      rewrite Forall_lookup in Hout. eapply Hout; eauto. }
    assert (Hfind_ep : forall ep i p,
               get_instance_by_ep ep (_chidd_instances st) = Some (i, p) ->
               ep_out p <> e).
    { intros ep i p Hg. destruct (chidd_get_instance_by_ep_Some _ _ _ _ Hg) as (Hl & _).
      rewrite Forall_lookup in Hout. eapply Hout; eauto. }
    destruct c as [rh stage request|itf report len|itf report len|rh ep result n];
      cbn [chidd_step].
    + destruct (chidd_control_effect app P rh stage request st) as [He _].
      cbv zeta in He. now rewrite He.
    + unfold chidd_send_report.
      destruct (get_instance_by_itf _ _) as [[i p]|] eqn:Hg; [|exact Hc].
      destruct (usbd_edpt_claim _ _ _) as [cl u] eqn:Hcl.
      destruct cl; cbn [negb]; [|exact Hc].
      apply usbd_edpt_claim_true in Hcl. destruct Hcl as (_ & Hnc & ->).
      assert (Hne : ep_in p <> e) by (intros Heq; rewrite Heq in Hnc; congruence).
      assert (Hu : claimed (ep_status
                              (set_ep_status (ep_in p)
                                 {| busy := false; claimed := true |} (usbd st)) e) = true).
      { cbn. destruct (Z.eqb_spec e (ep_in p)); [congruence | exact Hc]. }
      destruct (negb _); [exact Hu|].
      cbn [usbd with_usbd with_instance].
      match goal with
      | |- context [usbd_edpt_xfer ?a ?b ?c ?d ?f ?g] =>
          pose proof (usbd_edpt_xfer_other a b c d f g e Hne) as Hk;
          destruct (usbd_edpt_xfer a b c d f g) as [r u']
      end.
      cbn [snd usbd with_usbd] in Hk |- *. now rewrite Hk.
    + unfold chidd_receive_report.
      destruct (get_instance_by_itf _ _) as [[i p]|] eqn:Hg; [|exact Hc].
      destruct (negb _); [exact Hc|].
      cbn [usbd with_usbd with_instance].
      match goal with
      | |- context [usbd_edpt_xfer ?a ?b ?c ?d ?f ?g] =>
          pose proof (usbd_edpt_xfer_other a b c d f g e (Hfind_itf _ _ _ Hg)) as Hk;
          destruct (usbd_edpt_xfer a b c d f g) as [r u']
      end.
      cbn [snd usbd with_usbd] in Hk |- *. now rewrite Hk.
    + cbn [is_xfer_complete_on] in Hx. apply Z.eqb_neq in Hx.
      assert (Hrel : claimed (ep_status (usbd_edpt_release_on_complete ep (usbd st)) e)
                     = true)
        by (rewrite usbd_edpt_release_other by exact Hx; exact Hc).
      unfold chidd_xfer_cb. cbn [_chidd_instances with_usbd usbd].
      destruct (get_instance_by_ep _ _) as [[i p]|] eqn:Hg; [|exact Hrel].
      destruct (negb _); [exact Hrel|].
      destruct (negb _).
      { destruct (has_report_issue_cb app); [exact Hrel|].
        destruct (ep =? ep_out p); [|exact Hrel].
        match goal with
        | |- context [usbd_edpt_xfer ?a ?b ?c ?d ?f ?g] =>
            pose proof (usbd_edpt_xfer_other a b c d f g e (Hfind_ep _ _ _ Hg)) as Hk;
            destruct (usbd_edpt_xfer a b c d f g) as [r u']
        end.
        cbn [snd usbd with_usbd] in Hk |- *. now rewrite Hk. }
      destruct (ep =? ep_in p).
      { destruct (has_report_sent_complete_cb app); exact Hrel. }
      destruct (ep =? ep_out p); [|exact Hrel].
      destruct (has_report_received_complete_cb app); exact Hrel.
  - pose proof (chidd_step_slots app P c st) as Hs.
    apply (slot_update_Forall2 same_binding) in Hs;
      [|apply same_binding_refl | auto].
    rewrite Forall_lookup in Hout. apply Forall_lookup. intros j q Hq.
    destruct (Forall2_lookup_r _ _ _ _ _ Hs Hq) as (q0 & Hq0 & Hb).
    destruct Hb as (_ & _ & _ & Ho). rewrite <- Ho. eapply Hout; eauto.
Qed.

Lemma chidd_get_instance_by_itf_same (itf : Z) (l l' : list chidd_instance_t)
    (i : nat) (p : chidd_instance_t) :
  Forall2 same_binding l l' ->
  get_instance_by_itf itf l = Some (i, p) ->
  exists p', get_instance_by_itf itf l' = Some (i, p') /\ same_binding p p'.
Proof.
  intros Hf Hg. unfold get_instance_by_itf in *.
  apply list_find_Some in Hg. destruct Hg as (Hl & Hq & Hmin).
  destruct (Forall2_lookup_l _ _ _ _ _ Hf Hl) as (p' & Hl' & Hb).
  exists p'. split; [|exact Hb].
  apply list_find_Some. split; [exact Hl'|]. split.
  - destruct Hb as (_ & H2 & H3 & H4). rewrite <- H2, <- H3, <- H4. exact Hq.
  - intros j y Hy Hj Hqy.
    destruct (Forall2_lookup_r _ _ _ _ _ Hf Hy) as (x & Hx & Hbx).
    apply (Hmin j x Hx Hj).
    destruct Hbx as (_ & H2 & H3 & H4). rewrite H2, H3, H4. exact Hqy.
Qed.

Lemma Forall2_same_mode_binding (l l' : list chidd_instance_t) :
  Forall2 same_mode l l' -> Forall2 same_binding l l'.
Proof. intros H. eapply Forall2_impl; [exact H|]. intros p q [Hb _]. exact Hb. Qed.

Lemma chidd_run_claim_held (app : chidd_app_t) (P : port_t) (e : Z)
    (cs : list chidd_call) :
  forall st,
    claim_held e st ->
    Forall (fun c => is_xfer_complete_on e c = false) cs ->
    claim_held e (chidd_run app P cs st) /\
    Forall2 same_binding (_chidd_instances st) (_chidd_instances (chidd_run app P cs st)).
Proof.
  induction cs as [|c cs IH]; intros st Hh Hcs; cbn [chidd_run].
  - split; [exact Hh|].
    apply Forall2_same_length_lookup. split; [reflexivity|].
    intros j x y Hx Hy. rewrite Hx in Hy. inversion Hy. apply same_binding_refl.
  - inversion Hcs as [|c' cs' Hc Hrest]; subst.
    pose proof (chidd_step_claim_held app P e c st Hh Hc) as Hh'.
    destruct (IH _ Hh' Hrest) as [Hfin Hb]. split; [exact Hfin|].
    pose proof (chidd_step_slots app P c st) as Hs.
    apply (slot_update_Forall2 same_binding) in Hs;
      [|apply same_binding_refl | auto].
    eapply Forall2_trans; [|exact Hs|exact Hb].
    intros x y z. apply same_binding_trans.
Qed.

(** A successful [chidd_open] binds the first free slot and leaves it in
    Report protocol. *)
Lemma chidd_open_protocol_mode (app : chidd_app_t) (P : port_t) (rh : Z)
    (desc_itf : list Z) (max_len : Z) (st : chidd_state) (n : Z) (st' : chidd_state) :
  chidd_open app P rh desc_itf max_len st = (n, st') ->
  n <> 0 ->
  exists j q,
    get_free_instance (_chidd_instances st) = Some (j, q) /\
    instance_field protocol_mode j st' = Some HID_PROTOCOL_REPORT.
Proof.
  intros H Hn. unfold chidd_open in H.
  destruct (negb _) in H; [inversion H; congruence|].
  destruct (negb _) in H; [inversion H; congruence|].
  destruct (get_free_instance _) as [[j q]|] eqn:Hf; [|inversion H; congruence].
  assert (Hlt : (j < length (_chidd_instances st))%nat).
  { unfold get_free_instance in Hf. apply list_find_Some in Hf.
    destruct Hf as (Hl & _). eapply lookup_lt_Some; eauto. }
  destruct (negb _) in H; [inversion H; congruence|].
  destruct (usbd_open_edpt_pair _ _ _ _ _ _ _ _) as [ok [o e]].
  destruct ok; cbn [negb] in H; [|inversion H; congruence].
  exists j, q. split; [reflexivity|].
  destruct (_ && _) in H; inversion H; subst; unfold instance_field; cbn;
    rewrite list_lookup_insert_eq by exact Hlt; reflexivity.
Qed.

(** A SET_PROTOCOL request changes the state only when it passes every
    check of the driver, and then it writes the slot its [wIndex] names. *)
Lemma chidd_set_protocol_effect (app : chidd_app_t) (P : port_t) (rh stage : Z)
    (request : tusb_control_request_t) (st : chidd_state) :
  bmRequestType_bit_type request = TUSB_REQ_TYPE_CLASS ->
  bRequest request = HID_REQ_CONTROL_SET_PROTOCOL ->
  _chidd_instances (snd (chidd_control_xfer_cb app P rh stage request st)) =
    _chidd_instances st \/
  exists j q,
    _chidd_instances st !! j = Some q /\
    _chidd_instances (snd (chidd_control_xfer_cb app P rh stage request st)) =
      <[j := set_protocol_mode (tu_u16_low (wValue request)) q]> (_chidd_instances st) /\
    stage = CONTROL_STAGE_SETUP /\
    rh = rhport q /\
    bmRequestType_bit_recipient request = TUSB_REQ_RCPT_INTERFACE /\
    bmRequestType_bit_direction request = 0 /\
    wIndex request = itf_num q.
Proof.
  intros Ht Hb. unfold chidd_control_xfer_cb.
  destruct (TUSB_REQ_RCPT_INTERFACE =? bmRequestType_bit_recipient request) eqn:Hr;
    cbn [negb]; [apply Z.eqb_eq in Hr | left; reflexivity].
  destruct (get_instance_by_itf _ _) as [[j q]|] eqn:Hg; [|left; reflexivity].
  destruct (chidd_get_instance_by_itf_Some _ _ _ _ Hg) as (Hl & _ & _).
  destruct (rh =? rhport q) eqn:Hrh; cbn [negb];
    [apply Z.eqb_eq in Hrh | left; reflexivity].
  destruct (itf_num q =? wIndex request) eqn:Hi; cbn [negb];
    [apply Z.eqb_eq in Hi | left; reflexivity].
  rewrite Ht.
  change (TUSB_REQ_TYPE_CLASS =? TUSB_REQ_TYPE_STANDARD) with false.
  change (TUSB_REQ_TYPE_CLASS =? TUSB_REQ_TYPE_CLASS) with true. cbv iota.
  unfold chidd_class_specific_request_handler. rewrite Hb.
  change (HID_REQ_CONTROL_SET_PROTOCOL =? HID_REQ_CONTROL_GET_REPORT) with false.
  change (HID_REQ_CONTROL_SET_PROTOCOL =? HID_REQ_CONTROL_SET_REPORT) with false.
  change (HID_REQ_CONTROL_SET_PROTOCOL =? HID_REQ_CONTROL_GET_IDLE) with false.
  change (HID_REQ_CONTROL_SET_PROTOCOL =? HID_REQ_CONTROL_SET_IDLE) with false.
  change (HID_REQ_CONTROL_SET_PROTOCOL =? HID_REQ_CONTROL_GET_PROTOCOL) with false.
  change (HID_REQ_CONTROL_SET_PROTOCOL =? HID_REQ_CONTROL_SET_PROTOCOL) with true.
  cbv iota.
  destruct (0 =? bmRequestType_bit_direction request) eqn:Hd; cbn [negb];
    [apply Z.eqb_eq in Hd | left; reflexivity].
  destruct (CONTROL_STAGE_SETUP =? stage) eqn:Hs; cbn [negb];
    [apply Z.eqb_eq in Hs | left; reflexivity].
  right. exists j, q. split; [exact Hl|].
  split; [destruct (set_protocol_impl app); reflexivity|].
  repeat split; congruence.
Qed.

(** One call that is not a SETUP-stage SET_PROTOCOL for interface [itf]
    leaves the instance bound to [itf] where it is, with its binding and its
    protocol mode. *)
Lemma chidd_step_keeps_mode (app : chidd_app_t) (P : port_t) (rh itf : Z)
    (c : chidd_call) (st : chidd_state) (i : nat) (p : chidd_instance_t) :
  get_instance_by_itf itf (_chidd_instances st) = Some (i, p) ->
  rh = rhport p ->
  stores_protocol_mode rh itf c = false ->
  exists p',
    get_instance_by_itf itf (_chidd_instances (snd (chidd_step app P c st))) =
      Some (i, p') /\
    same_mode p p'.
Proof.
  intros Hg Hrh Hc.
  destruct (chidd_get_instance_by_itf_Some _ _ _ _ Hg) as (Hl & Hitf & _).
  destruct (is_set_protocol c) eqn:Hsp.
  - destruct c as [rh' stage request|? ? ?|? ? ?|? ? ? ?]; try discriminate Hsp.
    cbn [is_set_protocol] in Hsp. apply andb_true_iff in Hsp.
    destruct Hsp as [Ht Hb]. apply Z.eqb_eq in Ht, Hb.
    cbn [chidd_step].
    destruct (chidd_set_protocol_effect app P rh' stage request st Ht Hb)
      as [E|(j & q & Hq & E & Hs & Hrq & Hr & Hd & Hw)]; rewrite E.
    + exists p. split; [exact Hg | apply same_mode_refl].
    + assert (Hne : j <> i).
      { intros ->. rewrite Hl in Hq. inversion Hq; subst q.
        cbn [stores_protocol_mode] in Hc.
        rewrite Hs, Hrq, Hrh, Hr, Ht, Hd, Hb, Hw, Hitf, !Z.eqb_refl in Hc.
        discriminate Hc. }
      exists p. split; [|apply same_mode_refl].
      assert (Hf : Forall2 same_binding (_chidd_instances st)
                     (<[j := set_protocol_mode (tu_u16_low (wValue request)) q]>
                        (_chidd_instances st))).
      { rewrite <- (list_insert_id (_chidd_instances st) j q Hq) at 1.
        apply Forall2_insert; [|repeat split].
        apply Forall_Forall2_diag, Forall_forall. intros x _. apply same_binding_refl. }
      destruct (chidd_get_instance_by_itf_same _ _ _ _ _ Hf Hg) as (p' & Hg' & _).
      destruct (chidd_get_instance_by_itf_Some _ _ _ _ Hg') as (Hl' & _ & _).
      rewrite list_lookup_insert_ne in Hl' by exact Hne.
      rewrite Hl in Hl'. inversion Hl'; subst p'. exact Hg'.
  - pose proof (chidd_step_slots app P c st) as Hs. rewrite Hsp in Hs.
    apply (slot_update_Forall2 same_mode) in Hs;
      [|apply same_mode_refl | intros x y Hxy Hm; split; [exact Hxy | symmetry; auto]].
    destruct (chidd_get_instance_by_itf_same _ _ _ _ _
                (Forall2_same_mode_binding _ _ Hs) Hg) as (p' & Hg' & _).
    exists p'. split; [exact Hg'|].
    destruct (chidd_get_instance_by_itf_Some _ _ _ _ Hg') as (Hl' & _ & _).
    exact (Forall2_lookup_lr _ _ _ _ _ _ Hs Hl Hl').
Qed.

Lemma chidd_run_keeps_mode (app : chidd_app_t) (P : port_t) (rh itf : Z)
    (cs : list chidd_call) :
  forall (st : chidd_state) (i : nat) (p : chidd_instance_t),
    get_instance_by_itf itf (_chidd_instances st) = Some (i, p) ->
    rh = rhport p ->
    Forall (fun c => stores_protocol_mode rh itf c = false) cs ->
    exists p',
      get_instance_by_itf itf (_chidd_instances (chidd_run app P cs st)) = Some (i, p') /\
      same_mode p p'.
Proof.
  induction cs as [|c cs IH]; intros st i p Hg Hrh Hcs; cbn [chidd_run].
  - exists p. split; [exact Hg | apply same_mode_refl].
  - inversion Hcs as [|c' cs' Hc Hrest]. subst c' cs'.
    destruct (chidd_step_keeps_mode app P rh itf c st i p Hg Hrh Hc)
      as (p1 & Hg1 & Hm1).
    assert (Hrh1 : rh = rhport p1) by (destruct Hm1 as [[H _] _]; congruence).
    destruct (IH _ i p1 Hg1 Hrh1 Hrest) as (p2 & Hg2 & Hm2).
    exists p2. split; [exact Hg2 | eapply same_mode_trans; eauto].
Qed.

(** C7. SET_PROTOCOL ([bmRequestType = 0x21], [bRequest = 0x0B]) at the SETUP
    stage sends the status packet and stores the low byte of [wValue] as
    [protocol_mode]: Boot (0) for [wValue = 0].  Until the mode is changed
    again, that is, after any further calls into the driver none of which is
    a SETUP-stage SET_PROTOCOL for this interface (the DATA and ACK stages
    of the request itself, SET_PROTOCOL for another interface, every other
    request, reports and completions are all allowed), GET_PROTOCOL
    ([bmRequestType = 0xA1], [bRequest = 0x03]) is handled and answers with
    one byte, the [protocol_mode] field, which still holds that value.  An
    instance that [chidd_open] has just bound is in Report mode (1). *)
Theorem chidd_protocol_mode (app : chidd_app_t) (P : port_t) (rh : Z)
    (set_request get_request : tusb_control_request_t) (st : chidd_state)
    (i : nat) (p : chidd_instance_t) (cs : list chidd_call) :
  bmRequestType set_request = 0x21 ->
  bRequest set_request = HID_REQ_CONTROL_SET_PROTOCOL ->
  bmRequestType get_request = 0xA1 ->
  bRequest get_request = HID_REQ_CONTROL_GET_PROTOCOL ->
  wIndex get_request = wIndex set_request ->
  0 <= wIndex set_request < 256 ->
  get_instance_by_itf (wIndex set_request) (_chidd_instances st) = Some (i, p) ->
  rh = rhport p ->
  Forall (fun c => stores_protocol_mode rh (wIndex set_request) c = false) cs ->
  let mode := tu_u16_low (wValue set_request) in
  let st1 := snd (chidd_control_xfer_cb app P rh CONTROL_STAGE_SETUP set_request st) in
  let st2 := chidd_run app P cs st1 in
  let st3 := snd (chidd_control_xfer_cb app P rh CONTROL_STAGE_SETUP get_request st2) in
  trace (usbd st1) =
    trace (usbd st) ++
    EvControlStatus rh set_request ::
    match set_protocol_impl app with
    | Some _ => [EvApp (chidd_set_protocol_cb (itf_num p) mode)]
    | None => []
    end /\
  instance_field protocol_mode i st1 = Some mode /\
  (wValue set_request = 0 -> mode = HID_PROTOCOL_BOOT) /\
  fst (chidd_control_xfer_cb app P rh CONTROL_STAGE_SETUP get_request st2) = true /\
  trace (usbd st3) =
    trace (usbd st2) ++ [EvControlXfer rh get_request (DriverBuffer (ProtocolMode i)) 1] /\
  chidd_buf_bytes st3 (ProtocolMode i) = [mode] /\
  (forall rh' desc_itf max_len st0 n st0',
      chidd_open app P rh' desc_itf max_len st0 = (n, st0') -> n <> 0 ->
      exists j q,
        get_free_instance (_chidd_instances st0) = Some (j, q) /\
        instance_field protocol_mode j st0' = Some HID_PROTOCOL_REPORT).
Proof.
  intros Hbs Hrs Hbg Hrg Hwi Hw Hg Hrh Hcs mode st1 st2 st3.
  destruct (chidd_get_instance_by_itf_Some _ _ _ _ Hg) as (Hl & _ & _).
  assert (Hlt : (i < length (_chidd_instances st))%nat) by (eapply lookup_lt_Some; eauto).
  set (p1 := set_protocol_mode mode p).
  set (st1' := with_instance i p1
                 (with_usbd (tud_control_status (rhport p) set_request (usbd st)) st)).
  assert (Hst1 : st1 = match set_protocol_impl app with
                       | Some _ => app_call (chidd_set_protocol_cb (itf_num p) mode) st1'
                       | None => st1'
                       end).
  { subst st1.
    rewrite (chidd_control_xfer_cb_class app P rh _ set_request st i p);
      try assumption;
      try (unfold bmRequestType_bit_recipient, bmRequestType_bit_type;
           rewrite Hbs; reflexivity).
    unfold chidd_class_specific_request_handler.
    unfold bmRequestType_bit_direction. rewrite Hbs, Hrs.
    change (HID_REQ_CONTROL_SET_PROTOCOL =? HID_REQ_CONTROL_GET_REPORT) with false.
    change (HID_REQ_CONTROL_SET_PROTOCOL =? HID_REQ_CONTROL_SET_REPORT) with false.
    change (HID_REQ_CONTROL_SET_PROTOCOL =? HID_REQ_CONTROL_GET_IDLE) with false.
    change (HID_REQ_CONTROL_SET_PROTOCOL =? HID_REQ_CONTROL_SET_IDLE) with false.
    change (HID_REQ_CONTROL_SET_PROTOCOL =? HID_REQ_CONTROL_GET_PROTOCOL) with false.
    change (HID_REQ_CONTROL_SET_PROTOCOL =? HID_REQ_CONTROL_SET_PROTOCOL) with true.
    change (negb (0 =? Z.land (Z.shiftr 33 7) 1)) with false.
    change (negb (CONTROL_STAGE_SETUP =? CONTROL_STAGE_SETUP)) with false.
    cbv iota. destruct (set_protocol_impl app); reflexivity. }
  assert (Hi1 : _chidd_instances st1 = <[i := p1]> (_chidd_instances st))
    by (rewrite Hst1; destruct (set_protocol_impl app); reflexivity).
  assert (Hg1 : get_instance_by_itf (wIndex set_request) (_chidd_instances st1)
                = Some (i, p1)).
  { rewrite Hi1. unfold get_instance_by_itf in *.
    apply (list_find_insert_same _ _ _ p p1); [exact Hg|].
    apply list_find_Some in Hg. destruct Hg as (_ & Hq & _). exact Hq. }
  destruct (chidd_run_keeps_mode app P rh (wIndex set_request) cs st1 i p1 Hg1 Hrh Hcs)
    as (p2 & Hg2 & Hb2 & Hm).
  fold st2 in Hg2.
  destruct (chidd_get_instance_by_itf_Some _ _ _ _ Hg2) as (Hl2 & _ & _).
  destruct (chidd_get_instance_by_itf_Some _ _ _ _ Hg1) as (Hl1 & _ & _).
  assert (Hm2 : protocol_mode p2 = mode) by (rewrite <- Hm; reflexivity).
  assert (Hget : chidd_control_xfer_cb app P rh CONTROL_STAGE_SETUP get_request st2 =
                 (true, with_usbd (log (EvControlXfer rh get_request
                                          (DriverBuffer (ProtocolMode i)) 1) (usbd st2))
                          st2)).
  { rewrite (chidd_control_xfer_cb_class app P rh _ get_request st2 i p2);
      try (unfold bmRequestType_bit_recipient, bmRequestType_bit_type;
           rewrite Hbg; reflexivity).
    - unfold chidd_class_specific_request_handler.
      unfold bmRequestType_bit_direction. rewrite Hbg, Hrg.
      change (HID_REQ_CONTROL_GET_PROTOCOL =? HID_REQ_CONTROL_GET_REPORT) with false.
      change (HID_REQ_CONTROL_GET_PROTOCOL =? HID_REQ_CONTROL_SET_REPORT) with false.
      change (HID_REQ_CONTROL_GET_PROTOCOL =? HID_REQ_CONTROL_GET_IDLE) with false.
      change (HID_REQ_CONTROL_GET_PROTOCOL =? HID_REQ_CONTROL_SET_IDLE) with false.
      change (HID_REQ_CONTROL_GET_PROTOCOL =? HID_REQ_CONTROL_GET_PROTOCOL) with true.
      change (negb (1 =? Z.land (Z.shiftr 161 7) 1)) with false.
      change (negb (CONTROL_STAGE_SETUP =? CONTROL_STAGE_SETUP)) with false.
      cbv iota. unfold tud_control_xfer.
      destruct Hb2 as (Hr2 & _). cbn [rhport p1 set_protocol_mode] in Hr2.
      rewrite <- Hr2, <- Hrh. reflexivity.
    - rewrite Hwi. exact Hw.
    - rewrite Hwi. exact Hg2.
    - destruct Hb2 as (Hr2 & _). cbn in Hr2. congruence. }
  split.
  { rewrite Hst1, Hrh. destruct (set_protocol_impl app); cbn;
      rewrite <- ?app_assoc; reflexivity. }
  split.
  { unfold instance_field. rewrite Hl1. reflexivity. }
  split.
  { intros Hv. subst mode. rewrite Hv. reflexivity. }
  split.
  { rewrite Hget. reflexivity. }
  subst st3. rewrite Hget. cbn [snd].
  split; [reflexivity|]. split.
  { cbn. rewrite Hl2. now rewrite Hm2. }
  apply chidd_open_protocol_mode.
Qed.

Lemma chidd_protocol_mode_witness :
  let set_request := Examples.hid_class_request 0 HID_REQ_CONTROL_SET_PROTOCOL 0 in
  let get_request := Examples.hid_class_request 1 HID_REQ_CONTROL_GET_PROTOCOL 0 in
  let other_request :=
    {| bmRequestType := 0x21; bRequest := HID_REQ_CONTROL_SET_PROTOCOL; wValue := 1;
       wIndex := 1; wLength := 0 |} in
  let cs := [CallControl 0 CONTROL_STAGE_ACK set_request;
             CallControl 0 CONTROL_STAGE_SETUP other_request;
             CallSendReport 0 0x4000 8;
             CallXferCb 0 0x81 XFER_RESULT_SUCCESS 8;
             CallControl 0 CONTROL_STAGE_SETUP get_request;
             CallControl 0 CONTROL_STAGE_ACK get_request] in
  let st1 := snd (chidd_control_xfer_cb Examples.chidd_app_full Examples.port_accept 0
                    CONTROL_STAGE_SETUP set_request Examples.chidd_bound) in
  let st2 := chidd_run Examples.chidd_app_full Examples.port_accept cs st1 in
  let st3 := snd (chidd_control_xfer_cb Examples.chidd_app_full Examples.port_accept 0
                    CONTROL_STAGE_SETUP get_request st2) in
  fst (chidd_control_xfer_cb Examples.chidd_app_full Examples.port_accept 0
         CONTROL_STAGE_SETUP set_request Examples.chidd_bound) = true /\
  instance_field protocol_mode 0 Examples.chidd_bound = Some HID_PROTOCOL_REPORT /\
  instance_field protocol_mode 0 st1 = Some HID_PROTOCOL_BOOT /\
  chidd_buf_bytes st3 (ProtocolMode 0) = [HID_PROTOCOL_BOOT].
Proof.
  intros set_request get_request other_request cs st1 st2 st3.
  pose proof (chidd_protocol_mode Examples.chidd_app_full Examples.port_accept 0
                set_request get_request Examples.chidd_bound 0%nat
                {| rhport := 0; itf_num := 0; ep_in := 0x81; ep_out := 0x01;
                   transfer_in_buf := 0; transfer_out_buf := 0; transfer_out_size := 0;
                   protocol_mode := 1; idle_rate := 0;
                   hid_descriptor := Some (drop 9 Examples.hid_desc_itf) |}
                cs) as H.
  destruct H as (_ & H1 & _ & _ & _ & H3 & Hopen);
    try reflexivity; [cbn; lia | repeat constructor |].
  split; [reflexivity|].
  split; [|split; [exact H1 | exact H3]].
  destruct (Hopen 0 Examples.hid_desc_itf 32 Examples.chidd_fresh 32
              (snd (chidd_open Examples.chidd_app_full Examples.port_accept 0
                      Examples.hid_desc_itf 32 Examples.chidd_fresh)))
    as (j & q & Hf & Hm); [reflexivity | lia |].
  vm_compute in Hf. inversion Hf; subst. exact Hm.
Defined.

(** C10. [chidd_send_report] claims the IN endpoint and stores the buffer
    pointer before it looks at its arguments.  On a bound instance whose IN
    endpoint is idle, a call with a [NULL] buffer or with [len = 0] returns
    false, leaves the endpoint claimed (not busy) and leaves the rejected
    pointer in [transfer_in_buf].  Nothing the driver does afterwards gives
    the claim back: as long as no instance uses that address as its OUT
    endpoint and no completion is delivered for it (none can be, nothing was
    enqueued), every later [chidd_send_report] on the interface returns
    false and changes nothing. *)
Theorem chidd_send_report_rejected (app : chidd_app_t) (P : port_t)
    (itf report len : Z) (st : chidd_state) (i : nat) (p : chidd_instance_t) :
  get_instance_by_itf itf (_chidd_instances st) = Some (i, p) ->
  ep_status (usbd st) (ep_in p) = edpt_idle ->
  report = 0 \/ len = 0 ->
  let st1 := snd (chidd_send_report P itf report len st) in
  fst (chidd_send_report P itf report len st) = false /\
  ep_status (usbd st1) (ep_in p) = {| busy := false; claimed := true |} /\
  instance_field transfer_in_buf i st1 = Some report /\
  (Forall (fun q => ep_out q <> ep_in p) (_chidd_instances st) ->
   forall cs report' len',
     Forall (fun c => is_xfer_complete_on (ep_in p) c = false) cs ->
     let st2 := chidd_run app P cs st1 in
     chidd_send_report P itf report' len' st2 = (false, st2)).
Proof.
  intros Hg Hidle Hrej st1.
  destruct (chidd_get_instance_by_itf_Some _ _ _ _ Hg) as (Hl & _ & _).
  assert (Hlt : (i < length (_chidd_instances st))%nat) by (eapply lookup_lt_Some; eauto).
  set (p1 := set_transfer_in_buf report p).
  assert (Hr : chidd_send_report P itf report len st =
               (false, with_instance i p1
                         (with_usbd (set_ep_status (ep_in p)
                                       {| busy := false; claimed := true |} (usbd st)) st))).
  { unfold chidd_send_report. rewrite Hg. unfold usbd_edpt_claim. rewrite Hidle.
    cbn [busy claimed edpt_idle negb andb].
    replace (negb (report =? 0) && negb (len =? 0)) with false; [reflexivity|].
    destruct Hrej as [-> | ->]; cbn; [reflexivity | now rewrite andb_false_r]. }
  subst st1. rewrite Hr. cbn [fst snd].
  split; [reflexivity|]. split; [cbn; now rewrite Z.eqb_refl|]. split.
  { apply chidd_instance_field_insert. exact Hlt. }
  intros Hout cs report' len' Hcs.
  set (st1 := with_instance i p1 _) in *.
  set (st2 := chidd_run app P cs st1).
  assert (Hh : claim_held (ep_in p) st1).
  { split; [cbn; now rewrite Z.eqb_refl|].
    cbn [_chidd_instances st1 with_instance with_usbd].
    apply Forall_insert; [exact Hout|].
    cbn. rewrite Forall_lookup in Hout. eapply Hout; eauto. }
  destruct (chidd_run_claim_held app P (ep_in p) cs st1 Hh Hcs) as [[Hc2 _] Hb].
  fold st2 in Hc2, Hb.
  assert (Hg1 : get_instance_by_itf itf (_chidd_instances st1) = Some (i, p1)).
  { cbn [_chidd_instances st1 with_instance with_usbd]. unfold get_instance_by_itf in *.
    apply (list_find_insert_same _ _ _ p p1); [exact Hg|].
    apply list_find_Some in Hg. destruct Hg as (_ & Hq & _). exact Hq. }
  destruct (chidd_get_instance_by_itf_same _ _ _ _ _ Hb Hg1) as (p2 & Hg2 & Hb2).
  unfold chidd_send_report. rewrite Hg2. unfold usbd_edpt_claim.
  destruct Hb2 as (_ & _ & Hin & _). cbn in Hin. rewrite <- Hin, Hc2.
  now rewrite andb_false_r.
Qed.

Lemma chidd_send_report_rejected_witness :
  let st1 := snd (chidd_send_report Examples.port_accept 0 0x4000 0 Examples.chidd_bound) in
  let st2 := chidd_run Examples.chidd_app_full Examples.port_accept
               [CallReceiveReport 0 0x5000 1;
                CallControl 0 CONTROL_STAGE_SETUP
                  (Examples.hid_class_request 1 HID_REQ_CONTROL_GET_REPORT 0x0100)] st1 in
  fst (chidd_send_report Examples.port_accept 0 0x4000 0 Examples.chidd_bound) = false /\
  ep_status (usbd st1) 0x81 = {| busy := false; claimed := true |} /\
  instance_field transfer_in_buf 0 st1 = Some 0x4000 /\
  chidd_send_report Examples.port_accept 0 0x4000 8 st2 = (false, st2).
Proof.
  intros st1 st2.
  pose proof (chidd_send_report_rejected Examples.chidd_app_full Examples.port_accept
                0 0x4000 0 Examples.chidd_bound 0%nat
                {| rhport := 0; itf_num := 0; ep_in := 0x81; ep_out := 0x01;
                   transfer_in_buf := 0; transfer_out_buf := 0; transfer_out_size := 0;
                   protocol_mode := 1; idle_rate := 0;
                   hid_descriptor := Some (drop 9 Examples.hid_desc_itf) |}) as H.
  destruct H as (H1 & H2 & H3 & H4); [reflexivity | reflexivity | right; reflexivity |].
  split; [exact H1|]. split; [exact H2|]. split; [exact H3|].
  apply H4.
  - repeat constructor; cbn; discriminate.
  - repeat constructor.
Defined.

(** [chidd_send_report] with a usable buffer on a bound interface, with a
    controller that accepts: the call fails exactly when the IN endpoint is
    taken, and then nothing changes. *)
Lemma chidd_send_report_bound (P : port_t) (itf report len : Z)
    (st : chidd_state) (i : nat) (p : chidd_instance_t) :
  port_accepts P ->
  report <> 0 -> len <> 0 ->
  get_instance_by_itf itf (_chidd_instances st) = Some (i, p) ->
  (fst (chidd_send_report P itf report len st) = false <->
   edpt_taken (usbd st) (ep_in p)) /\
  (edpt_taken (usbd st) (ep_in p) -> chidd_send_report P itf report len st = (false, st)).
Proof.
  intros Hp Hrep Hlen Hg. unfold chidd_send_report, edpt_taken. rewrite Hg.
  unfold usbd_edpt_claim.
  destruct (ep_status (usbd st) (ep_in p)) as [b c] eqn:E. cbn [busy claimed].
  destruct b, c; cbn [negb andb fst];
    try (split; [split; auto | reflexivity]).
  apply Z.eqb_neq in Hrep, Hlen. rewrite Hrep, Hlen. cbn [negb andb].
  unfold usbd_edpt_xfer. cbn [usbd with_usbd with_instance ep_status set_ep_status].
  rewrite Z.eqb_refl. cbn [busy]. rewrite Hp. cbn [fst].
  split; [split|]; intros H; try discriminate; destruct H; discriminate.
Qed.

Lemma chidd_send_report_unbound (P : port_t) (itf report len : Z) (st : chidd_state) :
  get_instance_by_itf itf (_chidd_instances st) = None ->
  chidd_send_report P itf report len st = (false, st).
Proof. intros Hg. unfold chidd_send_report. now rewrite Hg. Qed.

End CHID_Properties.

Module Report_Properties.
Import Usbd.

(** C5 (as amended). For an interface number that is not bound, [report] and
    [send_report] return false and change nothing.  For a bound interface
    (and, for [send_report], a buffer that is not [NULL] with [len] not 0),
    and a controller that accepts the transfer, the call returns false if and
    only if the IN endpoint of the instance is already claimed or busy; in
    that case the driver and the endpoint are left as they were. *)
Theorem report_false_iff_taken (Px : X360.port_t) (Ph : CHID.port_t) :
  port_accepts Px ->
  port_accepts Ph ->
  (forall itf report st,
      match X360.get_instance_by_itf itf (X360._x360_instances st) with
      | Some (i, p) =>
          (fst (X360.x360d_n_report Px itf report st) = false <->
           edpt_taken (X360.usbd st) (X360.ep_in p)) /\
          (edpt_taken (X360.usbd st) (X360.ep_in p) ->
           X360.x360d_n_report Px itf report st = (false, st))
      | None => X360.x360d_n_report Px itf report st = (false, st)
      end) /\
  (forall itf report len st,
      match CHID.get_instance_by_itf itf (CHID._chidd_instances st) with
      | Some (i, p) =>
          report <> 0 -> len <> 0 ->
          (fst (CHID.chidd_send_report Ph itf report len st) = false <->
           edpt_taken (CHID.usbd st) (CHID.ep_in p)) /\
          (edpt_taken (CHID.usbd st) (CHID.ep_in p) ->
           CHID.chidd_send_report Ph itf report len st = (false, st))
      | None => CHID.chidd_send_report Ph itf report len st = (false, st)
      end).
Proof.
  intros Hx Hh. split.
  - intros itf report st.
    destruct (X360.get_instance_by_itf itf (X360._x360_instances st)) as [[i p]|] eqn:Hg.
    + apply (X360_Properties.x360d_n_report_bound Px itf report st i p Hx Hg).
    + apply (X360_Properties.x360d_n_report_unbound Px itf report st Hg).
  - intros itf report len st.
    destruct (CHID.get_instance_by_itf itf (CHID._chidd_instances st)) as [[i p]|] eqn:Hg.
    + intros Hr Hl.
      apply (CHID_Properties.chidd_send_report_bound Ph itf report len st i p Hh Hr Hl Hg).
    + apply (CHID_Properties.chidd_send_report_unbound Ph itf report len st Hg).
Qed.

Lemma report_false_iff_taken_witness :
  fst (X360.x360d_n_report Examples.port_accept 0 Examples.controls_home_y
         Examples.x360_bound) <> false /\
  fst (CHID.chidd_send_report Examples.port_accept 0 0x4000 8 Examples.chidd_bound)
    <> false /\
  X360.x360d_n_report Examples.port_accept 1 Examples.controls_home_y Examples.x360_bound
    = (false, Examples.x360_bound).
Proof.
  assert (Hx : port_accepts (Examples.port_accept (D := X360.x360_buf)
                               (A := X360.x360_app_event)))
    by (intros ? ? ? ? ?; reflexivity).
  assert (Hh : port_accepts (Examples.port_accept (D := CHID.chidd_buf)
                               (A := CHID.chidd_app_event)))
    by (intros ? ? ? ? ?; reflexivity).
  destruct (report_false_iff_taken _ _ Hx Hh) as [HX HH].
  split; [|split].
  - pose proof (HX 0 Examples.controls_home_y Examples.x360_bound) as H.
    cbn -[X360.x360d_n_report] in H. destruct H as [[H _] _].
    intros Hf. apply H in Hf. destruct Hf; discriminate.
  - pose proof (HH 0 0x4000 8 Examples.chidd_bound) as H.
    cbn -[CHID.chidd_send_report] in H. destruct H as [[H _] _]; try lia.
    intros Hf. apply H in Hf. destruct Hf; discriminate.
  - exact (HX 1 Examples.controls_home_y Examples.x360_bound).
Defined.

(** C5, the claim as worded fails.  Interface 0 of a driver that has bound
    nothing: [report] returns false although no endpoint has anything
    outstanding.  And on the bound gamepad with an idle IN endpoint, [report]
    returns false when the controller refuses the transfer. *)
Lemma report_false_counterexample :
  X360.x360d_n_report Examples.port_accept 0 Examples.controls_home_y Examples.x360_fresh
    = (false, Examples.x360_fresh) /\
  (forall ep, ep_status (X360.usbd Examples.x360_fresh) ep = edpt_idle) /\
  fst (X360.x360d_n_report Examples.port_refuse 0 Examples.controls_home_y
         Examples.x360_bound) = false /\
  ep_status (X360.usbd Examples.x360_bound) 0x81 = edpt_idle.
Proof. repeat split. Qed.

End Report_Properties.

Module List_Properties.

Lemma list_find_index_Forall2 {A} (Q : A -> Prop) `{!forall x, Decision (Q x)}
    (R : A -> A -> Prop) (l l' : list A) :
  (forall x y, R x y -> (Q x <-> Q y)) ->
  Forall2 R l l' ->
  fst <$> list_find Q l = fst <$> list_find Q l'.
Proof.
  intros Hq Hf. induction Hf as [|x y l l' Hxy Hf IH]; [reflexivity|].
  cbn. destruct (decide (Q x)) as [Hx|Hx], (decide (Q y)) as [Hy|Hy];
    try reflexivity.
  - exfalso. apply Hy. now apply (Hq x y Hxy).
  - exfalso. apply Hx. now apply (Hq x y Hxy).
  - destruct (list_find Q l) as [[i p]|], (list_find Q l') as [[j q]|];
      cbn in IH |- *; congruence.
Qed.

Lemma list_find_insert_irrelevant {A} (Q : A -> Prop) `{!forall x, Decision (Q x)}
    (l : list A) :
  forall (i : nat) (p p' : A),
    l !! i = Some p -> ~ Q p -> ~ Q p' ->
    list_find Q (<[i := p']> l) = list_find Q l.
Proof.
  induction l as [|a l IH]; intros i p p' Hl Hp Hp'; [reflexivity|].
  destruct i as [|i]; cbn in Hl |- *.
  - inversion Hl; subst a.
    destruct (decide (Q p')); [contradiction|].
    destruct (decide (Q p)); [contradiction|]. reflexivity.
  - destruct (decide (Q a)); [reflexivity|].
    f_equal. exact (IH i p p' Hl Hp Hp').
Qed.

Lemma Forall2_insert_self {A} (R : A -> A -> Prop) (l : list A) (i : nat) (p p' : A) :
  (forall x, R x x) -> l !! i = Some p -> R p p' -> Forall2 R l (<[i := p']> l).
Proof.
  intros Hr Hl Hp. rewrite <- (list_insert_id l i p Hl) at 1.
  apply Forall2_insert; [|exact Hp].
  apply Forall_Forall2_diag, Forall_forall. intros x _. apply Hr.
Qed.

End List_Properties.

Module X360_Lifecycle.
Import Usbd X360 Usbd_Properties List_Properties.

Lemma x360_get_instance_by_itf_reset (rh0 itf : Z) (st : x360_state) :
  get_instance_by_itf itf (_x360_instances (x360d_reset rh0 st)) = None.
Proof.
  unfold get_instance_by_itf, x360d_reset. cbn [_x360_instances].
  apply list_find_None. apply Forall_fmap, Forall_forall.
  intros p _ [_ [H|H]]; apply H; reflexivity.
Qed.

(** X1. After [x360d_reset] (and so after [x360d_init], which resets
    whatever the port) no interface number resolves to an instance: the
    array keeps its length and the stack is untouched, and for every
    interface number [x360d_n_ready] is false, [x360d_n_report] returns
    false and a vendor control request is left unhandled, each without
    changing anything. *)
Theorem x360d_reset_unbinds (cfg : x360_config_t) (P : port_t) (rh0 : Z)
    (st : x360_state) :
  let st0 := x360d_reset rh0 st in
  x360d_init st = x360d_reset rh0 st /\
  length (_x360_instances st0) = length (_x360_instances st) /\
  usbd st0 = usbd st /\
  forall itf,
    get_instance_by_itf itf (_x360_instances st0) = None /\
    (forall tud_ready, x360d_n_ready tud_ready itf st0 = false) /\
    (forall report, x360d_n_report P itf report st0 = (false, st0)) /\
    (forall rh stage request,
        x360d_control_xfer_cb cfg P rh stage request st0 = (false, st0)).
Proof.
  intros st0. split; [reflexivity|].
  split; [apply length_fmap|]. split; [reflexivity|].
  intros itf.
  assert (Hn : forall j, get_instance_by_itf j (_x360_instances st0) = None)
    by (intros j; apply x360_get_instance_by_itf_reset).
  split; [apply Hn|]. split; [|split].
  - intros t. unfold x360d_n_ready. now rewrite Hn.
  - intros r. unfold x360d_n_report. now rewrite Hn.
  - intros rh stage request. unfold x360d_control_xfer_cb. rewrite Hn.
    destruct (negb _); [reflexivity|]. destruct (negb _); reflexivity.
Qed.

(** The length [x360d_open] expects for the interface block. *)
Lemma x360d_open_cases (P : port_t) (rh : Z) (desc_itf : list Z) (max_len : Z)
    (st : x360_state) :
  let drv_len := (sizeof_tusb_desc_interface_t + sizeof_x360_desc_specific_class_t +
                  desc_itf !!! 4%nat * sizeof_tusb_desc_endpoint_t) mod 65536 in
  x360d_open P rh desc_itf max_len st = (0, st) \/
  exists i p0 o e,
    get_free_instance (_x360_instances st) = Some (i, p0) /\
    drv_len <= max_len /\
    desc_itf !!! 5%nat = X360_CLASS_CONTROL /\
    desc_itf !!! 6%nat = X360_SUBCLASS_CONTROL /\
    desc_itf !!! 7%nat = X360_PROTOCOL_CONTROL /\
    tu_desc_type (tu_desc_next desc_itf) = X360_CLASS_SPECIFIC_TYPE /\
    exists ok,
      usbd_open_edpt_pair P (usbd st) rh (tu_desc_next (tu_desc_next desc_itf))
        (Z.to_nat (desc_itf !!! 4%nat)) TUSB_XFER_INTERRUPT (ep_out p0) (ep_in p0)
      = (ok, (o, e)) /\
      x360d_open P rh desc_itf max_len st =
      if ok
      then
        let p2 := set_binding rh (desc_itf !!! 2%nat) (set_endpoints o e p0) in
        (drv_len,
         if o =? 0 then with_instance i p2 st
         else with_usbd (snd (usbd_edpt_xfer P rh o (DriverBuffer (TransferOutBuf i))
                                X360_TRANSFER_OUT_BUFFER_SIZE (usbd st)))
                (with_instance i p2 st))
      else (0, with_instance i (set_endpoints o e p0) st).
Proof.
  intros drv_len. unfold x360d_open. fold drv_len.
  destruct (X360_CLASS_CONTROL =? desc_itf !!! 5%nat) eqn:E5; [|left; reflexivity].
  destruct (X360_SUBCLASS_CONTROL =? desc_itf !!! 6%nat) eqn:E6; [|left; reflexivity].
  destruct (X360_PROTOCOL_CONTROL =? desc_itf !!! 7%nat) eqn:E7; [|left; reflexivity].
  cbn [andb negb].
  destruct (drv_len <=? max_len) eqn:El; [|left; reflexivity]. cbn [negb].
  destruct (get_free_instance (_x360_instances st)) as [[i p0]|] eqn:Hf;
    [|left; reflexivity].
  destruct (X360_CLASS_SPECIFIC_TYPE =? tu_desc_type (tu_desc_next desc_itf)) eqn:Et;
    [|left; reflexivity]. cbn [negb].
  destruct (usbd_open_edpt_pair _ _ _ _ _ _ _ _) as [ok [o e]] eqn:Hp.
  right. exists i, p0, o, e.
  apply Z.eqb_eq in E5, E6, E7, Et. apply Z.leb_le in El.
  repeat (split; [auto; fail|]).
  exists ok. split; [exact Hp|].
  destruct ok; cbn [negb]; [|reflexivity].
  cbn [ep_out set_binding set_endpoints].
  destruct (o =? 0); [reflexivity|].
  destruct (usbd_edpt_xfer _ _ _ _ _ _) as [r u]. reflexivity.
Qed.

(** X2. [x360d_open] declines without binding anything, returning 0 and
    leaving the state as it was, when the interface is not the
    0xFF/0x5D/0x01 triple, when [max_len] is smaller than the block of one
    interface, one class-specific and [bNumEndpoints] endpoint descriptors,
    when no instance is free, or when the descriptor after the interface
    descriptor is not of type 0x21. *)
Theorem x360d_open_declines (P : port_t) (rh : Z) (desc_itf : list Z) (max_len : Z)
    (st : x360_state) :
  desc_itf !!! 5%nat <> X360_CLASS_CONTROL \/
  desc_itf !!! 6%nat <> X360_SUBCLASS_CONTROL \/
  desc_itf !!! 7%nat <> X360_PROTOCOL_CONTROL \/
  max_len < (9 + 17 + desc_itf !!! 4%nat * 7) mod 65536 \/
  get_free_instance (_x360_instances st) = None \/
  tu_desc_type (tu_desc_next desc_itf) <> X360_CLASS_SPECIFIC_TYPE ->
  x360d_open P rh desc_itf max_len st = (0, st).
Proof.
  intros H.
  destruct (x360d_open_cases P rh desc_itf max_len st)
    as [E|(i & p0 & o & e & Hf & Hl & H5 & H6 & H7 & Ht & _)]; [exact E|].
  exfalso.
  change (sizeof_tusb_desc_interface_t + sizeof_x360_desc_specific_class_t +
          desc_itf !!! 4%nat * sizeof_tusb_desc_endpoint_t)
    with (9 + 17 + desc_itf !!! 4%nat * 7) in Hl.
  destruct H as [H|[H|[H|[H|[H|H]]]]]; try contradiction; try lia.
  rewrite Hf in H. discriminate.
Qed.

Lemma x360d_open_declines_witness :
  X360.x360d_open Examples.port_accept 0 Examples.x360_desc_itf 39 Examples.x360_fresh
    = (0, Examples.x360_fresh) /\
  X360.x360d_open Examples.port_accept 0 Examples.hid_desc_itf 64 Examples.x360_fresh
    = (0, Examples.x360_fresh) /\
  X360.x360d_open Examples.port_accept 0 Examples.x360_desc_itf 64 Examples.x360_bound
    = (0, Examples.x360_bound).
Proof.
  split; [|split].
  - apply x360d_open_declines. right; right; right; left. vm_compute. reflexivity.
  - apply x360d_open_declines. left. vm_compute. discriminate.
  - apply x360d_open_declines. right; right; right; right; left. reflexivity.
Defined.

(** X3. Whatever [x360d_open] returns, the instance array keeps its length
    and only the first free slot can change: every other slot, free or
    bound, is left exactly as it was.  In particular every instance that is
    bound (one of its endpoint addresses is not 0) is untouched. *)
Theorem x360d_open_keeps_bound (P : port_t) (rh : Z) (desc_itf : list Z)
    (max_len : Z) (st : x360_state) :
  let st' := snd (x360d_open P rh desc_itf max_len st) in
  length (_x360_instances st') = length (_x360_instances st) /\
  (forall j,
      fst <$> get_free_instance (_x360_instances st) <> Some j ->
      _x360_instances st' !! j = _x360_instances st !! j) /\
  (forall j p,
      _x360_instances st !! j = Some p ->
      ep_in p <> 0 \/ ep_out p <> 0 ->
      _x360_instances st' !! j = Some p).
Proof.
  intros st'. subst st'.
  assert (Hother : forall j,
    fst <$> get_free_instance (_x360_instances st) <> Some j ->
    _x360_instances (snd (x360d_open P rh desc_itf max_len st)) !! j =
    _x360_instances st !! j).
  { intros j Hj.
    destruct (x360d_open_cases P rh desc_itf max_len st)
      as [E|(i & p0 & o & e & Hf & _ & _ & _ & _ & _ & ok & _ & E)];
      rewrite E; [reflexivity|].
    assert (Hne : i <> j) by (intros ->; apply Hj; rewrite Hf; reflexivity).
    destruct ok; cbn [snd]; [destruct (o =? 0)|];
      cbn [_x360_instances with_usbd with_instance];
      now rewrite list_lookup_insert_ne. }
  split; [|split; [exact Hother|]].
  - destruct (x360d_open_cases P rh desc_itf max_len st)
      as [E|(i & p0 & o & e & _ & _ & _ & _ & _ & _ & ok & _ & E)];
      rewrite E; [reflexivity|].
    destruct ok; cbn [snd]; [destruct (o =? 0)|];
      cbn [_x360_instances with_usbd with_instance]; apply length_insert.
  - intros j p Hj Hb. rewrite Hother; [exact Hj|].
    destruct (get_free_instance (_x360_instances st)) as [[i p0]|] eqn:Hf;
      [|discriminate].
    cbn. intros Heq. inversion Heq; subst i.
    unfold get_free_instance in Hf. apply list_find_Some in Hf.
    destruct Hf as (Hl & [H1 H2] & _). rewrite Hl in Hj. inversion Hj; subst.
    destruct Hb; congruence.
Qed.

Lemma x360d_open_keeps_bound_witness :
  _x360_instances
    (snd (x360d_open Examples.port_accept 0 Examples.x360_desc_itf 64
            Examples.x360_bound)) !! 0%nat =
  _x360_instances Examples.x360_bound !! 0%nat /\
  length (_x360_instances
            (snd (x360d_open Examples.port_accept 0 Examples.x360_desc_itf 64
                    Examples.x360_fresh))) = 1%nat.
Proof.
  split.
  - destruct (x360d_open_keeps_bound Examples.port_accept 0 Examples.x360_desc_itf 64
                Examples.x360_bound) as (_ & Hother & _).
    apply Hother. vm_compute. discriminate.
  - destruct (x360d_open_keeps_bound Examples.port_accept 0 Examples.x360_desc_itf 64
                Examples.x360_fresh) as (Hlen & _).
    exact Hlen.
Defined.

(** X4. A successful [x360d_open] returns the length of the block,
    9 + 17 + 7 * [bNumEndpoints], which does not exceed [max_len]; it
    records the port and [bInterfaceNumber] in the first free slot and
    leaves the buffers and the LED value of that slot alone.  If the slot
    got an OUT endpoint the driver goes on to ask the stack for an 8-byte
    transfer into the OUT buffer of the slot; otherwise the stack is not
    called. *)
Theorem x360d_open_binds (P : port_t) (rh : Z) (desc_itf : list Z) (max_len : Z)
    (st : x360_state) (n : Z) (st' : x360_state) :
  x360d_open P rh desc_itf max_len st = (n, st') ->
  n <> 0 ->
  exists i p0 p,
    get_free_instance (_x360_instances st) = Some (i, p0) /\
    _x360_instances st' = <[i := p]> (_x360_instances st) /\
    n = (9 + 17 + desc_itf !!! 4%nat * 7) mod 65536 /\ n <= max_len /\
    rhport p = rh /\ itf_num p = desc_itf !!! 2%nat /\
    led p = led p0 /\ transfer_in_buf p = transfer_in_buf p0 /\
    transfer_out_buf p = transfer_out_buf p0 /\
    usbd st' =
      if ep_out p =? 0 then usbd st
      else snd (usbd_edpt_xfer P rh (ep_out p) (DriverBuffer (TransferOutBuf i))
                  X360_TRANSFER_OUT_BUFFER_SIZE (usbd st)).
Proof.
  intros H Hn.
  destruct (x360d_open_cases P rh desc_itf max_len st)
    as [E|(i & p0 & o & e & Hf & Hl & _ & _ & _ & _ & ok & _ & E)];
    rewrite E in H; [inversion H; congruence|].
  destruct ok; [|inversion H; congruence].
  cbv zeta in H. inversion H; subst n st'. clear H.
  exists i, p0, (set_binding rh (desc_itf !!! 2%nat) (set_endpoints o e p0)).
  split; [exact Hf|].
  cbn [ep_out set_binding set_endpoints rhport itf_num led transfer_in_buf
       transfer_out_buf].
  destruct (o =? 0); cbn [_x360_instances usbd with_usbd with_instance];
    repeat split; auto.
Qed.

Lemma x360d_open_binds_witness :
  exists i p0 p,
    get_free_instance (_x360_instances Examples.x360_fresh) = Some (i, p0) /\
    _x360_instances Examples.x360_bound = <[i := p]> (_x360_instances Examples.x360_fresh) /\
    40 = (9 + 17 + Examples.x360_desc_itf !!! 4%nat * 7) mod 65536 /\ 40 <= 47 /\
    rhport p = 0 /\ itf_num p = Examples.x360_desc_itf !!! 2%nat /\
    led p = led p0 /\ transfer_in_buf p = transfer_in_buf p0 /\
    transfer_out_buf p = transfer_out_buf p0 /\
    usbd Examples.x360_bound =
      if ep_out p =? 0 then usbd Examples.x360_fresh
      else snd (usbd_edpt_xfer Examples.port_accept 0 (ep_out p)
                  (DriverBuffer (TransferOutBuf i))
                  X360_TRANSFER_OUT_BUFFER_SIZE (usbd Examples.x360_fresh)).
Proof.
  apply (x360d_open_binds Examples.port_accept 0 Examples.x360_desc_itf 47
           Examples.x360_fresh 40 Examples.x360_bound); [reflexivity | lia].
Defined.

(** X5. Opening an interface that declares no endpoints succeeds (the block
    length is returned) but binds nothing that can be found: the slot that
    took the interface number has both endpoint addresses 0, so it still
    counts as free, every lookup by interface number gives what it gave
    before, and the stack is not called. *)
Theorem x360d_open_without_endpoints (P : port_t) (rh : Z) (desc_itf : list Z)
    (max_len : Z) (st : x360_state) (n : Z) (st' : x360_state) :
  x360d_open P rh desc_itf max_len st = (n, st') ->
  n <> 0 ->
  desc_itf !!! 4%nat = 0 ->
  usbd st' = usbd st /\
  (forall itf, get_instance_by_itf itf (_x360_instances st') =
               get_instance_by_itf itf (_x360_instances st)) /\
  exists i p0 p,
    get_free_instance (_x360_instances st) = Some (i, p0) /\
    get_free_instance (_x360_instances st') = Some (i, p) /\
    itf_num p = desc_itf !!! 2%nat.
Proof.
  intros H Hn H0.
  destruct (x360d_open_cases P rh desc_itf max_len st)
    as [E|(i & p0 & o & e & Hf & _ & _ & _ & _ & _ & ok & Hp & E)];
    rewrite E in H; [inversion H; congruence|].
  rewrite H0 in Hp. cbn [Z.to_nat usbd_open_edpt_pair] in Hp.
  inversion Hp; subst ok o e. clear Hp.
  pose proof Hf as Hf'. unfold get_free_instance in Hf'.
  apply list_find_Some in Hf'. destruct Hf' as (Hl & [Hi Ho] & Hmin).
  rewrite <- Ho in H. cbn [Z.eqb] in H. cbv zeta in H.
  inversion H; subst n st'. clear H.
  set (p2 := set_binding rh (desc_itf !!! 2%nat) (set_endpoints 0 (ep_in p0) p0)).
  cbn [usbd _x360_instances with_instance]. split; [reflexivity|]. split.
  - intros itf. unfold get_instance_by_itf.
    apply (list_find_insert_irrelevant _ _ i p0 p2 Hl).
    + intros [_ [Hx|Hx]]; congruence.
    + cbn. intros [_ [Hx|Hx]]; congruence.
  - exists i, p0, p2. split; [exact Hf|]. split; [|reflexivity].
    unfold get_free_instance.
    apply (list_find_insert_same _ _ _ p0 p2); [exact Hf|].
    cbn. split; congruence.
Qed.

Lemma x360d_open_without_endpoints_witness :
  let st' := snd (x360d_open Examples.port_accept 0 Examples.x360_desc_no_endpoints 26
                    Examples.x360_fresh) in
  fst (x360d_open Examples.port_accept 0 Examples.x360_desc_no_endpoints 26
         Examples.x360_fresh) = 26 /\
  get_instance_by_itf 3 (_x360_instances st') = None.
Proof.
  intros st'. split; [reflexivity|].
  destruct (x360d_open_without_endpoints Examples.port_accept 0
              Examples.x360_desc_no_endpoints 26 Examples.x360_fresh 26 st')
    as (_ & Hg & _); [reflexivity | lia | reflexivity |].
  rewrite Hg. reflexivity.
Defined.

(** X6. At most one report is outstanding: once [x360d_n_report] has
    succeeded, the interface is no longer ready and every further
    [x360d_n_report] on it returns false and changes nothing, whatever the
    controller would say. *)
Theorem x360d_n_report_one_outstanding (P : port_t) (itf : Z)
    (report : x360_controls_t) (st st' : x360_state) :
  x360d_n_report P itf report st = (true, st') ->
  (forall tud_ready, x360d_n_ready tud_ready itf st' = false) /\
  (forall P' report', x360d_n_report P' itf report' st' = (false, st')).
Proof.
  intros H. unfold x360d_n_report in H.
  destruct (get_instance_by_itf itf (_x360_instances st)) as [[i p]|] eqn:Hg;
    [|discriminate].
  destruct (usbd_edpt_claim (rhport p) (ep_in p) (usbd st)) as [c u] eqn:Hc.
  destruct c; cbn [negb] in H; [|discriminate].
  destruct (negb _) in H; [discriminate|].
  match type of H with
  | (let '(r, u') := usbd_edpt_xfer ?a ?b ?c ?d ?e ?f in _) = _ =>
      destruct (usbd_edpt_xfer a b c d e f) as [r u'] eqn:Hx
  end.
  inversion H; subst r st'. clear H.
  apply usbd_edpt_xfer_true in Hx. destruct Hx as (_ & _ & _ & Hbusy).
  set (p' := set_transfer_in_buf _ p) in *.
  assert (Hg' : get_instance_by_itf itf
                  (_x360_instances (with_usbd u' (with_instance i p' (with_usbd u st))))
                = Some (i, p')).
  { cbn [_x360_instances with_usbd with_instance]. unfold get_instance_by_itf in *.
    apply (list_find_insert_same _ _ _ p p'); [exact Hg|].
    apply list_find_Some in Hg. destruct Hg as (_ & Hq & _). exact Hq. }
  split.
  - intros t. unfold x360d_n_ready. rewrite Hg'. unfold usbd_edpt_busy.
    cbn [usbd with_usbd rhport ep_in p' set_transfer_in_buf] in Hbusy |- *.
    rewrite Hbusy. now rewrite andb_false_r.
  - intros P' r'. unfold x360d_n_report. rewrite Hg'. unfold usbd_edpt_claim.
    cbn [usbd with_usbd rhport ep_in p' set_transfer_in_buf] in Hbusy |- *.
    rewrite Hbusy. reflexivity.
Qed.

Lemma x360d_n_report_one_outstanding_witness :
  let st' := snd (x360d_n_report Examples.port_accept 0 Examples.controls_home_y
                    Examples.x360_bound) in
  x360d_n_ready true 0 Examples.x360_bound = true /\
  x360d_n_ready true 0 st' = false /\
  x360d_n_report Examples.port_accept 0 Examples.controls_home_y st' = (false, st').
Proof.
  intros st'.
  destruct (x360d_n_report_one_outstanding Examples.port_accept 0
              Examples.controls_home_y Examples.x360_bound st') as [Hr Hs];
    [reflexivity|].
  split; [reflexivity|]. split; [apply Hr | apply Hs].
Defined.

(** X7. When the stack reports the IN transfer of an instance as complete,
    the driver invokes [report_complete] (if the application defines it) with
    the interface number, the IN buffer and the transferred count as
    [uint16_t], changes nothing else, and the interface accepts the next
    report: with a controller that accepts, [x360d_n_report] succeeds
    again. *)
Theorem x360d_in_complete_rearms (cfg : x360_config_t) (app : x360_app_t) (P : port_t)
    (itf n : Z) (st : x360_state) (i : nat) (p : x360d_instance_t) :
  get_instance_by_itf itf (_x360_instances st) = Some (i, p) ->
  get_instance_by_ep (ep_in p) (_x360_instances st) = Some (i, p) ->
  let st' := x360_step cfg app P (DoXferCb (rhport p) (ep_in p) XFER_RESULT_SUCCESS n) st in
  _x360_instances st' = _x360_instances st /\
  trace (usbd st') =
    trace (usbd st) ++
    (if has_report_complete_cb app
     then [EvApp (x360d_report_complete_cb (itf_num p) (TransferInBuf i) (n mod 65536))]
     else []) /\
  ep_status (usbd st') (ep_in p) = edpt_idle /\
  (port_accepts P -> forall report, fst (x360d_n_report P itf report st') = true).
Proof.
  intros Hg He st'.
  assert (Hst : st' =
    let st0 := with_usbd (usbd_edpt_release_on_complete (ep_in p) (usbd st)) st in
    if has_report_complete_cb app
    then app_call (x360d_report_complete_cb (itf_num p) (TransferInBuf i) (n mod 65536)) st0
    else st0).
  { subst st'. cbn [x360_step]. unfold x360d_xfer_cb.
    cbn [_x360_instances with_usbd]. rewrite He, !Z.eqb_refl. reflexivity. }
  assert (Hi : _x360_instances st' = _x360_instances st)
    by (rewrite Hst; cbv zeta; destruct (has_report_complete_cb app); reflexivity).
  assert (Hidle : ep_status (usbd st') (ep_in p) = edpt_idle).
  { rewrite Hst. cbv zeta. destruct (has_report_complete_cb app); cbn;
      now rewrite Z.eqb_refl. }
  split; [exact Hi|]. split; [|split; [exact Hidle|]].
  - rewrite Hst. cbv zeta. destruct (has_report_complete_cb app); cbn;
      [reflexivity | now rewrite app_nil_r].
  - intros Hp report.
    rewrite <- Hi in Hg.
    destruct (X360_Properties.x360d_n_report_bound P itf report st' i p Hp Hg)
      as [Hiff _].
    destruct (fst (x360d_n_report P itf report st')) eqn:E; [reflexivity|].
    exfalso. destruct Hiff as [Hiff _]. specialize (Hiff eq_refl).
    unfold edpt_taken in Hiff. rewrite Hidle in Hiff. destruct Hiff; discriminate.
Qed.

Lemma x360d_in_complete_rearms_witness :
  let st1 := snd (x360d_n_report Examples.port_accept 0 Examples.controls_home_y
                    Examples.x360_bound) in
  let st2 := x360_step tusb_config Examples.x360_app_full Examples.port_accept
               (DoXferCb 0 0x81 XFER_RESULT_SUCCESS 20) st1 in
  trace (usbd st2) =
    trace (usbd st1) ++ [EvApp (x360d_report_complete_cb 0 (TransferInBuf 0) 20)] /\
  fst (x360d_n_report Examples.port_accept 0 Examples.controls_home_y st2) = true.
Proof.
  intros st1 st2.
  destruct (x360d_in_complete_rearms tusb_config Examples.x360_app_full
              Examples.port_accept 0 20 st1 0%nat
              {| rhport := 0; itf_num := 0; ep_in := 0x81; ep_out := 0x01;
                 transfer_in_buf := [0; 20; 0; 132; 0; 0; 0; 0; 0; 0; 0; 0; 0; 0; 0; 0;
                                     0; 0; 0; 0];
                 transfer_out_buf := replicate 8 0; led := 0 |})
    as (_ & Ht & _ & Hr); [reflexivity | reflexivity |].
  split; [exact Ht|].
  apply Hr. intros ? ? ? ? ?; reflexivity.
Defined.

Lemma x360_kept_by_control_refl (p : x360d_instance_t) : x360_kept_by_control p p.
Proof. repeat split. Qed.

Lemma x360_state_eta (st : x360_state) : with_usbd (usbd st) st = st.
Proof. destruct st; reflexivity. Qed.

Lemma x360_control_stall_pure (cfg : x360_config_t) (P : port_t)
    (rh stage : Z) (request : tusb_control_request_t) (st : x360_state) :
  control_starts P ->
  fst (x360d_control_xfer_cb cfg P rh stage request st) = false ->
  snd (x360d_control_xfer_cb cfg P rh stage request st) = st.
Proof.
  intros Hc. unfold x360d_control_xfer_cb.
  destruct (negb (TUSB_REQ_TYPE_VENDOR =? _)); [reflexivity|].
  destruct (negb (1 =? _)); [reflexivity|].
  destruct (get_instance_by_itf _ _) as [[i p]|]; [|reflexivity].
  destruct (negb (rh =? rhport p)); [reflexivity|].
  destruct (negb (itf_num p =? _)); [reflexivity|].
  assert (Hreply : forall st1 len,
    fst (let '(r, u) := tud_control_xfer P (rhport p) request
                          (DriverBuffer (TransferInBuf i)) len (usbd st1) in
         (r, with_usbd u st1)) = false ->
    snd (let '(r, u) := tud_control_xfer P (rhport p) request
                          (DriverBuffer (TransferInBuf i)) len (usbd st1) in
         (r, with_usbd u st1)) = st).
  { intros st1 len. unfold tud_control_xfer. cbn [fst]. rewrite Hc. discriminate. }
  destruct (bmRequestType_bit_recipient request =? TUSB_REQ_RCPT_INTERFACE).
  - unfold x360d_interface_request_handler.
    destruct (X360_RUMBLE_SUPPORT cfg) as [rm|], (X360_INPUT_SUPPORT cfg) as [c|];
      repeat match goal with
             | |- context [if wValue request =? ?v then _ else _] =>
                 destruct (wValue request =? v)
             end;
      try reflexivity;
      (destruct (negb (CONTROL_STAGE_SETUP =? stage)); [reflexivity|];
       match goal with
       | |- context [negb (?l <=? ?b)] => destruct (negb (l <=? b)); [reflexivity|]
       end; apply Hreply).
  - destruct (bmRequestType_bit_recipient request =? TUSB_REQ_RCPT_DEVICE);
      [|reflexivity].
    unfold x360d_device_request_handler.
    destruct (X360_SERIAL_NUMBER cfg) as [serial|]; [|reflexivity].
    destruct (wValue request =? X360_HANDLE_SERIAL); [|reflexivity].
    destruct (negb (CONTROL_STAGE_SETUP =? stage)); [reflexivity|].
    destruct (tu_memcpy_s _ _ _ _) as [rc buf].
    destruct (negb (0 =? rc)); [reflexivity|]. apply Hreply.
Qed.

(** X8. Whatever the request and the stage, [x360d_control_xfer_cb] touches
    no endpoint, changes nothing in the instances but an IN buffer, invokes
    no application callback and enqueues no transfer: the trace grows at most
    by one control data stage, which sends the IN buffer of an instance and
    at most its 20 bytes.  Outside the SETUP stage it changes nothing at
    all, and when the stack starts the data stages it is asked for, a
    request that is answered false (stalled) has changed nothing either. *)
Theorem x360d_control_xfer_cb_frame (cfg : x360_config_t) (P : port_t)
    (rh stage : Z) (request : tusb_control_request_t) (st : x360_state) :
  let r := fst (x360d_control_xfer_cb cfg P rh stage request st) in
  let st' := snd (x360d_control_xfer_cb cfg P rh stage request st) in
  ep_status (usbd st') = ep_status (usbd st) /\
  Forall2 x360_kept_by_control (_x360_instances st) (_x360_instances st') /\
  (trace (usbd st') = trace (usbd st) \/
   exists i len,
     0 <= len <= X360_TRANSFER_IN_BUFFER_SIZE /\
     stage = CONTROL_STAGE_SETUP /\
     trace (usbd st') =
       trace (usbd st) ++ [EvControlXfer rh request (DriverBuffer (TransferInBuf i)) len]) /\
  (stage <> CONTROL_STAGE_SETUP -> st' = st) /\
  (control_starts P -> r = false -> st' = st).
Proof.
  intros r st'. subst r st'.
  assert (Hsame : forall b : bool,
    ep_status (usbd (snd (b, st))) = ep_status (usbd st) /\
    Forall2 x360_kept_by_control (_x360_instances st) (_x360_instances (snd (b, st))) /\
    (trace (usbd (snd (b, st))) = trace (usbd st) \/
     exists i len,
       0 <= len <= X360_TRANSFER_IN_BUFFER_SIZE /\
       stage = CONTROL_STAGE_SETUP /\
       trace (usbd (snd (b, st))) =
         trace (usbd st) ++
         [EvControlXfer rh request (DriverBuffer (TransferInBuf i)) len]) /\
    (stage <> CONTROL_STAGE_SETUP -> snd (b, st) = st) /\
    (control_starts P -> fst (b, st) = false -> snd (b, st) = st)).
  { intros b. cbn [fst snd]. split; [reflexivity|]. split.
    - apply Forall_Forall2_diag, Forall_forall. intros x _.
      apply x360_kept_by_control_refl.
    - split; [now left|]. split; reflexivity. }
  unfold x360d_control_xfer_cb.
  destruct (negb (TUSB_REQ_TYPE_VENDOR =? _)); [apply Hsame|].
  destruct (negb (1 =? _)); [apply Hsame|].
  destruct (get_instance_by_itf _ _) as [[i p]|] eqn:Hg; [|apply Hsame].
  destruct (X360_Properties.x360_get_instance_by_itf_Some _ _ _ _ Hg) as (Hl & _ & _).
  destruct (negb (rh =? rhport p)) eqn:Hrh; [apply Hsame|].
  apply negb_false_iff, Z.eqb_eq in Hrh. subst rh.
  destruct (negb (itf_num p =? _)); [apply Hsame|].
  assert (Hreply : forall (buf : list Z) (len : Z),
    0 <= len <= X360_TRANSFER_IN_BUFFER_SIZE ->
    CONTROL_STAGE_SETUP = stage ->
    let st1 := with_instance i (set_transfer_in_buf buf p) st in
    let res := (let '(r, u) := tud_control_xfer P (rhport p) request
                                 (DriverBuffer (TransferInBuf i)) len (usbd st1) in
                (r, with_usbd u st1)) in
    ep_status (usbd (snd res)) = ep_status (usbd st) /\
    Forall2 x360_kept_by_control (_x360_instances st) (_x360_instances (snd res)) /\
    (trace (usbd (snd res)) = trace (usbd st) \/
     exists i len,
       0 <= len <= X360_TRANSFER_IN_BUFFER_SIZE /\
       stage = CONTROL_STAGE_SETUP /\
       trace (usbd (snd res)) =
         trace (usbd st) ++
         [EvControlXfer (rhport p) request (DriverBuffer (TransferInBuf i)) len]) /\
    (stage <> CONTROL_STAGE_SETUP -> snd res = st) /\
    (control_starts P -> fst res = false -> snd res = st)).
  { intros buf len Hlen Hst st1 res. subst res st1. unfold tud_control_xfer.
    cbn [fst snd usbd with_usbd with_instance _x360_instances log ep_status trace].
    split; [reflexivity|]. split.
    - apply (Forall2_insert_self _ _ i p); [apply x360_kept_by_control_refl|exact Hl|].
      repeat split.
    - split; [right; exists i, len; auto|]. split; [congruence|].
      intros Hc Hf. rewrite Hc in Hf. discriminate. }
  destruct (bmRequestType_bit_recipient request =? TUSB_REQ_RCPT_INTERFACE).
  - unfold x360d_interface_request_handler.
    assert (Hr : forall msg len, 0 <= len ->
      let res :=
        if negb (CONTROL_STAGE_SETUP =? stage) then (true, st)
        else if negb (len <=? X360_TRANSFER_IN_BUFFER_SIZE) then (false, st)
        else
          let st1 := with_instance i
                       (set_transfer_in_buf
                          (memcpy_at (transfer_in_buf p) 0 msg (Z.to_nat len)) p) st in
          let '(r, u) := tud_control_xfer P (rhport p) request
                           (DriverBuffer (TransferInBuf i)) len (usbd st1) in
          (r, with_usbd u st1) in
      ep_status (usbd (snd res)) = ep_status (usbd st) /\
      Forall2 x360_kept_by_control (_x360_instances st) (_x360_instances (snd res)) /\
      (trace (usbd (snd res)) = trace (usbd st) \/
       exists i len,
         0 <= len <= X360_TRANSFER_IN_BUFFER_SIZE /\
         stage = CONTROL_STAGE_SETUP /\
         trace (usbd (snd res)) =
           trace (usbd st) ++
           [EvControlXfer (rhport p) request (DriverBuffer (TransferInBuf i)) len]) /\
      (stage <> CONTROL_STAGE_SETUP -> snd res = st) /\
      (control_starts P -> fst res = false -> snd res = st)).
    { intros msg len H0 res. subst res.
      destruct (negb (CONTROL_STAGE_SETUP =? stage)) eqn:Hs; [apply Hsame|].
      apply negb_false_iff, Z.eqb_eq in Hs.
      destruct (negb (len <=? _)) eqn:Hle; [apply Hsame|].
      apply negb_false_iff, Z.leb_le in Hle.
      apply Hreply; [lia | exact Hs]. }
    destruct (X360_RUMBLE_SUPPORT cfg) as [rm|], (X360_INPUT_SUPPORT cfg) as [c|];
      repeat match goal with
             | |- context [if wValue request =? ?v then _ else _] =>
                 destruct (wValue request =? v)
             end;
      first [apply Hsame | apply Hr; discriminate].
  - destruct (bmRequestType_bit_recipient request =? TUSB_REQ_RCPT_DEVICE);
      [|apply Hsame].
    unfold x360d_device_request_handler.
    destruct (X360_SERIAL_NUMBER cfg) as [serial|]; [|apply Hsame].
    destruct (wValue request =? X360_HANDLE_SERIAL); [|apply Hsame].
    destruct (negb (CONTROL_STAGE_SETUP =? stage)) eqn:Hs; [apply Hsame|].
    apply negb_false_iff, Z.eqb_eq in Hs.
    unfold tu_memcpy_s.
    destruct (X360_TRANSFER_IN_BUFFER_SIZE <? _) eqn:Hlt;
      cbn [negb Z.eqb]; [apply Hsame|].
    apply Z.ltb_ge in Hlt.
    apply Hreply; [lia | exact Hs].
Qed.

Lemma x360_interface_handler_true (cfg : x360_config_t) (P : port_t)
    (ip : nat * x360d_instance_t) (stage : Z) (request : tusb_control_request_t)
    (st : x360_state) :
  control_starts P ->
  fst (x360d_interface_request_handler cfg P ip stage request st) = true <->
  (is_Some (X360_RUMBLE_SUPPORT cfg) /\ wValue request = 0x0000) \/
  (is_Some (X360_INPUT_SUPPORT cfg) /\ wValue request = 0x0100).
Proof.
  intros Hc. destruct ip as [i p]. unfold x360d_interface_request_handler.
  assert (Hr : forall msg len, (len <=? X360_TRANSFER_IN_BUFFER_SIZE) = true ->
    fst (if negb (CONTROL_STAGE_SETUP =? stage) then (true, st)
         else if negb (len <=? X360_TRANSFER_IN_BUFFER_SIZE) then (false, st)
         else
           let st1 := with_instance i
                        (set_transfer_in_buf
                           (memcpy_at (transfer_in_buf p) 0 msg (Z.to_nat len)) p) st in
           let '(r, u) := tud_control_xfer P (rhport p) request
                            (DriverBuffer (TransferInBuf i)) len (usbd st1) in
           (r, with_usbd u st1)) = true).
  { intros msg len Hle. destruct (negb (CONTROL_STAGE_SETUP =? stage)); [reflexivity|].
    rewrite Hle. cbn [negb]. unfold tud_control_xfer. cbn [fst]. apply Hc. }
  unfold X360_HANDLE_RUMBLE, X360_HANDLE_CONTROL.
  destruct (X360_RUMBLE_SUPPORT cfg) as [rm|], (X360_INPUT_SUPPORT cfg) as [c|];
    repeat match goal with
           | |- context [if wValue request =? ?v then _ else _] =>
               let E := fresh "E" in
               destruct (wValue request =? v) eqn:E;
               [apply Z.eqb_eq in E | apply Z.eqb_neq in E]
           end;
    rewrite ?Hr by reflexivity; cbn [fst];
    (split; [intros H; try discriminate H | intros [[Hs Hv]|[Hs Hv]]]);
    try reflexivity; try congruence;
    try (destruct Hs as [? Hs]; discriminate Hs);
    try (left; split; [eexists; reflexivity | assumption]);
    try (right; split; [eexists; reflexivity | assumption]).
Qed.

Lemma x360_device_handler_true (cfg : x360_config_t) (P : port_t)
    (ip : nat * x360d_instance_t) (stage : Z) (request : tusb_control_request_t)
    (st : x360_state) :
  control_starts P ->
  fst (x360d_device_request_handler cfg P ip stage request st) = true <->
  exists serial,
    X360_SERIAL_NUMBER cfg = Some serial /\ wValue request = 0x0000 /\
    (stage = CONTROL_STAGE_SETUP -> (String.length serial <= 20)%nat).
Proof.
  intros Hc. destruct ip as [i p]. unfold x360d_device_request_handler.
  destruct (X360_SERIAL_NUMBER cfg) as [serial|];
    [|cbn [fst]; split; [discriminate | intros (s & Hs & _); discriminate Hs]].
  unfold X360_HANDLE_SERIAL.
  destruct (wValue request =? 0) eqn:Hv;
    [apply Z.eqb_eq in Hv | apply Z.eqb_neq in Hv].
  2: { cbn [fst]. split; [discriminate|]. intros (s & _ & Hv' & _). congruence. }
  destruct (negb (CONTROL_STAGE_SETUP =? stage)) eqn:Hs.
  { apply negb_true_iff, Z.eqb_neq in Hs. cbn [fst]. split; [|reflexivity].
    intros _. exists serial. split; [reflexivity|]. split; [exact Hv|]. congruence. }
  apply negb_false_iff, Z.eqb_eq in Hs.
  unfold tu_memcpy_s, X360_TRANSFER_IN_BUFFER_SIZE.
  destruct (20 <? Z.of_nat (String.length serial)) eqn:Hlt; cbn [negb Z.eqb].
  - apply Z.ltb_lt in Hlt. cbn [fst]. split; [discriminate|].
    intros (s & Hs' & _ & Hlen). inversion Hs'; subst s.
    specialize (Hlen (eq_sym Hs)). lia.
  - apply Z.ltb_ge in Hlt. unfold tud_control_xfer. cbn [fst]. rewrite Hc.
    split; [|reflexivity]. intros _. exists serial.
    split; [reflexivity|]. split; [exact Hv|]. intros _. lia.
Qed.

(** X9. With a stack that starts the data stages it is asked for,
    [x360d_control_xfer_cb] answers true exactly for a vendor request with
    [bRequest = 1] whose [wIndex] is the number of an interface bound on this
    port, and which is either for the interface with [wValue] 0x0000 (rumble
    support configured) or 0x0100 (input support configured), or for the
    device with [wValue] 0x0000 and a configured serial number, which at the
    SETUP stage has to fit the 20-byte IN buffer. *)
Theorem x360d_control_xfer_cb_handled (cfg : x360_config_t) (P : port_t)
    (rh stage : Z) (request : tusb_control_request_t) (st : x360_state) :
  control_starts P ->
  fst (x360d_control_xfer_cb cfg P rh stage request st) = true <->
  bmRequestType_bit_type request = TUSB_REQ_TYPE_VENDOR /\
  bRequest request = 1 /\
  exists i p,
    get_instance_by_itf (Z.land (wIndex request) 0xFF) (_x360_instances st) = Some (i, p) /\
    rh = rhport p /\
    wIndex request = itf_num p /\
    ((bmRequestType_bit_recipient request = TUSB_REQ_RCPT_INTERFACE /\
      ((is_Some (X360_RUMBLE_SUPPORT cfg) /\ wValue request = 0x0000) \/
       (is_Some (X360_INPUT_SUPPORT cfg) /\ wValue request = 0x0100))) \/
     (bmRequestType_bit_recipient request = TUSB_REQ_RCPT_DEVICE /\
      exists serial,
        X360_SERIAL_NUMBER cfg = Some serial /\ wValue request = 0x0000 /\
        (stage = CONTROL_STAGE_SETUP -> (String.length serial <= 20)%nat))).
Proof.
  intros Hc. unfold x360d_control_xfer_cb.
  destruct (TUSB_REQ_TYPE_VENDOR =? bmRequestType_bit_type request) eqn:Ht;
    [apply Z.eqb_eq in Ht | apply Z.eqb_neq in Ht]; cbn [negb].
  2: { cbn [fst]. split; [discriminate|]. intros (Ht' & _). congruence. }
  destruct (1 =? bRequest request) eqn:Hb;
    [apply Z.eqb_eq in Hb | apply Z.eqb_neq in Hb]; cbn [negb].
  2: { cbn [fst]. split; [discriminate|]. intros (_ & Hb' & _). congruence. }
  destruct (get_instance_by_itf _ _) as [[i p]|] eqn:Hg.
  2: { cbn [fst]. split; [discriminate|]. intros (_ & _ & i & p & Hg' & _). discriminate. }
  destruct (rh =? rhport p) eqn:Hrh;
    [apply Z.eqb_eq in Hrh | apply Z.eqb_neq in Hrh]; cbn [negb].
  2: { cbn [fst]. split; [discriminate|].
       intros (_ & _ & i' & p' & Hg' & Hrh' & _). congruence. }
  destruct (itf_num p =? wIndex request) eqn:Hi;
    [apply Z.eqb_eq in Hi | apply Z.eqb_neq in Hi]; cbn [negb].
  2: { cbn [fst]. split; [discriminate|].
       intros (_ & _ & i' & p' & Hg' & _ & Hi' & _). congruence. }
  assert (Hne : TUSB_REQ_RCPT_INTERFACE <> TUSB_REQ_RCPT_DEVICE) by discriminate.
  destruct (bmRequestType_bit_recipient request =? TUSB_REQ_RCPT_INTERFACE) eqn:Hri;
    [apply Z.eqb_eq in Hri | apply Z.eqb_neq in Hri].
  - rewrite (x360_interface_handler_true cfg P (i, p) stage request st Hc).
    split.
    + intros H. split; [congruence|]. split; [congruence|].
      exists i, p. split; [reflexivity|]. split; [exact Hrh|]. split; [congruence|].
      left. split; [exact Hri | exact H].
    + intros (_ & _ & i' & p' & _ & _ & _ & [[_ H]|[Hrd _]]); [exact H | congruence].
  - destruct (bmRequestType_bit_recipient request =? TUSB_REQ_RCPT_DEVICE) eqn:Hrd;
      [apply Z.eqb_eq in Hrd | apply Z.eqb_neq in Hrd].
    + rewrite (x360_device_handler_true cfg P (i, p) stage request st Hc).
      split.
      * intros H. split; [congruence|]. split; [congruence|].
        exists i, p. split; [reflexivity|]. split; [exact Hrh|]. split; [congruence|].
        right. split; [exact Hrd | exact H].
      * intros (_ & _ & i' & p' & _ & _ & _ & [[Hri' _]|[_ H]]); [congruence | exact H].
    + cbn [fst]. split; [discriminate|].
      intros (_ & _ & i' & p' & _ & _ & _ & [[Hri' _]|[Hrd' _]]); congruence.
Qed.

Lemma x360d_control_xfer_cb_handled_witness :
  fst (x360d_control_xfer_cb tusb_config Examples.port_accept 0 CONTROL_STAGE_SETUP
         (Examples.vendor_request 1 0x0100 0) Examples.x360_bound) = true /\
  fst (x360d_control_xfer_cb tusb_config Examples.port_accept 0 CONTROL_STAGE_SETUP
         (Examples.vendor_request 1 0x0200 0) Examples.x360_bound) = false.
Proof.
  split.
  - apply (x360d_control_xfer_cb_handled tusb_config Examples.port_accept 0
             CONTROL_STAGE_SETUP (Examples.vendor_request 1 0x0100 0) Examples.x360_bound).
    + intros ? ? ? ? ?; reflexivity.
    + split; [reflexivity|]. split; [reflexivity|].
      eexists _, _. split; [reflexivity|]. split; [reflexivity|]. split; [reflexivity|].
      left. split; [reflexivity|]. right. split; [eexists; reflexivity | reflexivity].
  - reflexivity.
Defined.

(** X10. The vendor callback of the example tries the X360 driver first and
    the MS OS responder second, and the two never both act on a request.  A
    request whose [bRequest] is not 1 goes to the MS OS responder alone and
    leaves the instances as they are.  A request with [bRequest = 1], the
    vendor code being another number than 1, gets the X360 driver's answer
    and state; the responder adds nothing (the stack is taken to start the
    data stages it is asked for). *)
Theorem tud_vendor_control_xfer_cb_dispatch (cfg : x360_config_t) (app : x360_app_t)
    (P : port_t) (rh stage : Z) (request : tusb_control_request_t) (st : x360_state) :
  control_starts P ->
  MS_OS_DESCRIPTOR_VENDORCODE cfg <> 1 ->
  tud_vendor_control_xfer_cb cfg app P rh stage request st =
    if bRequest request =? 1
    then x360d_control_xfer_cb cfg P rh stage request st
    else (fst (ms_os_control_xfer_cb cfg app P rh stage request (usbd st)),
          with_usbd (snd (ms_os_control_xfer_cb cfg app P rh stage request (usbd st))) st).
Proof.
  intros Hc Hv. unfold tud_vendor_control_xfer_cb.
  destruct (bRequest request =? 1) eqn:Hb;
    [apply Z.eqb_eq in Hb | apply Z.eqb_neq in Hb].
  - pose proof (x360_control_stall_pure cfg P rh stage request st Hc) as Hf.
    destruct (x360d_control_xfer_cb cfg P rh stage request st) as [r st1].
    destruct r; [reflexivity|]. cbn [fst snd] in Hf. rewrite (Hf eq_refl).
    unfold ms_os_control_xfer_cb.
    destruct (negb (TUSB_REQ_TYPE_VENDOR =? _)); [now rewrite x360_state_eta|].
    replace (MS_OS_DESCRIPTOR_VENDORCODE cfg =? bRequest request) with false
      by (symmetry; apply Z.eqb_neq; congruence).
    cbn [negb]. now rewrite x360_state_eta.
  - assert (Hx : x360d_control_xfer_cb cfg P rh stage request st = (false, st)).
    { unfold x360d_control_xfer_cb.
      destruct (negb (TUSB_REQ_TYPE_VENDOR =? _)); [reflexivity|].
      replace (1 =? bRequest request) with false
        by (symmetry; apply Z.eqb_neq; congruence).
      reflexivity. }
    rewrite Hx.
    destruct (ms_os_control_xfer_cb cfg app P rh stage request (usbd st)) as [r2 u].
    destruct r2; reflexivity.
Qed.

Lemma tud_vendor_control_xfer_cb_dispatch_witness :
  tud_vendor_control_xfer_cb tusb_config Examples.x360_app_full Examples.port_accept
    0 CONTROL_STAGE_SETUP (Examples.ms_os_request 4) Examples.x360_bound =
  (true,
   with_usbd
     (log (EvControlXfer 0 (Examples.ms_os_request 4) (AppBuffer 0x1000) 40)
        (usbd Examples.x360_bound))
     Examples.x360_bound).
Proof.
  rewrite (tud_vendor_control_xfer_cb_dispatch tusb_config Examples.x360_app_full
             Examples.port_accept 0 CONTROL_STAGE_SETUP (Examples.ms_os_request 4)
             Examples.x360_bound).
  - reflexivity.
  - intros ? ? ? ? ?; reflexivity.
  - discriminate.
Defined.

(** X11. The input-capability query: a vendor request with [bRequest = 1]
    and [wValue = 0x0100] for a bound interface is answered at the SETUP
    stage with a 20-byte message from the IN buffer of the instance: the
    header [{0x00, 20}] followed by the 18 bytes of [X360_INPUT_SUPPORT],
    zero filled when the configuration gives fewer. *)
Theorem x360d_input_capabilities (cfg : x360_config_t) (P : port_t)
    (request : tusb_control_request_t) (st : x360_state)
    (i : nat) (p : x360d_instance_t) (c : list Z) :
  bmRequestType_bit_type request = TUSB_REQ_TYPE_VENDOR ->
  bmRequestType_bit_recipient request = TUSB_REQ_RCPT_INTERFACE ->
  bRequest request = 1 ->
  wValue request = 0x0100 ->
  0 <= wIndex request < 256 ->
  get_instance_by_itf (wIndex request) (_x360_instances st) = Some (i, p) ->
  X360_INPUT_SUPPORT cfg = Some c ->
  let st' := snd (x360d_control_xfer_cb cfg P (rhport p) CONTROL_STAGE_SETUP request st) in
  let reply := [0x00; 20] ++ take 18 (c ++ replicate 18 0) in
  length reply = 20%nat /\
  control_reply st st' (rhport p) request i 20 reply.
Proof.
  intros Ht Hrc Hb Hv Hw Hg Hc st' reply.
  assert (Hlen : length reply = 20%nat).
  { subst reply. cbn [app length]. rewrite length_take, length_app, length_replicate. lia. }
  split; [exact Hlen|].
  destruct (X360_Properties.x360_get_instance_by_itf_Some _ _ _ _ Hg) as (Hl & Hi & _).
  assert (Hlt : (i < length (_x360_instances st))%nat) by (eapply lookup_lt_Some; eauto).
  assert (Hst : st' =
    let st1 := with_instance i
                 (set_transfer_in_buf
                    (memcpy_at (transfer_in_buf p) 0 (controls_message c) 20) p) st in
    with_usbd (log (EvControlXfer (rhport p) request (DriverBuffer (TransferInBuf i)) 20)
                 (usbd st1)) st1).
  { subst st'. unfold x360d_control_xfer_cb.
    rewrite Ht, Hb, Hrc. cbn [Z.eqb negb TUSB_REQ_TYPE_VENDOR Pos.eqb].
    replace (Z.land (wIndex request) 255) with (wIndex request)
      by (symmetry; change 255 with (Z.ones 8); rewrite Z.land_ones by lia;
          apply Z.mod_small; lia).
    rewrite Hg, Z.eqb_refl, <- Hi, Z.eqb_refl. cbn [negb].
    change (TUSB_REQ_RCPT_INTERFACE =? TUSB_REQ_RCPT_INTERFACE) with true. cbv iota.
    unfold x360d_interface_request_handler. rewrite Hc, Hv.
    change (256 =? X360_HANDLE_RUMBLE) with false.
    change (256 =? X360_HANDLE_CONTROL) with true.
    change (CONTROL_STAGE_SETUP =? CONTROL_STAGE_SETUP) with true.
    change (sizeof_x360_message_controls_t <=? X360_TRANSFER_IN_BUFFER_SIZE) with true.
    destruct (X360_RUMBLE_SUPPORT cfg); reflexivity. }
  rewrite Hst. cbv zeta. unfold control_reply.
  cbn [usbd with_usbd with_instance log trace x360_buf_bytes _x360_instances].
  split; [reflexivity|].
  rewrite list_lookup_insert_eq by exact Hlt.
  cbn [transfer_in_buf set_transfer_in_buf].
  change (Z.to_nat 20) with 20%nat.
  apply (X360_Properties.take_memcpy_at_0 _ (controls_message c) 20). exact Hlen.
Qed.

Lemma x360d_input_capabilities_witness :
  x360_buf_bytes
    (snd (x360d_control_xfer_cb tusb_config Examples.port_accept 0 CONTROL_STAGE_SETUP
            (Examples.vendor_request 1 0x0100 0) Examples.x360_bound))
    (TransferInBuf 0) =
  [0x00; 20; 0xFF; 0xF7; 0xFF; 0xFF; 0x00; 0xFF; 0x00; 0xFF; 0x00; 0xFF; 0x00;
   0xFF; 0x00; 0x00; 0x00; 0x00; 0x00; 0x00].
Proof.
  destruct (x360d_input_capabilities tusb_config Examples.port_accept
              (Examples.vendor_request 1 0x0100 0) Examples.x360_bound 0%nat
              {| rhport := 0; itf_num := 0; ep_in := 0x81; ep_out := 0x01;
                 transfer_in_buf := replicate 20 0;
                 transfer_out_buf := replicate 8 0; led := 0 |}
              [0xFF; 0xF7; 0xFF; 0xFF; 0x00; 0xFF; 0x00; 0xFF; 0x00; 0xFF; 0x00;
               0xFF; 0x00; 0x00; 0x00; 0x00; 0x00; 0x00])
    as (_ & _ & Hb);
    [reflexivity | reflexivity | reflexivity | reflexivity | cbn; lia | reflexivity
    | reflexivity |].
  exact Hb.
Defined.

(** X12. A transfer that did not succeed never reaches the message handlers
    and changes no instance.  When the application defines [report_issue],
    that callback is all that happens: the endpoint stays idle and the OUT
    buffer is not handed back, so nothing more is received until the
    application acts.  Without the callback a failed OUT transfer is retried
    by the driver with the OUT buffer and 8 bytes, and a failed IN transfer
    is dropped. *)
Theorem x360d_xfer_cb_failure (cfg : x360_config_t) (app : x360_app_t) (P : port_t)
    (ep result n : Z) (st : x360_state) (i : nat) (p : x360d_instance_t) :
  get_instance_by_ep ep (_x360_instances st) = Some (i, p) ->
  result <> XFER_RESULT_SUCCESS ->
  let st' := x360_step cfg app P (DoXferCb (rhport p) ep result n) st in
  _x360_instances st' = _x360_instances st /\
  received_led_calls (trace (usbd st')) = received_led_calls (trace (usbd st)) /\
  received_rumble_calls (trace (usbd st')) = received_rumble_calls (trace (usbd st)) /\
  (has_report_issue_cb app = true ->
   trace (usbd st') =
     trace (usbd st) ++ [EvApp (x360d_report_issue_cb (itf_num p) ep result n)] /\
   ep_status (usbd st') ep = edpt_idle) /\
  (has_report_issue_cb app = false -> port_accepts P ->
   if ep =? ep_out p
   then trace (usbd st') =
          trace (usbd st) ++
          [EvEdptXfer (rhport p) ep (DriverBuffer (TransferOutBuf i))
             X360_TRANSFER_OUT_BUFFER_SIZE] /\
        busy (ep_status (usbd st') ep) = true
   else trace (usbd st') = trace (usbd st) /\ ep_status (usbd st') ep = edpt_idle).
Proof.
  intros Hg Hres st'. subst st'. cbn [x360_step]. unfold x360d_xfer_cb.
  cbn [_x360_instances with_usbd]. rewrite Hg, Z.eqb_refl. cbn [negb].
  replace (XFER_RESULT_SUCCESS =? result) with false
    by (symmetry; apply Z.eqb_neq; congruence).
  cbn [negb].
  destruct (has_report_issue_cb app).
  - cbn [snd app_call with_usbd usbd log trace ep_status _x360_instances
         usbd_edpt_release_on_complete set_ep_status].
    rewrite Z.eqb_refl. unfold received_led_calls, received_rumble_calls.
    rewrite !omap_app. cbn [omap]. rewrite !app_nil_r.
    split; [reflexivity|]. split; [reflexivity|]. split; [reflexivity|].
    split; [intros _; split; reflexivity | discriminate].
  - destruct (ep =? ep_out p) eqn:He.
    + apply Z.eqb_eq in He. subst ep.
      unfold usbd_edpt_xfer, usbd_edpt_release_on_complete.
      cbn [usbd with_usbd ep_status set_ep_status trace]. rewrite Z.eqb_refl.
      cbn [busy edpt_idle claimed].
      destruct (dcd_edpt_xfer P _ _ _ _ _) eqn:Hd.
      * cbn [snd with_usbd usbd log trace ep_status set_ep_status _x360_instances].
        rewrite Z.eqb_refl. unfold received_led_calls, received_rumble_calls.
        rewrite !omap_app. cbn [omap]. rewrite !app_nil_r.
        split; [reflexivity|]. split; [reflexivity|]. split; [reflexivity|].
        split; [discriminate | intros _ _; split; reflexivity].
      * cbn [snd with_usbd usbd log trace ep_status set_ep_status _x360_instances].
        split; [reflexivity|]. split; [reflexivity|]. split; [reflexivity|].
        split; [discriminate|]. intros _ Hp. rewrite Hp in Hd. discriminate.
    + cbn [snd with_usbd usbd trace ep_status _x360_instances
           usbd_edpt_release_on_complete set_ep_status].
      rewrite Z.eqb_refl.
      split; [reflexivity|]. split; [reflexivity|]. split; [reflexivity|].
      split; [discriminate | intros _ _; split; reflexivity].
Qed.

Lemma x360d_xfer_cb_failure_witness :
  let st' := x360_step tusb_config Examples.x360_app_full Examples.port_accept
               (DoXferCb 0 0x01 XFER_RESULT_FAILED 0) Examples.x360_bound in
  trace (usbd st') =
    trace (usbd Examples.x360_bound) ++ [EvApp (x360d_report_issue_cb 0 0x01 1 0)] /\
  ep_status (usbd st') 0x01 = edpt_idle.
Proof.
  intros st'.
  destruct (x360d_xfer_cb_failure tusb_config Examples.x360_app_full Examples.port_accept
              0x01 XFER_RESULT_FAILED 0 Examples.x360_bound 0%nat
              {| rhport := 0; itf_num := 0; ep_in := 0x81; ep_out := 0x01;
                 transfer_in_buf := replicate 20 0;
                 transfer_out_buf := replicate 8 0; led := 0 |})
    as (_ & _ & _ & Hi & _); [reflexivity | discriminate |].
  apply Hi. reflexivity.
Defined.

Lemma x360_same_binding_refl (p : x360d_instance_t) : x360_same_binding p p.
Proof. repeat split. Qed.

Lemma x360_same_binding_trans (p q r : x360d_instance_t) :
  x360_same_binding p q -> x360_same_binding q r -> x360_same_binding p r.
Proof.
  unfold x360_same_binding. intros (A1 & A2 & A3 & A4) (B1 & B2 & B3 & B4).
  repeat split; congruence.
Qed.

Lemma x360_Forall2_binding_refl (l : list x360d_instance_t) :
  Forall2 x360_same_binding l l.
Proof.
  apply Forall_Forall2_diag, Forall_forall. intros x _. apply x360_same_binding_refl.
Qed.

Lemma x360_Forall2_binding_trans (l1 l2 l3 : list x360d_instance_t) :
  Forall2 x360_same_binding l1 l2 -> Forall2 x360_same_binding l2 l3 ->
  Forall2 x360_same_binding l1 l3.
Proof.
  intros H1 H2.
  eapply (Forall2_trans x360_same_binding x360_same_binding x360_same_binding);
    [|exact H1|exact H2].
  intros x y z. apply x360_same_binding_trans.
Qed.

Lemma x360d_n_report_binding (P : port_t) (itf : Z) (report : x360_controls_t)
    (st : x360_state) :
  Forall2 x360_same_binding (_x360_instances st)
    (_x360_instances (snd (x360d_n_report P itf report st))).
Proof.
  unfold x360d_n_report.
  destruct (get_instance_by_itf itf (_x360_instances st)) as [[i p]|] eqn:Hg;
    [|apply x360_Forall2_binding_refl].
  destruct (X360_Properties.x360_get_instance_by_itf_Some _ _ _ _ Hg) as (Hl & _ & _).
  destruct (usbd_edpt_claim _ _ _) as [c u].
  destruct (negb c); [apply x360_Forall2_binding_refl|].
  destruct (negb _); [apply x360_Forall2_binding_refl|].
  cbv zeta.
  match goal with
  | |- context [usbd_edpt_xfer ?a ?b ?c ?d ?e ?f] =>
      destruct (usbd_edpt_xfer a b c d e f) as [r u']
  end.
  cbn [snd _x360_instances with_usbd with_instance].
  apply (Forall2_insert_self _ _ i p); [apply x360_same_binding_refl | exact Hl |].
  repeat split.
Qed.

Lemma x360d_report_out_received_binding (app : x360_app_t) (i : nat)
    (p : x360d_instance_t) (n : Z) (st : x360_state) :
  _x360_instances st !! i = Some p ->
  Forall2 x360_same_binding (_x360_instances st)
    (_x360_instances (x360d_report_out_received app (i, p) n st)).
Proof.
  intros Hl. unfold x360d_report_out_received.
  destruct (_ && _).
  { destruct (has_received_rumble_cb app); apply x360_Forall2_binding_refl. }
  destruct (_ && _); [|apply x360_Forall2_binding_refl].
  cbv zeta. destruct (led p =? _); [apply x360_Forall2_binding_refl|].
  destruct (has_received_led_cb app);
    cbn [_x360_instances app_call with_usbd with_instance];
    (apply (Forall2_insert_self _ _ i p);
     [apply x360_same_binding_refl | exact Hl | repeat split]).
Qed.

Lemma x360d_xfer_cb_binding (app : x360_app_t) (P : port_t)
    (rh ep result n : Z) (st : x360_state) :
  Forall2 x360_same_binding (_x360_instances st)
    (_x360_instances (snd (x360d_xfer_cb app P rh ep result n st))).
Proof.
  unfold x360d_xfer_cb.
  destruct (get_instance_by_ep ep (_x360_instances st)) as [[i p]|] eqn:Hg;
    [|apply x360_Forall2_binding_refl].
  destruct (X360_Properties.x360_get_instance_by_ep_Some _ _ _ _ Hg) as (Hl & _).
  destruct (negb (rh =? rhport p)); [apply x360_Forall2_binding_refl|].
  destruct (negb (XFER_RESULT_SUCCESS =? result)).
  { destruct (has_report_issue_cb app); [apply x360_Forall2_binding_refl|].
    destruct (ep =? ep_out p); [|apply x360_Forall2_binding_refl].
    destruct (usbd_edpt_xfer _ _ _ _ _ _) as [ok u].
    apply x360_Forall2_binding_refl. }
  destruct (ep =? ep_in p).
  { destruct (has_report_complete_cb app); apply x360_Forall2_binding_refl. }
  destruct (ep =? ep_out p); [|apply x360_Forall2_binding_refl].
  cbv zeta.
  destruct (usbd_edpt_xfer _ _ _ _ _ _) as [ok u].
  cbn [snd _x360_instances with_usbd].
  apply x360d_report_out_received_binding. exact Hl.
Qed.

Lemma x360d_control_xfer_cb_binding (cfg : x360_config_t) (P : port_t)
    (rh stage : Z) (request : tusb_control_request_t) (st : x360_state) :
  Forall2 x360_same_binding (_x360_instances st)
    (_x360_instances (snd (x360d_control_xfer_cb cfg P rh stage request st))).
Proof.
  unfold x360d_control_xfer_cb.
  destruct (negb (TUSB_REQ_TYPE_VENDOR =? _)); [apply x360_Forall2_binding_refl|].
  destruct (negb (1 =? _)); [apply x360_Forall2_binding_refl|].
  destruct (get_instance_by_itf _ _) as [[i p]|] eqn:Hg;
    [|apply x360_Forall2_binding_refl].
  destruct (X360_Properties.x360_get_instance_by_itf_Some _ _ _ _ Hg) as (Hl & _ & _).
  destruct (negb (rh =? rhport p)); [apply x360_Forall2_binding_refl|].
  destruct (negb (itf_num p =? _)); [apply x360_Forall2_binding_refl|].
  assert (Hreply : forall buf len,
    Forall2 x360_same_binding (_x360_instances st)
      (_x360_instances
         (snd (let st1 := with_instance i (set_transfer_in_buf buf p) st in
               let '(r, u) := tud_control_xfer P (rhport p) request
                                (DriverBuffer (TransferInBuf i)) len (usbd st1) in
               (r, with_usbd u st1))))).
  { intros buf len. cbv zeta. unfold tud_control_xfer.
    cbn [snd _x360_instances with_usbd with_instance].
    apply (Forall2_insert_self _ _ i p); [apply x360_same_binding_refl | exact Hl |].
    repeat split. }
  destruct (bmRequestType_bit_recipient request =? TUSB_REQ_RCPT_INTERFACE).
  - unfold x360d_interface_request_handler.
    destruct (X360_RUMBLE_SUPPORT cfg) as [rm|], (X360_INPUT_SUPPORT cfg) as [c|];
      repeat match goal with
             | |- context [if wValue request =? ?v then _ else _] =>
                 destruct (wValue request =? v)
             end;
      try apply x360_Forall2_binding_refl;
      (destruct (negb (CONTROL_STAGE_SETUP =? stage));
       [apply x360_Forall2_binding_refl|];
       match goal with
       | |- context [negb (?l <=? ?b)] =>
           destruct (negb (l <=? b)); [apply x360_Forall2_binding_refl|]
       end; apply Hreply).
  - destruct (bmRequestType_bit_recipient request =? TUSB_REQ_RCPT_DEVICE);
      [|apply x360_Forall2_binding_refl].
    unfold x360d_device_request_handler.
    destruct (X360_SERIAL_NUMBER cfg) as [serial|]; [|apply x360_Forall2_binding_refl].
    destruct (wValue request =? X360_HANDLE_SERIAL); [|apply x360_Forall2_binding_refl].
    destruct (negb (CONTROL_STAGE_SETUP =? stage)); [apply x360_Forall2_binding_refl|].
    destruct (tu_memcpy_s _ _ _ _) as [rc buf].
    destruct (negb (0 =? rc)); [apply x360_Forall2_binding_refl|]. apply Hreply.
Qed.

Lemma x360_step_binding (cfg : x360_config_t) (app : x360_app_t) (P : port_t)
    (c : x360_call) (st : x360_state) :
  is_bind_call c = false ->
  Forall2 x360_same_binding (_x360_instances st)
    (_x360_instances (x360_step cfg app P c st)).
Proof.
  destruct c as [itf report|rh stage request|rh ep result n|i msg|rh d m|rh];
    cbn [is_bind_call x360_step]; intros Hb; try discriminate Hb.
  - apply x360d_n_report_binding.
  - apply x360d_control_xfer_cb_binding.
  - apply (x360d_xfer_cb_binding app P rh ep result n
             (with_usbd (usbd_edpt_release_on_complete ep (usbd st)) st)).
  - unfold usbd_out_complete.
    destruct (_x360_instances st !! i) as [p|] eqn:Hl;
      [|apply x360_Forall2_binding_refl].
    cbv zeta.
    eapply x360_Forall2_binding_trans; [|apply x360d_xfer_cb_binding].
    cbn [_x360_instances with_usbd with_instance].
    apply (Forall2_insert_self _ _ i p); [apply x360_same_binding_refl | exact Hl |].
    repeat split.
Qed.

Lemma x360_run_binding (cfg : x360_config_t) (app : x360_app_t) (P : port_t)
    (cs : list x360_call) :
  forall st,
    Forall (fun c => is_bind_call c = false) cs ->
    Forall2 x360_same_binding (_x360_instances st)
      (_x360_instances (x360_run cfg app P cs st)).
Proof.
  induction cs as [|c cs IH]; intros st Hcs; cbn [x360_run].
  - apply x360_Forall2_binding_refl.
  - inversion Hcs as [|c' cs' Hc Hcs']; subst.
    eapply x360_Forall2_binding_trans; [apply x360_step_binding; exact Hc|].
    apply IH. exact Hcs'.
Qed.

(** X13. Only [x360d_open] and [x360d_reset] bind and unbind.  Over any
    sequence of the other calls into the driver (reports, control requests,
    transfer completions and failures, OUT messages) every instance keeps its
    port, interface number and endpoints, so each interface number and each
    endpoint address is found at the same instance as before, and the first
    free instance stays the same. *)
Theorem x360_run_keeps_bindings (cfg : x360_config_t) (app : x360_app_t) (P : port_t)
    (cs : list x360_call) (st : x360_state) :
  Forall (fun c => is_bind_call c = false) cs ->
  let st' := x360_run cfg app P cs st in
  Forall2 x360_same_binding (_x360_instances st) (_x360_instances st') /\
  (forall itf, fst <$> get_instance_by_itf itf (_x360_instances st') =
               fst <$> get_instance_by_itf itf (_x360_instances st)) /\
  (forall ep, fst <$> get_instance_by_ep ep (_x360_instances st') =
              fst <$> get_instance_by_ep ep (_x360_instances st)) /\
  fst <$> get_free_instance (_x360_instances st') =
  fst <$> get_free_instance (_x360_instances st).
Proof.
  intros Hcs st'. pose proof (x360_run_binding cfg app P cs st Hcs) as Hf.
  fold st' in Hf. split; [exact Hf|].
  split; [|split].
  - intros itf. symmetry. unfold get_instance_by_itf.
    apply (list_find_index_Forall2 _ x360_same_binding); [|exact Hf].
    intros x y (_ & H2 & H3 & H4). rewrite H2, H3, H4. reflexivity.
  - intros ep. symmetry. unfold get_instance_by_ep.
    apply (list_find_index_Forall2 _ x360_same_binding); [|exact Hf].
    intros x y (_ & _ & H3 & H4). rewrite H3, H4. reflexivity.
  - symmetry. unfold get_free_instance.
    apply (list_find_index_Forall2 _ x360_same_binding); [|exact Hf].
    intros x y (_ & _ & H3 & H4). rewrite H3, H4. reflexivity.
Qed.

Lemma x360_run_keeps_bindings_witness :
  let cs := [DoReport 0 Examples.controls_home_y;
             DoXferCb 0 0x81 XFER_RESULT_SUCCESS 20;
             DoOutMessage 0 [X360_MESSAGE_TYPE_OUT_LED; 3; X360_LED_SLOT_1_ON];
             DoControl 0 CONTROL_STAGE_SETUP (Examples.vendor_request 1 0 0)] in
  let st' := x360_run tusb_config Examples.x360_app_full Examples.port_accept cs
               Examples.x360_bound in
  fst <$> get_instance_by_ep 0x01 (_x360_instances st') = Some 0%nat.
Proof.
  intros cs st'.
  destruct (x360_run_keeps_bindings tusb_config Examples.x360_app_full
              Examples.port_accept cs Examples.x360_bound) as (_ & _ & He & _).
  - repeat constructor.
  - fold st' in He. rewrite He. reflexivity.
Defined.

End X360_Lifecycle.

Module CHID_Lifecycle.
Import Usbd CHID Usbd_Properties List_Properties.

Ltac chidd_field_insert Hlt :=
  unfold instance_field;
  cbn [_chidd_instances with_usbd with_instance app_call snd];
  rewrite list_lookup_insert_eq by exact Hlt;
  reflexivity.

Lemma chidd_lookup_lt (itf : Z) (st : chidd_state) (i : nat) (p : chidd_instance_t) :
  get_instance_by_itf itf (_chidd_instances st) = Some (i, p) ->
  _chidd_instances st !! i = Some p /\ (i < length (_chidd_instances st))%nat.
Proof.
  intros Hg.
  destruct (CHID_Properties.chidd_get_instance_by_itf_Some _ _ _ _ Hg) as (Hl & _).
  split; [exact Hl|]. eapply lookup_lt_Some; eauto.
Qed.

Lemma chidd_receive_report_valid (P : port_t) (itf report len : Z) (st : chidd_state)
    (i : nat) (p : chidd_instance_t) :
  get_instance_by_itf itf (_chidd_instances st) = Some (i, p) ->
  report <> 0 -> 0 < len ->
  chidd_receive_report P itf report len st =
  (let st1 := with_instance i (set_transfer_out report len p) st in
   let '(r, u) := usbd_edpt_xfer P (rhport p) (ep_out p) (AppBuffer report) len
                    (usbd st1) in
   (r, with_usbd u st1)).
Proof.
  intros Hg Hr Hlen. unfold chidd_receive_report. rewrite Hg.
  replace (report =? 0) with false by (symmetry; apply Z.eqb_neq; exact Hr).
  replace (0 <? len) with true by (symmetry; apply Z.ltb_lt; exact Hlen).
  reflexivity.
Qed.

(** X14. [chidd_receive_report] on a bound interface.  With a [NULL] buffer
    or a length of 0 it returns false and changes nothing.  Otherwise it
    stores the buffer and the length in the instance before it asks the
    stack: on an OUT endpoint that already has a transfer outstanding the
    call fails, yet the stored buffer and length are the new ones; on an
    endpoint with none, and a controller that accepts, one transfer of that
    buffer and length is enqueued on the OUT endpoint. *)
Theorem chidd_receive_report_arms (P : port_t) (itf report len : Z) (st : chidd_state)
    (i : nat) (p : chidd_instance_t) :
  get_instance_by_itf itf (_chidd_instances st) = Some (i, p) ->
  let r := fst (chidd_receive_report P itf report len st) in
  let st' := snd (chidd_receive_report P itf report len st) in
  (report = 0 \/ len <= 0 -> r = false /\ st' = st) /\
  (report <> 0 -> 0 < len ->
   instance_field transfer_out_buf i st' = Some report /\
   instance_field transfer_out_size i st' = Some len /\
   (busy (ep_status (usbd st) (ep_out p)) = true ->
    r = false /\ usbd st' = usbd st) /\
   (busy (ep_status (usbd st) (ep_out p)) = false -> port_accepts P ->
    r = true /\
    trace (usbd st') =
      trace (usbd st) ++ [EvEdptXfer (rhport p) (ep_out p) (AppBuffer report) len] /\
    busy (ep_status (usbd st') (ep_out p)) = true)).
Proof.
  intros Hg r st'. subst r st'.
  destruct (chidd_lookup_lt _ _ _ _ Hg) as (Hl & Hlt).
  split.
  - intros Hbad. unfold chidd_receive_report. rewrite Hg.
    replace (negb (report =? 0) && (0 <? len)) with false; [split; reflexivity|].
    symmetry. destruct Hbad as [-> | Hle]; [reflexivity|].
    replace (0 <? len) with false by (symmetry; apply Z.ltb_ge; exact Hle).
    apply andb_false_r.
  - intros Hr Hlen. rewrite (chidd_receive_report_valid P itf report len st i p Hg Hr Hlen).
    cbv zeta. unfold usbd_edpt_xfer. cbn [usbd with_instance].
    destruct (busy (ep_status (usbd st) (ep_out p))) eqn:Hb.
    + cbn [fst snd]. split; [chidd_field_insert Hlt|]. split; [chidd_field_insert Hlt|].
      split; [intros _; split; reflexivity | discriminate].
    + destruct (dcd_edpt_xfer P _ _ _ _ _) eqn:Hd; cbn [fst snd].
      * split; [chidd_field_insert Hlt|]. split; [chidd_field_insert Hlt|].
        split; [discriminate|]. intros _ _.
        cbn [usbd with_usbd log trace ep_status set_ep_status].
        rewrite Z.eqb_refl. repeat split.
      * split; [chidd_field_insert Hlt|]. split; [chidd_field_insert Hlt|].
        split; [discriminate|]. intros _ Hp. rewrite Hp in Hd. discriminate.
Qed.

Lemma chidd_receive_report_arms_witness :
  let st1 := snd (chidd_receive_report Examples.port_accept 0 0x5000 1
                    Examples.chidd_bound) in
  let st2 := snd (chidd_receive_report Examples.port_accept 0 0x6000 4 st1) in
  fst (chidd_receive_report Examples.port_accept 0 0x6000 4 st1) = false /\
  instance_field transfer_out_buf 0 st2 = Some 0x6000 /\
  trace (usbd st2) = trace (usbd Examples.chidd_bound) ++ [EvEdptXfer 0 0x01 (AppBuffer 0x5000) 1].
Proof.
  intros st1 st2.
  destruct (chidd_receive_report_arms Examples.port_accept 0 0x6000 4 st1 0%nat
              {| rhport := 0; itf_num := 0; ep_in := 0x81; ep_out := 0x01;
                 transfer_in_buf := 0; transfer_out_buf := 0x5000;
                 transfer_out_size := 1; protocol_mode := 1; idle_rate := 0;
                 hid_descriptor := Some (tu_desc_next Examples.hid_desc_itf) |})
    as (_ & H); [reflexivity|].
  destruct H as (Hb & _ & Hbusy & _); [discriminate | lia |].
  destruct (Hbusy eq_refl) as (Hr & Hu).
  split; [exact Hr|]. split; [exact Hb|].
  fold st2 in Hu. rewrite Hu. reflexivity.
Defined.

Lemma chidd_get_instance_by_ep_insert (ep : Z) (l : list chidd_instance_t) (i : nat)
    (p p' : chidd_instance_t) :
  get_instance_by_ep ep l = Some (i, p) ->
  ep_in p' = ep_in p -> ep_out p' = ep_out p ->
  get_instance_by_ep ep (<[i := p']> l) = Some (i, p').
Proof.
  intros Hg Hi Ho. unfold get_instance_by_ep in *.
  apply (list_find_insert_same _ _ _ p p'); [exact Hg|].
  apply list_find_Some in Hg. destruct Hg as (_ & Hq & _).
  rewrite Hi, Ho. exact Hq.
Qed.

Lemma chidd_get_instance_by_itf_insert (itf : Z) (l : list chidd_instance_t) (i : nat)
    (p p' : chidd_instance_t) :
  get_instance_by_itf itf l = Some (i, p) ->
  itf_num p' = itf_num p -> ep_in p' = ep_in p -> ep_out p' = ep_out p ->
  get_instance_by_itf itf (<[i := p']> l) = Some (i, p').
Proof.
  intros Hg Hn Hi Ho. unfold get_instance_by_itf in *.
  apply (list_find_insert_same _ _ _ p p'); [exact Hg|].
  apply list_find_Some in Hg. destruct Hg as (_ & Hq & _).
  rewrite Hn, Hi, Ho. exact Hq.
Qed.

(** X15. An Output report received on the OUT endpoint is handed over once
    and the buffer is given up: after [chidd_receive_report] with a buffer,
    the successful completion of the OUT transfer invokes
    [report_received_complete] (if defined) with report ID 0xFF, type
    OUTPUT, that very buffer and the transferred count, clears the stored
    buffer and length, and enqueues nothing: the endpoint stays idle until
    the application calls [chidd_receive_report] again. *)
Theorem chidd_receive_roundtrip (app : chidd_app_t) (P : port_t)
    (itf report len n : Z) (st : chidd_state) (i : nat) (p : chidd_instance_t) :
  get_instance_by_itf itf (_chidd_instances st) = Some (i, p) ->
  get_instance_by_ep (ep_out p) (_chidd_instances st) = Some (i, p) ->
  ep_out p <> ep_in p ->
  report <> 0 -> 0 < len ->
  let st1 := snd (chidd_receive_report P itf report len st) in
  let st2 := snd (chidd_step app P
                    (CallXferCb (rhport p) (ep_out p) XFER_RESULT_SUCCESS n) st1) in
  trace (usbd st2) =
    trace (usbd st1) ++
    (if has_report_received_complete_cb app
     then [EvApp (chidd_report_received_complete_cb (itf_num p) 0xFF
                    HID_REPORT_TYPE_OUTPUT report n)]
     else []) /\
  instance_field transfer_out_buf i st2 = Some 0 /\
  instance_field transfer_out_size i st2 = Some 0 /\
  ep_status (usbd st2) (ep_out p) = edpt_idle.
Proof.
  intros Hg He Hne Hr Hlen st1 st2.
  destruct (chidd_lookup_lt _ _ _ _ Hg) as (Hl & Hlt).
  set (p1 := set_transfer_out report len p).
  assert (H1 : exists u1, st1 = with_usbd u1 (with_instance i p1 st)).
  { subst st1. rewrite (chidd_receive_report_valid P itf report len st i p Hg Hr Hlen).
    cbv zeta. fold p1. destruct (usbd_edpt_xfer _ _ _ _ _ _) as [r u]. now exists u. }
  destruct H1 as [u1 H1].
  assert (Hst : st2 =
    let st0 := with_usbd (usbd_edpt_release_on_complete (ep_out p) u1)
                 (with_instance i p1 st) in
    let st3 := with_instance i (set_transfer_out 0 0 p1) st0 in
    if has_report_received_complete_cb app
    then app_call (chidd_report_received_complete_cb (itf_num p) 0xFF
                     HID_REPORT_TYPE_OUTPUT report n) st3
    else st3).
  { subst st2. rewrite H1. cbn [chidd_step]. unfold chidd_xfer_cb.
    cbn [_chidd_instances with_usbd with_instance usbd].
    rewrite (chidd_get_instance_by_ep_insert _ _ _ p p1 He eq_refl eq_refl).
    cbn [rhport p1 set_transfer_out ep_in ep_out itf_num transfer_out_buf].
    rewrite !Z.eqb_refl. cbn [negb].
    replace (ep_out p =? ep_in p) with false
      by (symmetry; apply Z.eqb_neq; exact Hne).
    reflexivity. }
  assert (Hlt' : (i < length (<[i := p1]> (_chidd_instances st)))%nat)
    by (rewrite length_insert; exact Hlt).
  rewrite Hst, H1. cbv zeta.
  destruct (has_report_received_complete_cb app);
    cbn [usbd with_usbd app_call log trace ep_status usbd_edpt_release_on_complete
         set_ep_status with_instance];
    rewrite ?Z.eqb_refl, ?app_nil_r;
    (split; [reflexivity|]);
    (split; [chidd_field_insert Hlt'|]);
    (split; [chidd_field_insert Hlt' | reflexivity]).
Qed.

Lemma chidd_receive_roundtrip_witness :
  let st1 := snd (chidd_receive_report Examples.port_accept 0 0x5000 1
                    Examples.chidd_bound) in
  let st2 := snd (chidd_step Examples.chidd_app_full Examples.port_accept
                    (CallXferCb 0 0x01 XFER_RESULT_SUCCESS 1) st1) in
  trace (usbd st2) =
    trace (usbd st1) ++ [EvApp (chidd_report_received_complete_cb 0 0xFF 2 0x5000 1)] /\
  instance_field transfer_out_buf 0 st2 = Some 0.
Proof.
  intros st1 st2.
  destruct (chidd_receive_roundtrip Examples.chidd_app_full Examples.port_accept
              0 0x5000 1 1 Examples.chidd_bound 0%nat
              {| rhport := 0; itf_num := 0; ep_in := 0x81; ep_out := 0x01;
                 transfer_in_buf := 0; transfer_out_buf := 0;
                 transfer_out_size := 0; protocol_mode := 1; idle_rate := 0;
                 hid_descriptor := Some (tu_desc_next Examples.hid_desc_itf) |})
    as (Ht & Hb & _); [reflexivity | reflexivity | discriminate | discriminate | lia |].
  split; [exact Ht | exact Hb].
Defined.

(** X16. A transfer that did not succeed changes no instance.  When the
    application defines [report_issue], that callback is all that happens
    and the endpoint is left idle.  Without the callback a failed OUT
    transfer is retried by the driver with the buffer and the length that
    are stored in the instance, and a failed IN transfer is dropped. *)
Theorem chidd_xfer_cb_failure (app : chidd_app_t) (P : port_t)
    (ep result n : Z) (st : chidd_state) (i : nat) (p : chidd_instance_t) :
  get_instance_by_ep ep (_chidd_instances st) = Some (i, p) ->
  result <> XFER_RESULT_SUCCESS ->
  let st' := snd (chidd_step app P (CallXferCb (rhport p) ep result n) st) in
  _chidd_instances st' = _chidd_instances st /\
  (has_report_issue_cb app = true ->
   trace (usbd st') =
     trace (usbd st) ++ [EvApp (chidd_report_issue_cb (itf_num p) ep result n)] /\
   ep_status (usbd st') ep = edpt_idle) /\
  (has_report_issue_cb app = false -> port_accepts P ->
   if ep =? ep_out p
   then trace (usbd st') =
          trace (usbd st) ++
          [EvEdptXfer (rhport p) ep (AppBuffer (transfer_out_buf p))
             (transfer_out_size p)] /\
        busy (ep_status (usbd st') ep) = true
   else trace (usbd st') = trace (usbd st) /\ ep_status (usbd st') ep = edpt_idle).
Proof.
  intros Hg Hres st'. subst st'. cbn [chidd_step]. unfold chidd_xfer_cb.
  cbn [_chidd_instances with_usbd]. rewrite Hg, Z.eqb_refl. cbn [negb].
  replace (XFER_RESULT_SUCCESS =? result) with false
    by (symmetry; apply Z.eqb_neq; congruence).
  cbn [negb].
  destruct (has_report_issue_cb app).
  - cbn [snd app_call with_usbd usbd log trace ep_status _chidd_instances
         usbd_edpt_release_on_complete set_ep_status].
    rewrite Z.eqb_refl.
    split; [reflexivity|].
    split; [intros _; split; reflexivity | discriminate].
  - destruct (ep =? ep_out p) eqn:He.
    + apply Z.eqb_eq in He. subst ep.
      unfold usbd_edpt_xfer, usbd_edpt_release_on_complete.
      cbn [usbd with_usbd ep_status set_ep_status trace]. rewrite Z.eqb_refl.
      cbn [busy edpt_idle claimed].
      destruct (dcd_edpt_xfer P _ _ _ _ _) eqn:Hd.
      * cbn [snd with_usbd usbd log trace ep_status set_ep_status _chidd_instances].
        rewrite Z.eqb_refl.
        split; [reflexivity|].
        split; [discriminate | intros _ _; split; reflexivity].
      * cbn [snd with_usbd usbd log trace ep_status set_ep_status _chidd_instances].
        split; [reflexivity|].
        split; [discriminate|]. intros _ Hp. rewrite Hp in Hd. discriminate.
    + cbn [snd with_usbd usbd trace ep_status _chidd_instances
           usbd_edpt_release_on_complete set_ep_status].
      rewrite Z.eqb_refl.
      split; [reflexivity|].
      split; [discriminate | intros _ _; split; reflexivity].
Qed.

Lemma chidd_xfer_cb_failure_witness :
  let st1 := snd (chidd_receive_report Examples.port_accept 0 0x5000 1
                    Examples.chidd_bound) in
  let st2 := snd (chidd_step Examples.chidd_app_min Examples.port_accept
                    (CallXferCb 0 0x01 XFER_RESULT_FAILED 0) st1) in
  trace (usbd st2) = trace (usbd st1) ++ [EvEdptXfer 0 0x01 (AppBuffer 0x5000) 1].
Proof.
  intros st1 st2.
  destruct (chidd_xfer_cb_failure Examples.chidd_app_min Examples.port_accept
              0x01 XFER_RESULT_FAILED 0 st1 0%nat
              {| rhport := 0; itf_num := 0; ep_in := 0x81; ep_out := 0x01;
                 transfer_in_buf := 0; transfer_out_buf := 0x5000;
                 transfer_out_size := 1; protocol_mode := 1; idle_rate := 0;
                 hid_descriptor := Some (tu_desc_next Examples.hid_desc_itf) |})
    as (_ & _ & Hn); [reflexivity | discriminate |].
  destruct Hn as [Ht _]; [reflexivity | intros ? ? ? ? ?; reflexivity |].
  exact Ht.
Defined.

(** X17. An Input report goes out once and is reported back with its own
    buffer.  On a bound interface whose IN endpoint is idle, with a
    controller that accepts, [chidd_send_report] with a buffer and a length
    enqueues one transfer of that buffer; until it completes the interface is
    not ready and every further [chidd_send_report] fails without changing
    anything.  The completion invokes [report_sent_complete] (if defined)
    with the buffer that was sent and the transferred count, and leaves the
    endpoint idle. *)
Theorem chidd_send_roundtrip (app : chidd_app_t) (P : port_t)
    (itf report len n : Z) (st : chidd_state) (i : nat) (p : chidd_instance_t) :
  port_accepts P ->
  get_instance_by_itf itf (_chidd_instances st) = Some (i, p) ->
  get_instance_by_ep (ep_in p) (_chidd_instances st) = Some (i, p) ->
  ep_status (usbd st) (ep_in p) = edpt_idle ->
  report <> 0 -> len <> 0 ->
  let st1 := snd (chidd_send_report P itf report len st) in
  let st2 := snd (chidd_step app P
                    (CallXferCb (rhport p) (ep_in p) XFER_RESULT_SUCCESS n) st1) in
  fst (chidd_send_report P itf report len st) = true /\
  trace (usbd st1) =
    trace (usbd st) ++ [EvEdptXfer (rhport p) (ep_in p) (AppBuffer report) len] /\
  (forall tud_ready, chidd_ready tud_ready itf st1 = false) /\
  (forall P' report' len', chidd_send_report P' itf report' len' st1 = (false, st1)) /\
  trace (usbd st2) =
    trace (usbd st1) ++
    (if has_report_sent_complete_cb app
     then [EvApp (chidd_report_sent_complete_cb (itf_num p) report n)]
     else []) /\
  ep_status (usbd st2) (ep_in p) = edpt_idle /\
  _chidd_instances st2 = _chidd_instances st1.
Proof.
  intros Hp Hg He Hidle Hr Hlen st1 st2.
  set (p1 := set_transfer_in_buf report p).
  set (u1 := log (EvEdptXfer (rhport p) (ep_in p) (AppBuffer report) len)
               (set_ep_status (ep_in p) {| busy := true; claimed := true |}
                  (set_ep_status (ep_in p) {| busy := false; claimed := true |}
                     (usbd st)))).
  assert (H1 : chidd_send_report P itf report len st =
               (true, with_usbd u1 (with_instance i p1 st))).
  { unfold chidd_send_report. rewrite Hg. unfold usbd_edpt_claim. rewrite Hidle.
    cbn [busy claimed edpt_idle negb andb].
    replace (report =? 0) with false by (symmetry; apply Z.eqb_neq; exact Hr).
    replace (len =? 0) with false by (symmetry; apply Z.eqb_neq; exact Hlen).
    cbn [negb andb]. unfold usbd_edpt_xfer.
    cbn [usbd with_usbd with_instance ep_status set_ep_status].
    rewrite Z.eqb_refl. cbn [busy claimed]. rewrite Hp. reflexivity. }
  assert (Hg1 : get_instance_by_itf itf
                  (_chidd_instances (with_usbd u1 (with_instance i p1 st))) = Some (i, p1)).
  { cbn [_chidd_instances with_usbd with_instance].
    apply (chidd_get_instance_by_itf_insert _ _ _ p p1 Hg); reflexivity. }
  assert (Hb1 : ep_status u1 (ep_in p) = {| busy := true; claimed := true |}).
  { unfold u1. cbn [log ep_status set_ep_status]. now rewrite Z.eqb_refl. }
  subst st2 st1. rewrite H1. cbn [fst snd].
  split; [reflexivity|]. split; [reflexivity|]. split; [|split].
  - intros t. unfold chidd_ready. rewrite Hg1. unfold usbd_edpt_busy.
    cbn [usbd with_usbd ep_in rhport p1 set_transfer_in_buf]. rewrite Hb1.
    cbn [busy negb]. apply andb_false_r.
  - intros P' r' l'. unfold chidd_send_report. rewrite Hg1. unfold usbd_edpt_claim.
    cbn [usbd with_usbd ep_in rhport p1 set_transfer_in_buf]. rewrite Hb1.
    reflexivity.
  - cbn [chidd_step]. unfold chidd_xfer_cb.
    cbn [_chidd_instances with_usbd with_instance usbd].
    rewrite (chidd_get_instance_by_ep_insert _ _ _ p p1 He eq_refl eq_refl).
    cbn [rhport p1 set_transfer_in_buf ep_in ep_out itf_num transfer_in_buf].
    rewrite !Z.eqb_refl. cbn [negb].
    change (XFER_RESULT_SUCCESS =? XFER_RESULT_SUCCESS) with true. cbn [negb].
    destruct (has_report_sent_complete_cb app);
      cbn [snd usbd with_usbd app_call log trace ep_status
           usbd_edpt_release_on_complete set_ep_status _chidd_instances];
      rewrite ?Z.eqb_refl, ?app_nil_r; repeat split.
Qed.

Lemma chidd_send_roundtrip_witness :
  let st1 := snd (chidd_send_report Examples.port_accept 0 0x4000 8 Examples.chidd_bound) in
  let st2 := snd (chidd_step Examples.chidd_app_full Examples.port_accept
                    (CallXferCb 0 0x81 XFER_RESULT_SUCCESS 8) st1) in
  chidd_ready true 0 Examples.chidd_bound = true /\
  chidd_ready true 0 st1 = false /\
  trace (usbd st2) = trace (usbd st1) ++ [EvApp (chidd_report_sent_complete_cb 0 0x4000 8)].
Proof.
  intros st1 st2.
  destruct (chidd_send_roundtrip Examples.chidd_app_full Examples.port_accept
              0 0x4000 8 8 Examples.chidd_bound 0%nat
              {| rhport := 0; itf_num := 0; ep_in := 0x81; ep_out := 0x01;
                 transfer_in_buf := 0; transfer_out_buf := 0;
                 transfer_out_size := 0; protocol_mode := 1; idle_rate := 0;
                 hid_descriptor := Some (tu_desc_next Examples.hid_desc_itf) |})
    as (_ & _ & Hrd & _ & Ht & _);
    [intros ? ? ? ? ?; reflexivity | reflexivity | reflexivity | reflexivity
    | discriminate | discriminate |].
  split; [reflexivity|]. split; [apply Hrd | exact Ht].
Defined.

(** X18. GET_REPORT ([bmRequestType = 0xA1], [bRequest = 0x01]) at the SETUP
    stage asks the application for the report and stores the returned
    pointer in [transfer_in_buf] before looking at it.  A [NULL] pointer or a
    length of 0 stalls the request; otherwise the data stage is started with
    that buffer and length.  Because the pointer replaces the one stored by
    [chidd_send_report], an IN transfer that completes afterwards is
    reported to the application with the GET_REPORT buffer. *)
Theorem chidd_get_report_replaces_buffer (app : chidd_app_t) (P : port_t) (rh n : Z)
    (request : tusb_control_request_t) (st : chidd_state)
    (i : nat) (p : chidd_instance_t) (buffer len : Z) :
  bmRequestType request = 0xA1 ->
  bRequest request = HID_REQ_CONTROL_GET_REPORT ->
  0 <= wIndex request < 256 ->
  get_instance_by_itf (wIndex request) (_chidd_instances st) = Some (i, p) ->
  rh = rhport p ->
  get_report_impl app st (itf_num p) (tu_u16_low (wValue request))
    (tu_u16_high (wValue request)) = (buffer, len) ->
  let ask := EvApp (chidd_get_report_cb (itf_num p) (tu_u16_low (wValue request))
                      (tu_u16_high (wValue request))) in
  let ok := negb (buffer =? 0) && (0 <? len) in
  let st1 := snd (chidd_control_xfer_cb app P rh CONTROL_STAGE_SETUP request st) in
  fst (chidd_control_xfer_cb app P rh CONTROL_STAGE_SETUP request st) = ok /\
  trace (usbd st1) =
    trace (usbd st) ++
    ask :: (if ok then [EvControlXfer rh request (AppBuffer buffer) len] else []) /\
  instance_field transfer_in_buf i st1 = Some buffer /\
  (get_instance_by_ep (ep_in p) (_chidd_instances st) = Some (i, p) ->
   let st2 := snd (chidd_step app P
                     (CallXferCb rh (ep_in p) XFER_RESULT_SUCCESS n) st1) in
   trace (usbd st2) =
     trace (usbd st1) ++
     (if has_report_sent_complete_cb app
      then [EvApp (chidd_report_sent_complete_cb (itf_num p) buffer n)]
      else [])).
Proof.
  intros Hbm Hb Hw Hg Hrh Hcb ask ok st1.
  destruct (chidd_lookup_lt _ _ _ _ Hg) as (Hl & Hlt).
  assert (Hrec : bmRequestType_bit_recipient request = TUSB_REQ_RCPT_INTERFACE)
    by (unfold bmRequestType_bit_recipient; rewrite Hbm; reflexivity).
  assert (Hty : bmRequestType_bit_type request = TUSB_REQ_TYPE_CLASS)
    by (unfold bmRequestType_bit_type; rewrite Hbm; reflexivity).
  assert (Hdir : bmRequestType_bit_direction request = 1)
    by (unfold bmRequestType_bit_direction; rewrite Hbm; reflexivity).
  set (p1 := set_transfer_in_buf buffer p).
  set (st0 := with_instance i p1
                (app_call (chidd_get_report_cb (itf_num p) (tu_u16_low (wValue request))
                             (tu_u16_high (wValue request))) st)).
  assert (H1 : chidd_control_xfer_cb app P rh CONTROL_STAGE_SETUP request st =
               if ok
               then (true, with_usbd (log (EvControlXfer rh request (AppBuffer buffer) len)
                                        (usbd st0)) st0)
               else (false, st0)).
  { rewrite (CHID_Properties.chidd_control_xfer_cb_class app P rh CONTROL_STAGE_SETUP
               request st i p Hrec Hty Hw Hg Hrh).
    unfold chidd_class_specific_request_handler. rewrite Hb, Hdir, Hcb.
    change (HID_REQ_CONTROL_GET_REPORT =? HID_REQ_CONTROL_GET_REPORT) with true.
    change (1 =? 1) with true.
    change (CONTROL_STAGE_SETUP =? CONTROL_STAGE_SETUP) with true.
    cbn [negb]. cbv zeta. fold p1. fold st0. fold ok. subst rh.
    destruct ok; reflexivity. }
  subst st1. rewrite H1.
  split; [destruct ok; reflexivity|].
  split; [destruct ok; cbn; rewrite <- ?app_assoc; reflexivity|].
  split; [destruct ok; unfold st0; chidd_field_insert Hlt|].
  intros He st2. subst st2.
  assert (He1 : get_instance_by_ep (ep_in p) (_chidd_instances st0) = Some (i, p1)).
  { unfold st0. cbn [_chidd_instances with_usbd with_instance app_call].
    apply (chidd_get_instance_by_ep_insert _ _ _ p p1 He); reflexivity. }
  assert (Hx : forall st', (exists u, st' = with_usbd u st0) ->
    trace (usbd (snd (chidd_step app P
                        (CallXferCb rh (ep_in p) XFER_RESULT_SUCCESS n) st'))) =
    trace (usbd st') ++
    (if has_report_sent_complete_cb app
     then [EvApp (chidd_report_sent_complete_cb (itf_num p) buffer n)]
     else [])).
  { intros st' [u ->]. cbn [chidd_step]. unfold chidd_xfer_cb.
    cbn [usbd with_usbd _chidd_instances]. rewrite He1.
    cbn [rhport p1 set_transfer_in_buf ep_in itf_num transfer_in_buf].
    rewrite Hrh, !Z.eqb_refl. cbn [negb].
    change (XFER_RESULT_SUCCESS =? XFER_RESULT_SUCCESS) with true. cbn [negb].
    destruct (has_report_sent_complete_cb app);
      cbn [snd usbd with_usbd app_call log trace usbd_edpt_release_on_complete
           set_ep_status];
      rewrite ?app_nil_r; reflexivity. }
  destruct ok; cbn [snd]; apply Hx.
  - eexists. reflexivity.
  - exists (usbd st0). destruct st0; reflexivity.
Qed.

Lemma chidd_get_report_replaces_buffer_witness :
  let rq := Examples.hid_class_request 1 HID_REQ_CONTROL_GET_REPORT 0x0100 in
  let st0 := snd (chidd_send_report Examples.port_accept 0 0x7000 8 Examples.chidd_bound) in
  let st1 := snd (chidd_control_xfer_cb Examples.chidd_app_full Examples.port_accept 0
                    CONTROL_STAGE_SETUP rq st0) in
  let st2 := snd (chidd_step Examples.chidd_app_full Examples.port_accept
                    (CallXferCb 0 0x81 XFER_RESULT_SUCCESS 8) st1) in
  instance_field transfer_in_buf 0 st0 = Some 0x7000 /\
  trace (usbd st2) = trace (usbd st1) ++ [EvApp (chidd_report_sent_complete_cb 0 0x4000 8)].
Proof.
  intros rq st0 st1 st2. split; [reflexivity|].
  destruct (chidd_get_report_replaces_buffer Examples.chidd_app_full Examples.port_accept
              0 8 rq st0 0%nat
              {| rhport := 0; itf_num := 0; ep_in := 0x81; ep_out := 0x01;
                 transfer_in_buf := 0x7000; transfer_out_buf := 0;
                 transfer_out_size := 0; protocol_mode := 1; idle_rate := 0;
                 hid_descriptor := Some (tu_desc_next Examples.hid_desc_itf) |}
              0x4000 8)
    as (_ & _ & _ & Hc);
    [reflexivity | reflexivity | cbn; lia | reflexivity | reflexivity | reflexivity |].
  apply Hc. reflexivity.
Defined.

Lemma chidd_open_cases (app : chidd_app_t) (P : port_t) (rh : Z) (desc_itf : list Z)
    (max_len : Z) (st : chidd_state) :
  let drv_len := (sizeof_tusb_desc_interface_t + sizeof_tusb_hid_descriptor_hid_t +
                  desc_itf !!! 4%nat * sizeof_tusb_desc_endpoint_t) mod 65536 in
  chidd_open app P rh desc_itf max_len st = (0, st) \/
  exists i p0 o e,
    get_free_instance (_chidd_instances st) = Some (i, p0) /\
    drv_len <= max_len /\
    desc_itf !!! 5%nat = TUSB_CLASS_HID /\
    tu_desc_type (tu_desc_next desc_itf) = HID_DESC_TYPE_HID /\
    exists ok,
      usbd_open_edpt_pair P (usbd st) rh (tu_desc_next (tu_desc_next desc_itf))
        (Z.to_nat (desc_itf !!! 4%nat)) TUSB_XFER_INTERRUPT (ep_out p0) (ep_in p0)
      = (ok, (o, e)) /\
      chidd_open app P rh desc_itf max_len st =
      let p1 := set_endpoints o e
                  (set_hid_descriptor (Some (tu_desc_next desc_itf)) p0) in
      if ok
      then
        let p2 := set_protocol_mode HID_PROTOCOL_REPORT
                    (set_binding rh (desc_itf !!! 2%nat) p1) in
        (drv_len,
         if negb (o =? 0) && has_out_endpoint_opened_cb app
         then app_call (chidd_out_endpoint_opened_cb (desc_itf !!! 2%nat))
                (with_instance i p2 st)
         else with_instance i p2 st)
      else (0, with_instance i p1 st).
Proof.
  intros drv_len. unfold chidd_open. fold drv_len.
  destruct (TUSB_CLASS_HID =? desc_itf !!! 5%nat) eqn:E5; [|left; reflexivity].
  cbn [negb].
  destruct (drv_len <=? max_len) eqn:El; [|left; reflexivity]. cbn [negb].
  destruct (get_free_instance (_chidd_instances st)) as [[i p0]|] eqn:Hf;
    [|left; reflexivity].
  destruct (HID_DESC_TYPE_HID =? tu_desc_type (tu_desc_next desc_itf)) eqn:Et;
    [|left; reflexivity]. cbn [negb].
  cbn [ep_out ep_in set_hid_descriptor].
  destruct (usbd_open_edpt_pair _ _ _ _ _ _ _ _) as [ok [o e]] eqn:Hp.
  right. exists i, p0, o, e.
  apply Z.eqb_eq in E5, Et. apply Z.leb_le in El.
  repeat (split; [auto; fail|]).
  exists ok. split; [exact Hp|].
  destruct ok; cbn [negb]; [|reflexivity].
  cbn [ep_out itf_num set_binding set_endpoints set_protocol_mode].
  destruct (negb (o =? 0) && has_out_endpoint_opened_cb app); reflexivity.
Qed.

(** X19. A successful [chidd_open] returns the length of the block,
    9 + 9 + 7 * [bNumEndpoints], which does not exceed [max_len].  In the
    first free slot it records the port, [bInterfaceNumber], Report protocol
    and the HID descriptor that follows the interface descriptor, and leaves
    the buffers and the idle rate alone.  Unlike the gamepad driver it
    enqueues no transfer: the only thing it does beyond the slot is to
    invoke [out_endpoint_opened] when the interface has an OUT endpoint and
    the application defines the callback. *)
Theorem chidd_open_binds (app : chidd_app_t) (P : port_t) (rh : Z) (desc_itf : list Z)
    (max_len : Z) (st : chidd_state) (n : Z) (st' : chidd_state) :
  chidd_open app P rh desc_itf max_len st = (n, st') ->
  n <> 0 ->
  exists i p0 p,
    get_free_instance (_chidd_instances st) = Some (i, p0) /\
    _chidd_instances st' = <[i := p]> (_chidd_instances st) /\
    n = (9 + 9 + desc_itf !!! 4%nat * 7) mod 65536 /\ n <= max_len /\
    rhport p = rh /\ itf_num p = desc_itf !!! 2%nat /\
    protocol_mode p = HID_PROTOCOL_REPORT /\
    hid_descriptor p = Some (tu_desc_next desc_itf) /\
    idle_rate p = idle_rate p0 /\ transfer_in_buf p = transfer_in_buf p0 /\
    transfer_out_buf p = transfer_out_buf p0 /\
    transfer_out_size p = transfer_out_size p0 /\
    ep_status (usbd st') = ep_status (usbd st) /\
    trace (usbd st') =
      trace (usbd st) ++
      (if negb (ep_out p =? 0) && has_out_endpoint_opened_cb app
       then [EvApp (chidd_out_endpoint_opened_cb (desc_itf !!! 2%nat))]
       else []).
Proof.
  intros H Hn.
  destruct (chidd_open_cases app P rh desc_itf max_len st)
    as [E|(i & p0 & o & e & Hf & Hl & _ & _ & ok & _ & E)];
    rewrite E in H; [inversion H; congruence|].
  cbv zeta in H. destruct ok; [|inversion H; congruence].
  inversion H; subst n st'. clear H.
  exists i, p0,
    (set_protocol_mode HID_PROTOCOL_REPORT
       (set_binding rh (desc_itf !!! 2%nat)
          (set_endpoints o e (set_hid_descriptor (Some (tu_desc_next desc_itf)) p0)))).
  split; [exact Hf|].
  cbn [ep_out set_binding set_endpoints set_protocol_mode set_hid_descriptor rhport
       itf_num protocol_mode hid_descriptor idle_rate transfer_in_buf
       transfer_out_buf transfer_out_size].
  destruct (negb (o =? 0) && has_out_endpoint_opened_cb app);
    cbn [_chidd_instances usbd with_usbd with_instance app_call log ep_status trace];
    rewrite ?app_nil_r; repeat split; auto.
Qed.

Lemma chidd_open_binds_witness :
  let r := chidd_open Examples.chidd_app_full Examples.port_accept 0
             Examples.hid_desc_itf 32 Examples.chidd_fresh in
  fst r = 32 /\
  trace (usbd (snd r)) = [EvApp (chidd_out_endpoint_opened_cb 0)] /\
  instance_field hid_descriptor 0 (snd r) =
    Some (Some (tu_desc_next Examples.hid_desc_itf)).
Proof.
  intros r.
  destruct (chidd_open_binds Examples.chidd_app_full Examples.port_accept 0
              Examples.hid_desc_itf 32 Examples.chidd_fresh (fst r) (snd r))
    as (i & p0 & p & Hf & Hi & Hn & _ & _ & _ & _ & Hd & _ & _ & _ & _ & _ & Ht);
    [reflexivity | discriminate |].
  inversion Hf; subst i p0.
  split; [reflexivity|]. split; [reflexivity|].
  unfold instance_field. rewrite Hi. cbn. rewrite Hd. reflexivity.
Defined.

(** X20. Whatever [chidd_open] returns, it touches no endpoint state, keeps
    the length of the instance array and can change only the first free
    slot: every other slot, and so every bound instance, is left exactly as
    it was.  It declines, returning 0 and changing nothing, when the
    interface class is not HID, when [max_len] is smaller than the block,
    when no instance is free, or when the descriptor after the interface
    descriptor is not a HID descriptor. *)
Theorem chidd_open_keeps_bound (app : chidd_app_t) (P : port_t) (rh : Z)
    (desc_itf : list Z) (max_len : Z) (st : chidd_state) :
  let st' := snd (chidd_open app P rh desc_itf max_len st) in
  length (_chidd_instances st') = length (_chidd_instances st) /\
  ep_status (usbd st') = ep_status (usbd st) /\
  (forall j,
      fst <$> get_free_instance (_chidd_instances st) <> Some j ->
      _chidd_instances st' !! j = _chidd_instances st !! j) /\
  (forall j p,
      _chidd_instances st !! j = Some p ->
      ep_in p <> 0 \/ ep_out p <> 0 ->
      _chidd_instances st' !! j = Some p) /\
  (desc_itf !!! 5%nat <> TUSB_CLASS_HID \/
   max_len < (9 + 9 + desc_itf !!! 4%nat * 7) mod 65536 \/
   get_free_instance (_chidd_instances st) = None \/
   tu_desc_type (tu_desc_next desc_itf) <> HID_DESC_TYPE_HID ->
   chidd_open app P rh desc_itf max_len st = (0, st)).
Proof.
  intros st'. subst st'.
  assert (Hother : forall j,
    fst <$> get_free_instance (_chidd_instances st) <> Some j ->
    _chidd_instances (snd (chidd_open app P rh desc_itf max_len st)) !! j =
    _chidd_instances st !! j).
  { intros j Hj.
    destruct (chidd_open_cases app P rh desc_itf max_len st)
      as [E|(i & p0 & o & e & Hf & _ & _ & _ & ok & _ & E)];
      rewrite E; [reflexivity|].
    assert (Hne : i <> j) by (intros ->; apply Hj; rewrite Hf; reflexivity).
    cbv zeta.
    destruct ok; [destruct (negb (o =? 0) && has_out_endpoint_opened_cb app)|];
      cbn [snd _chidd_instances with_usbd with_instance app_call];
      now rewrite list_lookup_insert_ne. }
  split; [|split; [|split; [exact Hother|split]]].
  - destruct (chidd_open_cases app P rh desc_itf max_len st)
      as [E|(i & p0 & o & e & _ & _ & _ & _ & ok & _ & E)];
      rewrite E; [reflexivity|]. cbv zeta.
    destruct ok; [destruct (negb (o =? 0) && has_out_endpoint_opened_cb app)|];
      cbn [snd _chidd_instances with_usbd with_instance app_call];
      apply length_insert.
  - destruct (chidd_open_cases app P rh desc_itf max_len st)
      as [E|(i & p0 & o & e & _ & _ & _ & _ & ok & _ & E)];
      rewrite E; [reflexivity|]. cbv zeta.
    destruct ok; [destruct (negb (o =? 0) && has_out_endpoint_opened_cb app)|];
      reflexivity.
  - intros j p Hj Hb. rewrite Hother; [exact Hj|].
    destruct (get_free_instance (_chidd_instances st)) as [[i p0]|] eqn:Hf;
      [|discriminate].
    cbn. intros Heq. inversion Heq; subst i.
    unfold get_free_instance in Hf. apply list_find_Some in Hf.
    destruct Hf as (Hl & [H1 H2] & _). rewrite Hl in Hj. inversion Hj; subst.
    destruct Hb; congruence.
  - intros H.
    destruct (chidd_open_cases app P rh desc_itf max_len st)
      as [E|(i & p0 & o & e & Hf & Hl & H5 & Ht & _)]; [exact E|].
    exfalso.
    change (sizeof_tusb_desc_interface_t + sizeof_tusb_hid_descriptor_hid_t +
            desc_itf !!! 4%nat * sizeof_tusb_desc_endpoint_t)
      with (9 + 9 + desc_itf !!! 4%nat * 7) in Hl.
    destruct H as [H|[H|[H|H]]]; try contradiction; try lia.
    rewrite Hf in H. discriminate.
Qed.

Lemma chidd_open_keeps_bound_witness :
  _chidd_instances
    (snd (chidd_open Examples.chidd_app_full Examples.port_accept 0
            Examples.hid_desc_itf 32 Examples.chidd_bound)) !! 0%nat =
  _chidd_instances Examples.chidd_bound !! 0%nat /\
  chidd_open Examples.chidd_app_full Examples.port_accept 0
    Examples.x360_desc_itf 64 Examples.chidd_fresh = (0, Examples.chidd_fresh) /\
  chidd_open Examples.chidd_app_full Examples.port_accept 0
    Examples.hid_desc_itf 31 Examples.chidd_fresh = (0, Examples.chidd_fresh).
Proof.
  split; [|split].
  - destruct (chidd_open_keeps_bound Examples.chidd_app_full Examples.port_accept 0
                Examples.hid_desc_itf 32 Examples.chidd_bound) as (_ & _ & _ & Hb & _).
    rewrite (Hb 0%nat
               {| rhport := 0; itf_num := 0; ep_in := 0x81; ep_out := 0x01;
                  transfer_in_buf := 0; transfer_out_buf := 0;
                  transfer_out_size := 0; protocol_mode := 1; idle_rate := 0;
                  hid_descriptor := Some (tu_desc_next Examples.hid_desc_itf) |});
      [reflexivity | reflexivity | left; discriminate].
  - destruct (chidd_open_keeps_bound Examples.chidd_app_full Examples.port_accept 0
                Examples.x360_desc_itf 64 Examples.chidd_fresh) as (_ & _ & _ & _ & Hd).
    apply Hd. left. vm_compute. discriminate.
  - destruct (chidd_open_keeps_bound Examples.chidd_app_full Examples.port_accept 0
                Examples.hid_desc_itf 31 Examples.chidd_fresh) as (_ & _ & _ & _ & Hd).
    apply Hd. right; left. vm_compute. reflexivity.
Defined.

Lemma chidd_control_xfer_cb_standard (app : chidd_app_t) (P : port_t) (rh stage : Z)
    (request : tusb_control_request_t) (st : chidd_state)
    (i : nat) (p : chidd_instance_t) :
  bmRequestType_bit_recipient request = TUSB_REQ_RCPT_INTERFACE ->
  bmRequestType_bit_type request = TUSB_REQ_TYPE_STANDARD ->
  0 <= wIndex request < 256 ->
  get_instance_by_itf (wIndex request) (_chidd_instances st) = Some (i, p) ->
  rh = rhport p ->
  chidd_control_xfer_cb app P rh stage request st =
  chidd_standard_request_handler app P (i, p) stage request st.
Proof.
  intros Hr Ht Hw Hg Hrh. unfold chidd_control_xfer_cb.
  destruct (CHID_Properties.chidd_get_instance_by_itf_Some _ _ _ _ Hg) as (_ & Hi & _).
  rewrite Hr, Ht, (CHID_Properties.land_byte _ Hw), Hg, Hrh, <- Hi, !Z.eqb_refl.
  reflexivity.
Qed.

(** X21. The HID descriptor that [chidd_open] found behind the interface
    descriptor is what GET_DESCRIPTOR(HID) returns later: a standard
    interface request ([bmRequestType = 0x81], [bRequest = 6], high byte of
    [wValue] 0x21) for the interface just opened starts a data stage with
    the stored descriptor, as many bytes as its own [bLength] says, and
    invokes no callback. *)
Theorem chidd_hid_descriptor_after_open (app : chidd_app_t) (P : port_t) (rh : Z)
    (desc_itf : list Z) (max_len : Z) (st : chidd_state) (n : Z) (st1 : chidd_state)
    (request : tusb_control_request_t) (i : nat) (p : chidd_instance_t) :
  chidd_open app P rh desc_itf max_len st = (n, st1) ->
  n <> 0 ->
  fst <$> get_free_instance (_chidd_instances st) = Some i ->
  get_instance_by_itf (wIndex request) (_chidd_instances st1) = Some (i, p) ->
  0 <= wIndex request < 256 ->
  bmRequestType request = 0x81 ->
  bRequest request = TUSB_REQ_GET_DESCRIPTOR ->
  tu_u16_high (wValue request) = HID_DESC_TYPE_HID ->
  let hid := tu_desc_next desc_itf in
  let res := chidd_control_xfer_cb app P rh CONTROL_STAGE_SETUP request st1 in
  fst res = control_xfer_start P (usbd st1) rh request
              (DriverBuffer (HidDescriptor i)) (tu_desc_len hid) /\
  trace (usbd (snd res)) =
    trace (usbd st1) ++
    [EvControlXfer rh request (DriverBuffer (HidDescriptor i)) (tu_desc_len hid)] /\
  chidd_buf_bytes (snd res) (HidDescriptor i) = hid.
Proof.
  intros Ho Hn Hfree Hg Hw Hbm Hb Hv hid res.
  destruct (chidd_lookup_lt _ _ _ _ Hg) as (Hl & Hlt).
  assert (Hp : rhport p = rh /\ hid_descriptor p = Some hid).
  { destruct (chidd_open_cases app P rh desc_itf max_len st)
      as [E|(i' & p0 & o & e & Hf & _ & _ & _ & ok & _ & E)];
      rewrite E in Ho; [inversion Ho; congruence|].
    cbv zeta in Ho. destruct ok; [|inversion Ho; congruence].
    rewrite Hf in Hfree. cbn in Hfree. inversion Hfree; subst i'.
    assert (Hi : (i < length (_chidd_instances st))%nat).
    { unfold get_free_instance in Hf. apply list_find_Some in Hf.
      destruct Hf as (Hl0 & _). eapply lookup_lt_Some; eauto. }
    inversion Ho as [[Hn' Hst]]. rewrite <- Hst in Hl.
    destruct (negb (o =? 0) && has_out_endpoint_opened_cb app);
      cbn [_chidd_instances with_usbd with_instance app_call] in Hl;
      rewrite list_lookup_insert_eq in Hl by exact Hi;
      inversion Hl; split; reflexivity. }
  destruct Hp as [Hrh Hd].
  assert (Hrec : bmRequestType_bit_recipient request = TUSB_REQ_RCPT_INTERFACE)
    by (unfold bmRequestType_bit_recipient; rewrite Hbm; reflexivity).
  assert (Hty : bmRequestType_bit_type request = TUSB_REQ_TYPE_STANDARD)
    by (unfold bmRequestType_bit_type; rewrite Hbm; reflexivity).
  subst res.
  rewrite (chidd_control_xfer_cb_standard app P rh CONTROL_STAGE_SETUP request st1 i p
             Hrec Hty Hw Hg (eq_sym Hrh)).
  unfold chidd_standard_request_handler. rewrite Hb, Hv, Hd, Hrh.
  change (TUSB_REQ_GET_DESCRIPTOR =? TUSB_REQ_GET_DESCRIPTOR) with true.
  change (HID_DESC_TYPE_HID =? HID_DESC_TYPE_HID) with true.
  change (CONTROL_STAGE_SETUP =? CONTROL_STAGE_SETUP) with true.
  cbn [negb]. unfold tud_control_xfer.
  cbn [fst snd usbd with_usbd log trace chidd_buf_bytes _chidd_instances].
  rewrite Hl, Hd. repeat split.
Qed.

Lemma chidd_hid_descriptor_after_open_witness :
  let rq := {| bmRequestType := 0x81; bRequest := 6; wValue := 0x2100; wIndex := 0;
               wLength := 9 |} in
  let res := chidd_control_xfer_cb Examples.chidd_app_min Examples.port_accept 0
               CONTROL_STAGE_SETUP rq Examples.chidd_bound in
  trace (usbd (snd res)) = [EvControlXfer 0 rq (DriverBuffer (HidDescriptor 0)) 9] /\
  take 9 (chidd_buf_bytes (snd res) (HidDescriptor 0)) =
    [9; 0x21; 0x11; 0x01; 0; 1; 0x22; 0x45; 0].
Proof.
  intros rq res.
  destruct (chidd_hid_descriptor_after_open Examples.chidd_app_min Examples.port_accept 0
              Examples.hid_desc_itf 32 Examples.chidd_fresh 32 Examples.chidd_bound
              rq 0%nat
              {| rhport := 0; itf_num := 0; ep_in := 0x81; ep_out := 0x01;
                 transfer_in_buf := 0; transfer_out_buf := 0;
                 transfer_out_size := 0; protocol_mode := 1; idle_rate := 0;
                 hid_descriptor := Some (tu_desc_next Examples.hid_desc_itf) |})
    as (_ & Ht & Hb);
    [reflexivity | discriminate | reflexivity | reflexivity | cbn; lia | reflexivity
    | reflexivity | reflexivity |].
  fold res in Ht, Hb. rewrite Ht, Hb. split; reflexivity.
Defined.

(** X22. SET_REPORT ([bmRequestType = 0x21], [bRequest = 0x09]) over the
    control endpoint.  At the SETUP stage the driver asks the application
    for a buffer, stores it with its size in the instance and starts the
    data stage into it; at the ACK stage it invokes
    [report_received_complete] (if defined) with the report ID and type of
    [wValue], the buffer obtained at SETUP and [wLength].  The ACK stage
    changes no instance. *)
Theorem chidd_set_report_roundtrip (app : chidd_app_t) (P : port_t) (rh : Z)
    (request : tusb_control_request_t) (st : chidd_state)
    (i : nat) (p : chidd_instance_t)
    (cb : chidd_state -> Z -> Z -> Z -> Z * option Z) (buffer size : Z) :
  bmRequestType request = 0x21 ->
  bRequest request = HID_REQ_CONTROL_SET_REPORT ->
  0 <= wIndex request < 256 ->
  get_instance_by_itf (wIndex request) (_chidd_instances st) = Some (i, p) ->
  rh = rhport p ->
  set_report_impl app = Some cb ->
  cb st (itf_num p) (tu_u16_low (wValue request)) (tu_u16_high (wValue request)) =
    (buffer, Some size) ->
  buffer <> 0 -> 0 < size ->
  let id := tu_u16_low (wValue request) in
  let type := tu_u16_high (wValue request) in
  let st1 := snd (chidd_control_xfer_cb app P rh CONTROL_STAGE_SETUP request st) in
  let st2 := snd (chidd_control_xfer_cb app P rh CONTROL_STAGE_ACK request st1) in
  fst (chidd_control_xfer_cb app P rh CONTROL_STAGE_SETUP request st) = true /\
  trace (usbd st1) =
    trace (usbd st) ++
    [EvApp (chidd_set_report_cb (itf_num p) id type);
     EvControlXfer rh request (AppBuffer buffer) size] /\
  instance_field transfer_out_buf i st1 = Some buffer /\
  instance_field transfer_out_size i st1 = Some size /\
  fst (chidd_control_xfer_cb app P rh CONTROL_STAGE_ACK request st1) = true /\
  trace (usbd st2) =
    trace (usbd st1) ++
    (if has_report_received_complete_cb app
     then [EvApp (chidd_report_received_complete_cb (itf_num p) id type buffer
                    (wLength request))]
     else []) /\
  _chidd_instances st2 = _chidd_instances st1.
Proof.
  intros Hbm Hb Hw Hg Hrh Hcb Hret Hbuf Hsz id type st1 st2.
  destruct (chidd_lookup_lt _ _ _ _ Hg) as (Hl & Hlt).
  assert (Hrec : bmRequestType_bit_recipient request = TUSB_REQ_RCPT_INTERFACE)
    by (unfold bmRequestType_bit_recipient; rewrite Hbm; reflexivity).
  assert (Hty : bmRequestType_bit_type request = TUSB_REQ_TYPE_CLASS)
    by (unfold bmRequestType_bit_type; rewrite Hbm; reflexivity).
  assert (Hdir : bmRequestType_bit_direction request = 0)
    by (unfold bmRequestType_bit_direction; rewrite Hbm; reflexivity).
  set (p1 := set_transfer_out buffer size p).
  set (st0 := with_instance i p1 (app_call (chidd_set_report_cb (itf_num p) id type) st)).
  assert (H1 : chidd_control_xfer_cb app P rh CONTROL_STAGE_SETUP request st =
               (true, with_usbd (log (EvControlXfer rh request (AppBuffer buffer) size)
                                   (usbd st0)) st0)).
  { rewrite (CHID_Properties.chidd_control_xfer_cb_class app P rh CONTROL_STAGE_SETUP
               request st i p Hrec Hty Hw Hg Hrh).
    unfold chidd_class_specific_request_handler. rewrite Hb, Hdir, Hcb, Hret.
    change (HID_REQ_CONTROL_SET_REPORT =? HID_REQ_CONTROL_GET_REPORT) with false.
    change (HID_REQ_CONTROL_SET_REPORT =? HID_REQ_CONTROL_SET_REPORT) with true.
    change (0 =? 0) with true.
    change (CONTROL_STAGE_SETUP =? CONTROL_STAGE_SETUP) with true.
    change (default (transfer_out_size p) (Some size)) with size.
    cbn [negb]. cbv zeta.
    replace (buffer =? 0) with false by (symmetry; apply Z.eqb_neq; exact Hbuf).
    replace (0 <? size) with true by (symmetry; apply Z.ltb_lt; exact Hsz).
    cbn [negb andb]. subst rh. reflexivity. }
  assert (Hg1 : get_instance_by_itf (wIndex request) (_chidd_instances st1) = Some (i, p1)).
  { subst st1. rewrite H1. unfold st0.
    cbn [snd _chidd_instances with_usbd with_instance app_call].
    apply (chidd_get_instance_by_itf_insert _ _ _ p p1 Hg); reflexivity. }
  assert (H2 : chidd_control_xfer_cb app P rh CONTROL_STAGE_ACK request st1 =
               (true,
                if has_report_received_complete_cb app
                then app_call (chidd_report_received_complete_cb (itf_num p) id type
                                 buffer (wLength request)) st1
                else st1)).
  { rewrite (CHID_Properties.chidd_control_xfer_cb_class app P rh CONTROL_STAGE_ACK
               request st1 i p1 Hrec Hty Hw Hg1 Hrh).
    unfold chidd_class_specific_request_handler. rewrite Hb, Hdir.
    change (HID_REQ_CONTROL_SET_REPORT =? HID_REQ_CONTROL_GET_REPORT) with false.
    change (HID_REQ_CONTROL_SET_REPORT =? HID_REQ_CONTROL_SET_REPORT) with true.
    change (0 =? 0) with true.
    change (CONTROL_STAGE_SETUP =? CONTROL_STAGE_ACK) with false.
    change (CONTROL_STAGE_ACK =? CONTROL_STAGE_ACK) with true.
    cbn [negb]. destruct (has_report_received_complete_cb app); reflexivity. }
  subst st2. rewrite H2. subst st1. rewrite H1. cbn [fst snd].
  split; [reflexivity|].
  split; [unfold st0; cbn; rewrite <- app_assoc; reflexivity|].
  split; [unfold st0; chidd_field_insert Hlt|].
  split; [unfold st0; chidd_field_insert Hlt|].
  split; [reflexivity|].
  destruct (has_report_received_complete_cb app);
    cbn [usbd with_usbd app_call log trace _chidd_instances];
    rewrite ?app_nil_r; split; reflexivity.
Qed.

Lemma chidd_set_report_roundtrip_witness :
  let rq := Examples.hid_class_request 0 HID_REQ_CONTROL_SET_REPORT 0x0200 in
  let st1 := snd (chidd_control_xfer_cb Examples.chidd_app_full Examples.port_accept 0
                    CONTROL_STAGE_SETUP rq Examples.chidd_bound) in
  let st2 := snd (chidd_control_xfer_cb Examples.chidd_app_full Examples.port_accept 0
                    CONTROL_STAGE_ACK rq st1) in
  trace (usbd st2) =
    trace (usbd st1) ++ [EvApp (chidd_report_received_complete_cb 0 0 2 0x5000 1)].
Proof.
  intros rq st1 st2.
  destruct (chidd_set_report_roundtrip Examples.chidd_app_full Examples.port_accept 0
              rq Examples.chidd_bound 0%nat
              {| rhport := 0; itf_num := 0; ep_in := 0x81; ep_out := 0x01;
                 transfer_in_buf := 0; transfer_out_buf := 0;
                 transfer_out_size := 0; protocol_mode := 1; idle_rate := 0;
                 hid_descriptor := Some (tu_desc_next Examples.hid_desc_itf) |}
              (fun _ _ _ _ => (0x5000, Some 1)) 0x5000 1)
    as (_ & _ & _ & _ & _ & Ht & _);
    [reflexivity | reflexivity | cbn; lia | reflexivity | reflexivity | reflexivity
    | reflexivity | discriminate | lia |].
  exact Ht.
Defined.

(** X23. The idle rate round trip.  After SET_IDLE for all reports (low
    byte of [wValue] 0), GET_IDLE for all reports ([bmRequestType = 0xA1],
    [bRequest = 0x02], low byte of [wValue] 0) is answered by the driver
    itself with one byte, the duration that SET_IDLE carried, without asking
    the application and without changing an instance.  GET_IDLE for one
    report ID is stalled when the application has no [get_idle] callback. *)
Theorem chidd_idle_roundtrip (app : chidd_app_t) (P : port_t) (rh : Z)
    (set_request get_request : tusb_control_request_t) (st : chidd_state)
    (i : nat) (p : chidd_instance_t) :
  bmRequestType set_request = 0x21 ->
  bRequest set_request = HID_REQ_CONTROL_SET_IDLE ->
  tu_u16_low (wValue set_request) = 0 ->
  bmRequestType get_request = 0xA1 ->
  bRequest get_request = HID_REQ_CONTROL_GET_IDLE ->
  wIndex get_request = wIndex set_request ->
  0 <= wIndex set_request < 256 ->
  get_instance_by_itf (wIndex set_request) (_chidd_instances st) = Some (i, p) ->
  rh = rhport p ->
  let st1 := snd (chidd_control_xfer_cb app P rh CONTROL_STAGE_SETUP set_request st) in
  let res := chidd_control_xfer_cb app P rh CONTROL_STAGE_SETUP get_request st1 in
  (tu_u16_low (wValue get_request) = 0 ->
   fst res = true /\
   trace (usbd (snd res)) =
     trace (usbd st1) ++ [EvControlXfer rh get_request (DriverBuffer (IdleRate i)) 1] /\
   chidd_buf_bytes (snd res) (IdleRate i) = [tu_u16_high (wValue set_request)] /\
   _chidd_instances (snd res) = _chidd_instances st1) /\
  (tu_u16_low (wValue get_request) <> 0 -> get_idle_impl app = None ->
   res = (false, st1)).
Proof.
  intros Hbm Hb Hid Hbm' Hb' Hwi Hw Hg Hrh st1 res.
  destruct (chidd_lookup_lt _ _ _ _ Hg) as (Hl & Hlt).
  assert (Hrec : bmRequestType_bit_recipient set_request = TUSB_REQ_RCPT_INTERFACE)
    by (unfold bmRequestType_bit_recipient; rewrite Hbm; reflexivity).
  assert (Hty : bmRequestType_bit_type set_request = TUSB_REQ_TYPE_CLASS)
    by (unfold bmRequestType_bit_type; rewrite Hbm; reflexivity).
  assert (Hdir : bmRequestType_bit_direction set_request = 0)
    by (unfold bmRequestType_bit_direction; rewrite Hbm; reflexivity).
  assert (Hrec' : bmRequestType_bit_recipient get_request = TUSB_REQ_RCPT_INTERFACE)
    by (unfold bmRequestType_bit_recipient; rewrite Hbm'; reflexivity).
  assert (Hty' : bmRequestType_bit_type get_request = TUSB_REQ_TYPE_CLASS)
    by (unfold bmRequestType_bit_type; rewrite Hbm'; reflexivity).
  assert (Hdir' : bmRequestType_bit_direction get_request = 1)
    by (unfold bmRequestType_bit_direction; rewrite Hbm'; reflexivity).
  set (p1 := set_idle_rate (tu_u16_high (wValue set_request)) p).
  assert (H1 : exists u, st1 = with_usbd u (with_instance i p1 st)).
  { subst st1.
    rewrite (CHID_Properties.chidd_control_xfer_cb_class app P rh CONTROL_STAGE_SETUP
               set_request st i p Hrec Hty Hw Hg Hrh).
    unfold chidd_class_specific_request_handler. rewrite Hb, Hdir, Hid.
    change (HID_REQ_CONTROL_SET_IDLE =? HID_REQ_CONTROL_GET_REPORT) with false.
    change (HID_REQ_CONTROL_SET_IDLE =? HID_REQ_CONTROL_SET_REPORT) with false.
    change (HID_REQ_CONTROL_SET_IDLE =? HID_REQ_CONTROL_GET_IDLE) with false.
    change (HID_REQ_CONTROL_SET_IDLE =? HID_REQ_CONTROL_SET_IDLE) with true.
    change (0 =? 0) with true.
    change (CONTROL_STAGE_SETUP =? CONTROL_STAGE_SETUP) with true.
    cbn [negb]. cbv zeta. fold p1.
    destruct (set_idle_impl app); cbn [snd]; eexists; reflexivity. }
  destruct H1 as [u H1].
  assert (Hg1 : get_instance_by_itf (wIndex get_request) (_chidd_instances st1)
                = Some (i, p1)).
  { rewrite H1, Hwi. cbn [_chidd_instances with_usbd with_instance].
    apply (chidd_get_instance_by_itf_insert _ _ _ p p1 Hg); reflexivity. }
  assert (Hw' : 0 <= wIndex get_request < 256) by (rewrite Hwi; exact Hw).
  assert (Hl1 : _chidd_instances st1 !! i = Some p1).
  { rewrite H1. cbn [_chidd_instances with_usbd with_instance].
    apply list_lookup_insert_eq. exact Hlt. }
  subst res.
  rewrite (CHID_Properties.chidd_control_xfer_cb_class app P rh CONTROL_STAGE_SETUP
             get_request st1 i p1 Hrec' Hty' Hw' Hg1 Hrh).
  unfold chidd_class_specific_request_handler. rewrite Hb', Hdir'.
  change (HID_REQ_CONTROL_GET_IDLE =? HID_REQ_CONTROL_GET_REPORT) with false.
  change (HID_REQ_CONTROL_GET_IDLE =? HID_REQ_CONTROL_SET_REPORT) with false.
  change (HID_REQ_CONTROL_GET_IDLE =? HID_REQ_CONTROL_GET_IDLE) with true.
  change (1 =? 1) with true.
  change (CONTROL_STAGE_SETUP =? CONTROL_STAGE_SETUP) with true.
  cbn [negb]. cbv zeta.
  split.
  - intros Hid'. rewrite Hid'. change (0 =? 0) with true.
    unfold tud_control_xfer.
    cbn [fst snd usbd with_usbd log trace chidd_buf_bytes _chidd_instances rhport p1
         set_idle_rate].
    rewrite Hl1, Hrh. repeat split.
  - intros Hid' Hnone.
    replace (0 =? tu_u16_low (wValue get_request)) with false
      by (symmetry; apply Z.eqb_neq; congruence).
    rewrite Hnone. reflexivity.
Qed.

Lemma chidd_idle_roundtrip_witness :
  let set_rq := Examples.hid_class_request 0 HID_REQ_CONTROL_SET_IDLE 0x7D00 in
  let get_rq := Examples.hid_class_request 1 HID_REQ_CONTROL_GET_IDLE 0 in
  let st1 := snd (chidd_control_xfer_cb Examples.chidd_app_min Examples.port_accept 0
                    CONTROL_STAGE_SETUP set_rq Examples.chidd_bound) in
  chidd_buf_bytes
    (snd (chidd_control_xfer_cb Examples.chidd_app_min Examples.port_accept 0
            CONTROL_STAGE_SETUP get_rq st1)) (IdleRate 0) = [0x7D].
Proof.
  intros set_rq get_rq st1.
  destruct (chidd_idle_roundtrip Examples.chidd_app_min Examples.port_accept 0
              set_rq get_rq Examples.chidd_bound 0%nat
              {| rhport := 0; itf_num := 0; ep_in := 0x81; ep_out := 0x01;
                 transfer_in_buf := 0; transfer_out_buf := 0;
                 transfer_out_size := 0; protocol_mode := 1; idle_rate := 0;
                 hid_descriptor := Some (tu_desc_next Examples.hid_desc_itf) |})
    as (H0 & _);
    [reflexivity | reflexivity | reflexivity | reflexivity | reflexivity | reflexivity
    | cbn; lia | reflexivity | reflexivity |].
  destruct H0 as (_ & _ & Hb & _); [reflexivity|]. exact Hb.
Defined.

Ltac chidd_trace_leaf :=
  cbn [fst snd usbd with_usbd with_instance app_call log trace];
  split;
  [ first
      [ exists []; split; [symmetry; apply app_nil_r | reflexivity]
      | eexists; split; [rewrite <- ?app_assoc; reflexivity | reflexivity] ]
  | intros Hs1 Hs2; first
      [ reflexivity
      | exfalso;
        repeat match goal with
               | H : negb _ = false |- _ => apply negb_false_iff in H
               | H : (_ =? _) = true |- _ => apply Z.eqb_eq in H
               end;
        congruence ] ].

Lemma chidd_control_binding (app : chidd_app_t) (P : port_t) (rh stage : Z)
    (request : tusb_control_request_t) (st : chidd_state) :
  Forall2 same_binding (_chidd_instances st)
    (_chidd_instances (snd (chidd_control_xfer_cb app P rh stage request st))).
Proof.
  destruct (CHID_Properties.chidd_control_effect app P rh stage request st) as [_ Hs].
  eapply CHID_Properties.slot_update_Forall2; [| |exact Hs].
  - apply CHID_Properties.same_binding_refl.
  - intros x y Hxy _. exact Hxy.
Qed.

(** X24. Whatever the request and the stage, [chidd_control_xfer_cb]
    touches no endpoint state, keeps the port, interface number and
    endpoints of every instance, and enqueues no transfer on an endpoint:
    what it adds to the trace are callbacks, control data stages and status
    packets only.  At a stage other than SETUP and ACK it changes nothing at
    all. *)
Theorem chidd_control_xfer_cb_frame (app : chidd_app_t) (P : port_t) (rh stage : Z)
    (request : tusb_control_request_t) (st : chidd_state) :
  let st' := snd (chidd_control_xfer_cb app P rh stage request st) in
  ep_status (usbd st') = ep_status (usbd st) /\
  Forall2 same_binding (_chidd_instances st) (_chidd_instances st') /\
  (exists evs,
      trace (usbd st') = trace (usbd st) ++ evs /\
      forallb (fun e => negb (is_edpt_xfer e)) evs = true) /\
  (stage <> CONTROL_STAGE_SETUP -> stage <> CONTROL_STAGE_ACK -> st' = st).
Proof.
  intros st'. subst st'.
  split; [apply (CHID_Properties.chidd_control_effect app P rh stage request st)|].
  split; [apply chidd_control_binding|].
  unfold chidd_control_xfer_cb.
  destruct (negb _); [chidd_trace_leaf|].
  destruct (get_instance_by_itf _ _) as [[i p]|] eqn:Hg; [|chidd_trace_leaf].
  destruct (negb _); [chidd_trace_leaf|].
  destruct (negb _); [chidd_trace_leaf|].
  destruct (bmRequestType_bit_type request =? TUSB_REQ_TYPE_STANDARD).
  { unfold chidd_standard_request_handler, tud_control_xfer.
    repeat CHID_Properties.break_if; chidd_trace_leaf. }
  destruct (bmRequestType_bit_type request =? TUSB_REQ_TYPE_CLASS);
    [|chidd_trace_leaf].
  unfold chidd_class_specific_request_handler, tud_control_xfer, tud_control_status.
  destruct (bRequest request =? HID_REQ_CONTROL_GET_REPORT).
  { repeat CHID_Properties.break_if; chidd_trace_leaf. }
  destruct (bRequest request =? HID_REQ_CONTROL_SET_REPORT).
  { repeat CHID_Properties.break_if; chidd_trace_leaf. }
  destruct (bRequest request =? HID_REQ_CONTROL_GET_IDLE).
  { repeat CHID_Properties.break_if; chidd_trace_leaf. }
  destruct (bRequest request =? HID_REQ_CONTROL_SET_IDLE).
  { repeat CHID_Properties.break_if; chidd_trace_leaf. }
  destruct (bRequest request =? HID_REQ_CONTROL_GET_PROTOCOL).
  { repeat CHID_Properties.break_if; chidd_trace_leaf. }
  destruct (bRequest request =? HID_REQ_CONTROL_SET_PROTOCOL).
  { repeat CHID_Properties.break_if; chidd_trace_leaf. }
  chidd_trace_leaf.
Qed.

Lemma chidd_get_instance_by_itf_reset (rh0 itf : Z) (st : chidd_state) :
  get_instance_by_itf itf (_chidd_instances (chidd_reset rh0 st)) = None.
Proof.
  unfold get_instance_by_itf, chidd_reset. cbn [_chidd_instances].
  apply list_find_None. apply Forall_fmap, Forall_forall.
  intros p _ [_ [H|H]]; apply H; reflexivity.
Qed.

(** X25. After [chidd_reset] (and so after [chidd_init]) no interface
    number resolves to an instance: the array keeps its length, the stack is
    untouched, and for every interface number [chidd_ready] is false,
    [chidd_send_report], [chidd_receive_report] and [chidd_get_protocol]
    fail and a control request is left unhandled, each without changing
    anything. *)
Theorem chidd_reset_unbinds (app : chidd_app_t) (P : port_t) (rh0 : Z)
    (st : chidd_state) :
  let st0 := chidd_reset rh0 st in
  chidd_init st = chidd_reset rh0 st /\
  length (_chidd_instances st0) = length (_chidd_instances st) /\
  usbd st0 = usbd st /\
  forall itf,
    get_instance_by_itf itf (_chidd_instances st0) = None /\
    (forall tud_ready, chidd_ready tud_ready itf st0 = false) /\
    (forall report len, chidd_send_report P itf report len st0 = (false, st0)) /\
    (forall report len, chidd_receive_report P itf report len st0 = (false, st0)) /\
    (forall mode, chidd_get_protocol itf mode st0 = (false, None)) /\
    (forall rh stage request,
        Z.land (wIndex request) 0xFF = itf ->
        chidd_control_xfer_cb app P rh stage request st0 = (false, st0)).
Proof.
  intros st0. split; [reflexivity|].
  split; [unfold st0, chidd_reset; cbn [_chidd_instances]; apply length_fmap|].
  split; [reflexivity|].
  intros itf.
  pose proof (chidd_get_instance_by_itf_reset rh0 itf st) as Hn. fold st0 in Hn.
  split; [exact Hn|]. split; [|split; [|split; [|split]]].
  - intros t. unfold chidd_ready. now rewrite Hn.
  - intros r l. unfold chidd_send_report. now rewrite Hn.
  - intros r l. unfold chidd_receive_report. now rewrite Hn.
  - intros m. unfold chidd_get_protocol. now rewrite Hn.
  - intros rh stage request Hi. unfold chidd_control_xfer_cb.
    destruct (negb _); [reflexivity|]. now rewrite Hi, Hn.
Qed.

Lemma chidd_step_binding (app : chidd_app_t) (P : port_t) (c : chidd_call)
    (st : chidd_state) :
  Forall2 same_binding (_chidd_instances st)
    (_chidd_instances (snd (chidd_step app P c st))).
Proof.
  eapply CHID_Properties.slot_update_Forall2;
    [| |apply (CHID_Properties.chidd_step_slots app P c st)].
  - apply CHID_Properties.same_binding_refl.
  - intros x y Hxy _. exact Hxy.
Qed.

Lemma chidd_run_binding (app : chidd_app_t) (P : port_t) (cs : list chidd_call) :
  forall st,
    Forall2 same_binding (_chidd_instances st)
      (_chidd_instances (chidd_run app P cs st)).
Proof.
  induction cs as [|c cs IH]; intros st; cbn [chidd_run].
  - apply Forall_Forall2_diag, Forall_forall. intros x _.
    apply CHID_Properties.same_binding_refl.
  - eapply (Forall2_trans same_binding same_binding same_binding);
      [|apply chidd_step_binding|apply IH].
    intros x y z. apply CHID_Properties.same_binding_trans.
Qed.

(** X26. Nothing but [chidd_open] and [chidd_reset] binds or unbinds.  Over
    any sequence of control requests, [chidd_send_report],
    [chidd_receive_report] and transfer completions, every instance keeps
    its port, interface number and endpoints, so each interface number and
    each endpoint address is found at the same instance as before, and the
    first free instance stays the same. *)
Theorem chidd_run_keeps_bindings (app : chidd_app_t) (P : port_t)
    (cs : list chidd_call) (st : chidd_state) :
  let st' := chidd_run app P cs st in
  Forall2 same_binding (_chidd_instances st) (_chidd_instances st') /\
  (forall itf, fst <$> get_instance_by_itf itf (_chidd_instances st') =
               fst <$> get_instance_by_itf itf (_chidd_instances st)) /\
  (forall ep, fst <$> get_instance_by_ep ep (_chidd_instances st') =
              fst <$> get_instance_by_ep ep (_chidd_instances st)) /\
  fst <$> get_free_instance (_chidd_instances st') =
  fst <$> get_free_instance (_chidd_instances st).
Proof.
  intros st'. pose proof (chidd_run_binding app P cs st) as Hf.
  fold st' in Hf. split; [exact Hf|].
  split; [|split].
  - intros itf. symmetry. unfold get_instance_by_itf.
    apply (list_find_index_Forall2 _ same_binding); [|exact Hf].
    intros x y (_ & H2 & H3 & H4). rewrite H2, H3, H4. reflexivity.
  - intros ep. symmetry. unfold get_instance_by_ep.
    apply (list_find_index_Forall2 _ same_binding); [|exact Hf].
    intros x y (_ & _ & H3 & H4). rewrite H3, H4. reflexivity.
  - symmetry. unfold get_free_instance.
    apply (list_find_index_Forall2 _ same_binding); [|exact Hf].
    intros x y (_ & _ & H3 & H4). rewrite H3, H4. reflexivity.
Qed.

(** X27. [chidd_get_protocol] and the GET_PROTOCOL request agree: for a
    bound interface the function stores through a non-[NULL] pointer the
    very byte that the request ([bmRequestType = 0xA1], [bRequest = 0x03])
    sends in its one-byte data stage, the [protocol_mode] field of the
    instance; with a [NULL] pointer the function fails. *)
Theorem chidd_get_protocol_agrees (app : chidd_app_t) (P : port_t) (rh : Z)
    (request : tusb_control_request_t) (st : chidd_state)
    (i : nat) (p : chidd_instance_t) :
  bmRequestType request = 0xA1 ->
  bRequest request = HID_REQ_CONTROL_GET_PROTOCOL ->
  0 <= wIndex request < 256 ->
  get_instance_by_itf (wIndex request) (_chidd_instances st) = Some (i, p) ->
  rh = rhport p ->
  let st' := snd (chidd_control_xfer_cb app P rh CONTROL_STAGE_SETUP request st) in
  chidd_get_protocol (wIndex request) true st = (true, Some (protocol_mode p)) /\
  chidd_get_protocol (wIndex request) false st = (false, None) /\
  trace (usbd st') =
    trace (usbd st) ++ [EvControlXfer rh request (DriverBuffer (ProtocolMode i)) 1] /\
  chidd_buf_bytes st' (ProtocolMode i) = [protocol_mode p].
Proof.
  intros Hbm Hb Hw Hg Hrh st'.
  destruct (chidd_lookup_lt _ _ _ _ Hg) as (Hl & Hlt).
  assert (Hrec : bmRequestType_bit_recipient request = TUSB_REQ_RCPT_INTERFACE)
    by (unfold bmRequestType_bit_recipient; rewrite Hbm; reflexivity).
  assert (Hty : bmRequestType_bit_type request = TUSB_REQ_TYPE_CLASS)
    by (unfold bmRequestType_bit_type; rewrite Hbm; reflexivity).
  assert (Hdir : bmRequestType_bit_direction request = 1)
    by (unfold bmRequestType_bit_direction; rewrite Hbm; reflexivity).
  unfold chidd_get_protocol. rewrite Hg.
  split; [reflexivity|]. split; [reflexivity|].
  subst st'.
  rewrite (CHID_Properties.chidd_control_xfer_cb_class app P rh CONTROL_STAGE_SETUP
             request st i p Hrec Hty Hw Hg Hrh).
  unfold chidd_class_specific_request_handler. rewrite Hb, Hdir.
  change (HID_REQ_CONTROL_GET_PROTOCOL =? HID_REQ_CONTROL_GET_REPORT) with false.
  change (HID_REQ_CONTROL_GET_PROTOCOL =? HID_REQ_CONTROL_SET_REPORT) with false.
  change (HID_REQ_CONTROL_GET_PROTOCOL =? HID_REQ_CONTROL_GET_IDLE) with false.
  change (HID_REQ_CONTROL_GET_PROTOCOL =? HID_REQ_CONTROL_SET_IDLE) with false.
  change (HID_REQ_CONTROL_GET_PROTOCOL =? HID_REQ_CONTROL_GET_PROTOCOL) with true.
  change (1 =? 1) with true.
  change (CONTROL_STAGE_SETUP =? CONTROL_STAGE_SETUP) with true.
  cbn [negb]. unfold tud_control_xfer.
  cbn [fst snd usbd with_usbd log trace chidd_buf_bytes _chidd_instances].
  rewrite Hl, Hrh. split; reflexivity.
Qed.

Lemma chidd_get_protocol_agrees_witness :
  chidd_get_protocol 0 true Examples.chidd_bound = (true, Some HID_PROTOCOL_REPORT) /\
  chidd_buf_bytes
    (snd (chidd_control_xfer_cb Examples.chidd_app_min Examples.port_accept 0
            CONTROL_STAGE_SETUP
            (Examples.hid_class_request 1 HID_REQ_CONTROL_GET_PROTOCOL 0)
            Examples.chidd_bound)) (ProtocolMode 0) = [HID_PROTOCOL_REPORT].
Proof.
  destruct (chidd_get_protocol_agrees Examples.chidd_app_min Examples.port_accept 0
              (Examples.hid_class_request 1 HID_REQ_CONTROL_GET_PROTOCOL 0)
              Examples.chidd_bound 0%nat
              {| rhport := 0; itf_num := 0; ep_in := 0x81; ep_out := 0x01;
                 transfer_in_buf := 0; transfer_out_buf := 0;
                 transfer_out_size := 0; protocol_mode := 1; idle_rate := 0;
                 hid_descriptor := Some (tu_desc_next Examples.hid_desc_itf) |})
    as (Ha & _ & _ & Hb);
    [reflexivity | reflexivity | cbn; lia | reflexivity | reflexivity |].
  split; [exact Ha | exact Hb].
Defined.

End CHID_Lifecycle.
